(** * brainpy.dynamics.phase_plane_analyzer: a shallow embedding

    The module analysed here is glue code: it validates its arguments,
    dispatches to a 1D or 2D analyzer, calls collaborators that live in
    other modules of the package (the analyzer base classes, [utils],
    [solver], [integration], [core]) or outside it (sympy, numpy,
    matplotlib), and packages what they return.

    The embedding keeps that shape.  Python values are an inductive type,
    exceptions are data, and every method is a computation in a small
    state-and-exception monad whose state holds the mutable dictionaries
    the methods alias and the sequence of external calls made so far.
    Collaborators whose code is not part of the analysed file are fields
    of the objects that carry them (bound methods inherited from the base
    classes) or of an environment record (module-level imports); numpy's
    float64 is Rocq's primitive binary64 float.

    Embedded: the constructors of [PhasePlaneAnalyzer] and of the two
    analyzers, [get_trajectories], [plot_vector_field] and
    [plot_nullcline] (1D, 2D and the facade's), [plot_fixed_point] (1D and
    2D) and the 2D [plot_trajectory].  Not embedded: [PhasePortraitAnalyzer]
    (the same constructor after a printed notice), the facade's
    [plot_fixed_point] (a bare forwarding call) and the facade's
    [plot_trajectory] with the 1D method behind it: the facade converts
    [initials] with [np.array] first, and [get_trajectories] then meets
    numpy scalars, which the values used here do not tell from Python
    numbers. *)

From Stdlib Require Import ZArith List String Ascii Floats Lia Permutation.
From stdpp Require Import base option gmap strings list pretty.

Set Warnings "-inexact-float,-register-all".

(** ** Python values *)

(** Dictionaries that are passed around as arguments keep their insertion
    order and hold each key once; tuples, lists and numpy arrays are all
    [PSeq] (a 2D array is a sequence of rows). *)
Inductive pyobj : Type :=
| PNone
| PBool (b : bool)
| PInt (z : Z)
| PFloat (x : float)
| PStr (s : string)
| PSeq (l : list pyobj)
| PDict (d : list (string * pyobj))
| PNeuType (name : string) (step_scopes : list string)
| PFun (name : string)
| PRef (loc : nat).

Inductive exc : Type :=
| ModelUseError (msg : string)
| TypeError (msg : string)
| ValueError (msg : string)
| KeyError (key : string)
| IndexError (msg : string)
| AttributeError (msg : string)
| NotImplementedError (msg : string)
| KeyboardInterrupt
| AssertionError.

Inductive result (A : Type) : Type :=
| Ok (a : A)
| Raise (e : exc).
Arguments Ok {A} a.
Arguments Raise {A} e.

Definition is_ok {A} (r : result A) : bool :=
  match r with Ok _ => true | Raise _ => false end.

(** Pure code that may raise is written with stdpp's [x ← m; k]. *)
#[global] Instance result_ret : MRet result := @Ok.
#[global] Instance result_bind : MBind result :=
  fun A B f r => match r with Ok a => f a | Raise e => Raise e end.
#[global] Instance result_fmap : FMap result :=
  fun A B f r => match r with Ok a => Ok (f a) | Raise e => Raise e end.

(** ** Strings the source builds *)

Definition dq : string := String "034"%char EmptyString.
Definition quoted (s : string) : string := dq +:+ s +:+ dq.

(** [s.strip()] *)
Definition is_space (c : ascii) : bool :=
  let n := nat_of_ascii c in Nat.eqb n 32 || (Nat.leb 9 n && Nat.leb n 13).

Fixpoint lstrip (s : string) : string :=
  match s with
  | String c rest => if is_space c then lstrip rest else s
  | EmptyString => EmptyString
  end.

Definition py_strip (s : string) : string :=
  String.rev (lstrip (String.rev (lstrip s))).

(** [s[:-2]] *)
Definition drop_last2 (s : string) : string :=
  substring 0 (String.length s - 2) s.

(** [needle in hay] *)
Fixpoint contains (needle hay : string) : bool :=
  String.prefix needle hay
  || match hay with
     | EmptyString => false
     | String _ rest => contains needle rest
     end.

(** ** dict, len, indexing, truth *)

Fixpoint od_get {A} (k : string) (d : list (string * A)) : option A :=
  match d with
  | [] => None
  | (k', v) :: r => if String.eqb k k' then Some v else od_get k r
  end.

(** [d.get(k, default)] *)
Definition dict_get_default (d : list (string * pyobj)) (k : string) (default : pyobj) : pyobj :=
  match od_get k d with Some v => v | None => default end.

Definition py_len (o : pyobj) : result nat :=
  match o with
  | PSeq l => Ok (length l)
  | PDict d => Ok (length d)
  | PStr s => Ok (String.length s)
  | _ => Raise (TypeError "object has no len()")
  end.

(** [o[i]] for a non-negative index *)
Definition py_index (o : pyobj) (i : nat) : result pyobj :=
  match o with
  | PSeq l =>
      match l !! i with
      | Some v => Ok v
      | None => Raise (IndexError "index out of range")
      end
  | PStr s =>
      match String.get i s with
      | Some c => Ok (PStr (String c EmptyString))
      | None => Raise (IndexError "string index out of range")
      end
  | _ => Raise (TypeError "object is not subscriptable")
  end.

(** what [for v in o] runs over *)
Definition py_iter (o : pyobj) : result (list pyobj) :=
  match o with
  | PSeq l => Ok l
  | PStr s => Ok (map (fun c => PStr (String c EmptyString)) (list_ascii_of_string s))
  | PDict d => Ok (map (fun kv => PStr (fst kv)) d)
  | _ => Raise (TypeError "object is not iterable")
  end.

(** [enumerate(l)] *)
Definition enumerate {A} (l : list A) : list (nat * A) := zip (seq 0 (length l)) l.

(** [d[k] = v] on an insertion-ordered dictionary *)
Fixpoint od_set {A} (k : string) (v : A) (d : list (string * A)) : list (string * A) :=
  match d with
  | [] => [(k, v)]
  | (k', v') :: r => if String.eqb k k' then (k, v) :: r else (k', v') :: od_set k v r
  end.

(** [isinstance(o, (int, float))]: [bool] is a subclass of [int] *)
Definition is_int_or_float (o : pyobj) : bool :=
  match o with
  | PInt _ | PFloat _ | PBool _ => true
  | _ => false
  end.

Definition is_dict (o : pyobj) : bool :=
  match o with PDict _ => true | _ => false end.

Definition truthy (o : pyobj) : bool :=
  match o with
  | PNone => false
  | PBool b => b
  | PInt z => negb (z =? 0)%Z
  | PFloat x => negb (x =? 0)%float
  | PStr s => negb (String.eqb s EmptyString)
  | PSeq l => negb (Nat.eqb (length l) 0)
  | PDict d => negb (Nat.eqb (length d) 0)
  | PNeuType _ _ | PFun _ | PRef _ => true
  end.

(** int -> float64, exact below 2^53 *)
Definition float_of_Z (z : Z) : float :=
  if (z <? 0)%Z then (- of_uint63 (Uint63.of_Z (- z)))%float
  else of_uint63 (Uint63.of_Z z).

(** what [arr[j, i] = val] and float arithmetic accept *)
Definition as_float (o : pyobj) : result float :=
  match o with
  | PFloat x => Ok x
  | PInt z => Ok (float_of_Z z)
  | PBool b => Ok (if b then 1%float else 0%float)
  | PSeq _ => Raise (ValueError "setting an array element with a sequence.")
  | PStr _ => Raise (ValueError "could not convert string to float")
  | _ => Raise (TypeError "float() argument must be a string or a number")
  end.

(** the operand of float arithmetic *)
Definition num_value (o : pyobj) : result float :=
  match o with
  | PFloat x => Ok x
  | PInt z => Ok (float_of_Z z)
  | PBool b => Ok (if b then 1%float else 0%float)
  | _ => Raise (TypeError "unsupported operand type(s)")
  end.

(** [d[k]] *)
Definition lookup_key {A} (k : string) (d : list (string * A)) : result A :=
  match od_get k d with
  | Some v => Ok v
  | None => Raise (KeyError k)
  end.

Definition arr1 (l : list float) : pyobj := PSeq (map PFloat l).
Definition arr2 (m : list (list float)) : pyobj := PSeq (map arr1 m).

(** ** State: aliased dictionaries and the external calls made *)

Inductive event : Type :=
| Print (s : string)
| Call (fn : string) (args : list pyobj) (kwargs : list (string * pyobj)).

(** A location is an index into [heap]; dictionaries are never freed. *)
Record state : Type := {
  heap : list (gmap string pyobj);
  log : list event
}.

Definition M (A : Type) : Type := state -> result A * state.

Definition ret {A} (a : A) : M A := fun s => (Ok a, s).
Definition raise {A} (e : exc) : M A := fun s => (Raise e, s).
Definition lift {A} (r : result A) : M A := fun s => (r, s).
Definition bind {A B} (m : M A) (k : A -> M B) : M B :=
  fun s =>
    match m s with
    | (Ok a, s') => k a s'
    | (Raise e, s') => (Raise e, s')
    end.

Notation "x <- c1 ;; c2" := (bind c1 (fun x => c2))
  (at level 100, c1 at next level, right associativity).
Notation "c1 ;; c2" := (bind c1 (fun _ => c2))
  (at level 100, right associativity).

(** [try: m  except <the exceptions h maps to Some>: handler] *)
Definition try_except {A} (m : M A) (h : exc -> option (M A)) : M A :=
  fun s =>
    match m s with
    | (Ok a, s') => (Ok a, s')
    | (Raise e, s') =>
        match h e with
        | Some k => k s'
        | None => (Raise e, s')
        end
    end.

Definition emit (e : event) : M unit :=
  fun s => (Ok tt, {| heap := heap s; log := log s ++ [e] |}).

(** matplotlib and [print]: recorded, never raising *)
Definition plt (fn : string) (args : list pyobj) (kwargs : list (string * pyobj)) : M unit :=
  emit (Call ("plt." +:+ fn) args kwargs).

Definition when (b : bool) (m : M unit) : M unit :=
  if b then m else ret tt.

Fixpoint for_each {A} (l : list A) (body : A -> M unit) : M unit :=
  match l with
  | [] => ret tt
  | a :: r => body a ;; for_each r body
  end.

(** [copy.deepcopy(d)] of a dictionary of numbers: a fresh location *)
Definition deepcopy (l : nat) : M nat :=
  fun s =>
    match heap s !! l with
    | Some d => (Ok (length (heap s)), {| heap := heap s ++ [d]; log := log s |})
    | None => (Raise (KeyError "dangling reference"), s)
    end.

Definition read_dict (l : nat) : M (gmap string pyobj) :=
  fun s =>
    match heap s !! l with
    | Some d => (Ok d, s)
    | None => (Raise (KeyError "dangling reference"), s)
    end.

(** [d.update(other)]: the entries of [other] win *)
Definition dict_update (l : nat) (other : gmap string pyobj) : M unit :=
  fun s =>
    match heap s !! l with
    | Some d => (Ok tt, {| heap := <[l := other ∪ d]> (heap s); log := log s |})
    | None => (Raise (KeyError "dangling reference"), s)
    end.

(** [d[k] = v] *)
Definition dict_store (l : nat) (k : string) (v : pyobj) : M unit :=
  fun s =>
    match heap s !! l with
    | Some d => (Ok tt, {| heap := <[l := <[k := v]> d]> (heap s); log := log s |})
    | None => (Raise (KeyError "dangling reference"), s)
    end.

(** ** Calling a Python function by keyword *)

(** The parameters after [self], each with whether it has a default, and
    whether the function ends in [**kwargs]. *)
Record Signature : Type := {
  sig_params : list (string * bool);
  sig_var_keyword : bool
}.

Definition declares (sg : Signature) (k : string) : bool :=
  existsb (String.eqb k) (map fst (sig_params sg)).

Definition supplied (kwargs : list (string * pyobj)) (k : string) : bool :=
  existsb (String.eqb k) (map fst kwargs).

(** What CPython does with [f(k1=v1, ..., kn=vn)]: a keyword the function
    does not declare is an error unless it collects [**kwargs]; then a
    parameter without default that no keyword supplies is an error. *)
Definition missing_required (sg : Signature) (kwargs : list (string * pyobj))
  : list (string * bool) :=
  List.filter (fun p => negb (snd p) && negb (supplied kwargs (fst p))) (sig_params sg).

Definition bind_keywords (fname : string) (sg : Signature) (kwargs : list (string * pyobj))
  : result (list (string * pyobj)) :=
  match List.filter (fun kv => negb (declares sg (fst kv))) kwargs, sig_var_keyword sg with
  | (k, _) :: _, false =>
      Raise (TypeError (fname +:+ "() got an unexpected keyword argument '" +:+ k +:+ "'"))
  | _, _ =>
      match missing_required sg kwargs with
      | (p, _) :: _ =>
          Raise (TypeError (fname +:+ "() missing 1 required positional argument: '" +:+ p +:+ "'"))
      | [] => Ok kwargs
      end
  end.

(** ** The objects the analysed file works on *)

(** An expression of an equation group: [expr.var_name], [expr.code]. *)
Record Expr : Type := {
  var_name : string;
  code : string
}.

(** [self.x_eq_group], [self.target_eqs[var]]: the fields the file reads. *)
Record EqGroup : Type := {
  func_name : string;
  sub_exprs : list Expr;
  old_exprs : list Expr;
  func_scope : gmap string pyobj
}.

(** [{'status': ..., 'f': ...}] as the 2D base class returns it. *)
Record Solved : Type := {
  status : string;
  solved_f : list float -> result (list float)
}.

(** A 1D analyzer: its attributes, and the bound methods it inherits from
    [base.Base1DNeuronAnalyzer].  [a1_pars_update] and [a1_fixed_vars] are
    locations: the dictionaries are shared with the caller. *)
Record Analyzer1D : Type := {
  a1_model : pyobj;
  a1_x_var : string;
  a1_dvar_names : list string;
  a1_target_vars : list (string * pyobj);
  a1_fixed_vars : nat;
  a1_pars_update : nat;
  a1_options : list (string * pyobj);
  a1_resolutions : list (string * list float);
  a1_xs : list float;
  a1_x_eq_group : EqGroup;
  a1_target_eqs : list (string * EqGroup);
  a1_get_f_dx : result (list float -> result (list float));
  a1_get_f_dfdx : result (pyobj -> result pyobj)
}.

(** A 2D analyzer, with the methods of [base.Base2DNeuronAnalyzer]. *)
Record Analyzer2D : Type := {
  a2_model : pyobj;
  a2_x_var : string;
  a2_y_var : string;
  a2_dvar_names : list string;
  a2_target_vars : list (string * pyobj);
  a2_fixed_vars : pyobj;
  a2_pars_update : pyobj;
  a2_options : list (string * pyobj);
  a2_resolutions : list (string * list float);
  a2_x_eq_group : EqGroup;
  a2_y_eq_group : EqGroup;
  a2_get_f_dx : result (list (list float) -> list (list float) -> result (list (list float)));
  a2_get_f_dy : result (list (list float) -> list (list float) -> result (list (list float)));
  a2_get_y_by_x_in_y_eq : result Solved;
  a2_get_x_by_y_in_y_eq : result Solved;
  a2_get_y_by_x_in_x_eq : result Solved;
  a2_get_x_by_y_in_x_eq : result Solved;
  a2_get_f_optimize_y_nullcline : pyobj -> result (result (list float * list float));
  a2_get_f_optimize_x_nullcline : pyobj -> result (result (list float * list float))
}.

Inductive Analyzer : Type :=
| An1D (a : Analyzer1D)
| An2D (a : Analyzer2D).

(** What [group.run] leaves in [group.mon]: the time axis and, per
    monitored variable, one row per time step and one column per neuron. *)
Record Monitor : Type := {
  mon_ts : list float;
  mon_vars : list (string * list (list float))
}.

(** ** Module-level collaborators *)

Record Env : Type := {
  (* base.Base1DNeuronAnalyzer.__init__, base.Base2DNeuronAnalyzer.__init__ *)
  base1d_signature : Signature;
  base1d_init : list (string * pyobj) -> M Analyzer1D;
  base2d_signature : Signature;
  base2d_init : list (string * pyobj) -> M Analyzer2D;
  (* core.NeuGroup, core.TrajectoryRunner, core.Network, group.run *)
  core_NeuGroup : pyobj -> nat -> list string -> pyobj -> result unit;
  core_TrajectoryRunner : list string -> pyobj -> result unit;
  core_Network : result unit;
  group_ST_set : string -> list float -> result unit;
  group_run : list (string * list float) -> pyobj -> pyobj -> result Monitor;
  (* utils *)
  rescale : pyobj -> float -> result pyobj;
  stability_analysis : pyobj -> result string;
  get_1d_classification : list string;
  plot_scheme : list (string * list (string * pyobj));
  jit_compile : gmap string pyobj -> list string -> list Expr -> string
                -> result (list float -> result float);
  (* solver.find_root_of_1d *)
  find_root_of_1d : (list float -> result float) -> list float -> result (list float);
  (* integration.str2sympy, sympy.solve under utils.timeout, integration.sympy2str,
     integration.get_mapping_scope; a sympy expression is known by its text *)
  str2sympy : string -> result string;
  sympy_solve : pyobj -> string -> string -> result (list string);
  sympy2str : string -> string;
  get_mapping_scope : gmap string pyobj;
  (* the interpreter: the value of an expression's text in a namespace,
     and how an f-string prints a value *)
  py_eval : gmap string pyobj -> string -> result pyobj;
  py_format : pyobj -> string
}.

(** A call into another module: recorded, then answered by the collaborator. *)
Definition extcall {A} (fn : string) (args : list pyobj) (kwargs : list (string * pyobj))
  (answer : result A) : M A :=
  emit (Call fn args kwargs) ;; lift answer.

Definition names (l : list string) : pyobj := PSeq (map PStr l).

(** ** PhasePlane1DAnalyzer.__init__ and PhasePlane2DAnalyzer.__init__ *)

(** The base class's constructor on the same arguments, then the runner group. *)
Definition PhasePlane1DAnalyzer_init (env : Env) (kwargs : list (string * pyobj)) : M Analyzer1D :=
  emit (Call "PhasePlane1DAnalyzer" [] kwargs) ;;
  bound <- lift (bind_keywords "__init__" (base1d_signature env) kwargs) ;;
  self <- base1d_init env bound ;;
  extcall "core.NeuGroup" [a1_model self]
    [("geometry", PInt 1); ("monitors", names (a1_dvar_names self));
     ("pars_update", PRef (a1_pars_update self))]
    (core_NeuGroup env (a1_model self) 1 (a1_dvar_names self) (PRef (a1_pars_update self))) ;;
  extcall "core.TrajectoryRunner" []
    [("target_vars", names (a1_dvar_names self)); ("fixed_vars", PRef (a1_fixed_vars self))]
    (core_TrajectoryRunner env (a1_dvar_names self) (PRef (a1_fixed_vars self))) ;;
  extcall "core.Network" [] [("mode", PStr "repeat")] (core_Network env) ;;
  ret self.

Definition PhasePlane2DAnalyzer_init (env : Env) (kwargs : list (string * pyobj)) : M Analyzer2D :=
  emit (Call "PhasePlane2DAnalyzer" [] kwargs) ;;
  bound <- lift (bind_keywords "__init__" (base2d_signature env) kwargs) ;;
  self <- base2d_init env bound ;;
  extcall "core.NeuGroup" [a2_model self]
    [("geometry", PInt 1); ("monitors", names (a2_dvar_names self));
     ("pars_update", a2_pars_update self)]
    (core_NeuGroup env (a2_model self) 1 (a2_dvar_names self) (a2_pars_update self)) ;;
  extcall "core.TrajectoryRunner" []
    [("target_vars", names (a2_dvar_names self)); ("fixed_vars", a2_fixed_vars self)]
    (core_TrajectoryRunner env (a2_dvar_names self) (a2_fixed_vars self)) ;;
  extcall "core.Network" [] [("mode", PStr "repeat")] (core_Network env) ;;
  ret self.

(** ** PhasePlaneAnalyzer.__init__ *)

Record PhasePlaneAnalyzer : Type := {
  ppa_model : pyobj;
  ppa_target_vars : pyobj;
  ppa_fixed_vars : pyobj;
  ppa_pars_update : pyobj;
  ppa_options : list (string * pyobj);
  ppa_analyzer : Analyzer
}.

Definition msg_model : string :=
  "Phase plane analysis only support neuron type model.".
Definition msg_target_vars : string :=
  quoted "target_vars" +:+ " must a dict with the format of: {" +:+ quoted "Variable A"
  +:+ ": [A_min, A_max], " +:+ quoted "Variable B" +:+ ": [B_min, B_max]}".
Definition msg_fixed_vars : string :=
  quoted "fixed_vars" +:+ " must be a dict with the format of: {" +:+ quoted "Variable A"
  +:+ ": A_value, " +:+ quoted "Variable B" +:+ ": B_value}".
Definition msg_pars_update : string :=
  quoted "pars_update" +:+ " must be a dict with the format of: {" +:+ quoted "Par A"
  +:+ ": A_value, " +:+ quoted "Par B" +:+ ": B_value}".
Definition msg_invalid_par (key model_name : string) : string :=
  quoted key +:+ " is not a valid parameter in " +:+ quoted model_name +:+ " model.".
Definition msg_dimension : string :=
  "BrainPy only support 1D/2D phase plane analysis. Or, you can set " +:+ quoted "fixed_vars"
  +:+ " to fix other variables, then make 1D/2D phase plane analysis.".

(** [x = dict() if x is None else x] *)
Definition default_dict (o : pyobj) : pyobj :=
  match o with PNone => PDict [] | _ => o end.

(** the first key of [pars_update] that [model.step_scopes] does not hold *)
Definition first_invalid_par (step_scopes : list string) (pars : list (string * pyobj))
  : option string :=
  head (List.filter (fun k => negb (existsb (String.eqb k) step_scopes)) (map fst pars)).

(** [options.get(key, default)] for each recognised key, in source order *)
Definition read_options (options : pyobj) : result (list (string * pyobj)) :=
  match options with
  | PDict d =>
      Ok [("resolution", dict_get_default d "resolution" (PFloat 0.1));
          ("lim_scale", dict_get_default d "lim_scale" (PFloat 1.05));
          ("sympy_solver_timeout", dict_get_default d "sympy_solver_timeout" (PInt 5));
          ("escape_sympy_solver", dict_get_default d "escape_sympy_solver" (PBool false));
          ("shgo_args", dict_get_default d "shgo_args" (PDict []));
          ("show_shgo", dict_get_default d "show_shgo" (PBool false));
          ("disturb", dict_get_default d "disturb" (PFloat 1e-4));
          ("fl_tol", dict_get_default d "fl_tol" (PFloat 1e-6));
          ("xl_tol", dict_get_default d "xl_tol" (PFloat 1e-4))]
  | _ => Raise (AttributeError "object has no attribute 'get'")
  end.

Definition PhasePlaneAnalyzer_init (env : Env)
  (model target_vars fixed_vars pars_update options : pyobj) : M PhasePlaneAnalyzer :=
  (* check "model" *)
  match model with
  | PNeuType model_name step_scopes =>
      (* check "target_vars" *)
      match target_vars with
      | PDict tv =>
          (* check "fixed_vars" *)
          let fixed_vars := default_dict fixed_vars in
          if negb (is_dict fixed_vars) then raise (ModelUseError msg_fixed_vars) else
          (* check "pars_update" *)
          let pars_update := default_dict pars_update in
          match pars_update with
          | PDict pu =>
              match first_invalid_par step_scopes pu with
              | Some key => raise (ModelUseError (msg_invalid_par key model_name))
              | None =>
                  (* check for "options" *)
                  opts <- lift (read_options (default_dict options)) ;;
                  (* analyzer *)
                  match length tv with
                  | 1 =>
                      a <- PhasePlane1DAnalyzer_init env
                             [("model", model); ("vars_dynamical", target_vars);
                              ("vars_fixed", fixed_vars); ("pars_update", pars_update);
                              ("options", PDict opts)] ;;
                      ret {| ppa_model := model; ppa_target_vars := target_vars;
                             ppa_fixed_vars := fixed_vars; ppa_pars_update := pars_update;
                             ppa_options := opts; ppa_analyzer := An1D a |}
                  | 2 =>
                      a <- PhasePlane2DAnalyzer_init env
                             [("model", model); ("targevars_dynamicalt_vars", target_vars);
                              ("vars_fixed", fixed_vars); ("pars_update", pars_update);
                              ("options", PDict opts)] ;;
                      ret {| ppa_model := model; ppa_target_vars := target_vars;
                             ppa_fixed_vars := fixed_vars; ppa_pars_update := pars_update;
                             ppa_options := opts; ppa_analyzer := An2D a |}
                  | _ => raise (ModelUseError msg_dimension)
                  end
              end
          | _ => raise (ModelUseError msg_pars_update)
          end
      | _ => raise (ModelUseError msg_target_vars)
      end
  | _ => raise (ModelUseError msg_model)
  end.

(** ** get_trajectories *)

Definition msg_initials : string :=
  quoted "initials" +:+ " be a tuple/list/array with the format of "
  +:+ "[[var1 initial, var2 initial]].".

(** Lines 658-660: a flat sequence that starts with a number is one
    initial condition.  [np.array] keeps the rows of a batch as they are. *)
Definition format_initials (initials : pyobj) : result pyobj :=
  first ← py_index initials 0;
  Ok (if is_int_or_float first then PSeq [initials] else initials).

(** [np.array(o)], read along its first axis; a scalar makes a 0-d array,
    which has no length. *)
Definition np_rows (o : pyobj) : result (list pyobj) :=
  match o with
  | PSeq l => Ok l
  | _ => Raise (TypeError "len() of unsized object")
  end.

(** [np.zeros((rows, cols))] *)
Definition np_zeros (rows cols : nat) : list (list float) :=
  replicate rows (replicate cols 0%float).

(** [m[j, i] = val] *)
Definition np_set2 (m : list (list float)) (j i : nat) (val : pyobj) : result (list (list float)) :=
  match m !! j with
  | Some row =>
      if decide (i < length row) then
        x ← as_float val;
        Ok (<[j := <[i := x]> row]> m)
      else Raise (IndexError "index is out of bounds for axis 1")
  | None => Raise (IndexError "index is out of bounds for axis 0")
  end.

(** [for j, val in enumerate(initial): initial_states[j, i] = val] *)
Fixpoint store_initial (m : list (list float)) (i : nat) (vals : list (nat * pyobj))
  : result (list (list float)) :=
  match vals with
  | [] => Ok m
  | (j, val) :: rest => m' ← np_set2 m j i val; store_initial m' i rest
  end.

(** The loop of lines 664-673 over [enumerate(initials)]. *)
Fixpoint fill_initial_states (nvars : nat) (m : list (list float)) (rows : list (nat * pyobj))
  : result (list (list float)) :=
  match rows with
  | [] => Ok m
  | (i, initial) :: rest =>
      (* checking *)
      n ← py_len initial;
      if negb (Nat.eqb n nvars) then Raise (ModelUseError msg_initials) else
      (* initial values *)
      vals ← py_iter initial;
      m' ← store_initial m i (enumerate vals);
      fill_initial_states nvars m' rest
  end.

(** [a[:, i]] *)
Fixpoint column (a : list (list float)) (i : nat) : result (list float) :=
  match a with
  | [] => Ok []
  | row :: rest =>
      match row !! i with
      | Some x => tl ← column rest i; Ok (x :: tl)
      | None => Raise (IndexError "index is out of bounds for axis 1")
      end
  end.

(** The inner loop of lines 689-691: the legend and the trajectory so far. *)
Fixpoint monitor_vars (env : Env) (mon : Monitor) (i : nat) (initial : pyobj)
  (vars : list (nat * string)) (legend : string) (trajectory : list (string * pyobj))
  : result (string * list (string * pyobj)) :=
  match vars with
  | [] => Ok (legend, trajectory)
  | (j, var) :: rest =>
      v0 ← py_index initial j;
      let legend := legend +:+ "$" +:+ var +:+ "_0$=" +:+ py_format env v0 +:+ ", " in
      match od_get var (mon_vars mon) with
      | Some a =>
          col ← column a i;
          monitor_vars env mon i initial rest legend (od_set var (arr1 col) trajectory)
      | None => Raise (AttributeError var)
      end
  end.

(** Lines 684-694. *)
Fixpoint collect_trajectories (env : Env) (mon : Monitor) (target_vars : list string)
  (rows : list (nat * pyobj)) : result (list (list (string * pyobj))) :=
  match rows with
  | [] => Ok []
  | (i, initial) :: rest =>
      let trajectory := od_set "ts" (arr1 (mon_ts mon)) [] in
      '(legend, trajectory) ← monitor_vars env mon i initial (enumerate target_vars)
                                 "traj, " trajectory;
      let trajectory :=
        if truthy (PStr (py_strip legend))
        then od_set "legend" (PStr (drop_last2 legend)) trajectory
        else trajectory in
      tl ← collect_trajectories env mon target_vars rest;
      Ok (trajectory :: tl)
  end.

Definition get_trajectories (env : Env) (model : pyobj) (target_vars : list string)
  (initials duration fixed_vars inputs pars_update : pyobj)
  : M (list (list (string * pyobj))) :=
  (* format initial value setting *)
  initials <- lift (format_initials initials) ;;
  rows <- lift (np_rows initials) ;;
  (* format duration and initial values *)
  initial_states <- lift (fill_initial_states (length target_vars)
                            (np_zeros (length target_vars) (length rows)) (enumerate rows)) ;;
  (* initialize neuron group *)
  let num := length rows in
  extcall "NeuGroup" [model]
    [("geometry", PInt (Z.of_nat num)); ("monitors", names target_vars);
     ("pars_update", pars_update)]
    (core_NeuGroup env model num target_vars pars_update) ;;
  for_each (zip target_vars initial_states)
    (fun item => extcall "group.ST.__setitem__" [PStr (fst item); arr1 (snd item)] []
                   (group_ST_set env (fst item) (snd item))) ;;
  extcall "TrajectoryRunner" []
    [("target_vars", names target_vars); ("fixed_vars", fixed_vars)]
    (core_TrajectoryRunner env target_vars fixed_vars) ;;
  mon <- extcall "group.run" [] [("duration", duration); ("inputs", inputs)]
           (group_run env (zip target_vars initial_states) duration inputs) ;;
  (* monitors *)
  lift (collect_trajectories env mon target_vars (enumerate rows)).

(** ** numpy on float64 matrices *)

Definition np_meshgrid (xs ys : list float) : list (list float) * list (list float) :=
  (map (fun _ => xs) ys, map (fun y => map (fun _ => y) xs) ys).

(** [np.isnan(a).any()] *)
Definition any_isnan (a : list (list float)) : bool :=
  existsb (existsb is_nan) a.

(** An elementwise binary operation on arrays of one shape; numpy's
    broadcasting of arrays of different shapes is not part of the fragment. *)
Fixpoint map2_row (f : float -> float -> float) (r1 r2 : list float) : result (list float) :=
  match r1, r2 with
  | [], [] => Ok []
  | x :: t1, y :: t2 => t ← map2_row f t1 t2; Ok (f x y :: t)
  | _, _ => Raise (ValueError "operands could not be broadcast together")
  end.

Fixpoint map2_matrix (f : float -> float -> float) (a b : list (list float))
  : result (list (list float)) :=
  match a, b with
  | [], [] => Ok []
  | r1 :: t1, r2 :: t2 => r ← map2_row f r1 r2; t ← map2_matrix f t1 t2; Ok (r :: t)
  | _, _ => Raise (ValueError "operands could not be broadcast together")
  end.

(** [np.sqrt(dx ** 2 + dy ** 2)] *)
Definition np_speed (dx dy : list (list float)) : result (list (list float)) :=
  map2_matrix (fun u v => sqrt (u * u + v * v))%float dx dy.

(** numpy's maximum of two floats: a NaN wins *)
Definition fmax (a b : float) : float :=
  if is_nan a then a else if is_nan b then b else if (a <? b)%float then b else a.

(** [a.max()] *)
Definition np_max (a : list (list float)) : result float :=
  match concat a with
  | [] => Raise (ValueError "zero-size array to reduction operation maximum which has no identity")
  | x :: rest => Ok (foldl fmax x rest)
  end.

(** [lw_min, lw_max = line_widths] *)
Definition unpack_pair (o : pyobj) : result (float * float) :=
  l ← py_iter o;
  match l with
  | [a; b] => x ← num_value a; y ← num_value b; Ok (x, y)
  | _ => Raise (ValueError "not enough or too many values to unpack (expected 2)")
  end.

(** Lines 387-389: the line widths, normalised by the largest speed. *)
Definition line_width (line_widths : pyobj) (dx dy : list (list float))
  : result (list (list float)) :=
  speed ← np_speed dx dy;
  '(lw_min, lw_max) ← unpack_pair line_widths;
  top ← np_max speed;
  Ok (map (map (fun v => lw_min + lw_max * v / top)%float) speed).

(** ** plot_vector_field *)

Definition msg_missing : string :=
  "Missing variables. Please check and set missing variables to "
  +:+ quoted "fixed_vars" +:+ ".".

(** [try: m  except TypeError: raise ModelUseError('Missing variables. ...')] *)
Definition missing_variables {A} (m : M A) : M A :=
  try_except m
    (fun e => match e with
              | TypeError _ => Some (raise (ModelUseError msg_missing))
              | _ => None
              end).

(** [(self.options.lim_scale - 1.) / 2] *)
Definition axis_scale (options : list (string * pyobj)) : result float :=
  lim_scale ← lookup_key "lim_scale" options;
  ls ← num_value lim_scale;
  Ok ((ls - 1) / 2)%float.

(** [plt.xlim] or [plt.ylim] on the unpacked result of [utils.rescale(range, scale=scale)] *)
Definition set_lim (env : Env) (which : string) (range : pyobj) (scale : float) : M unit :=
  lims <- lift (rescale env range scale) ;;
  args <- lift (py_iter lims) ;;
  plt which args [].

Definition PhasePlane1DAnalyzer_plot_vector_field (env : Env) (self : Analyzer1D) (show : bool)
  : M unit :=
  let x_var := a1_x_var self in
  (* Nullcline of the x variable *)
  y_val <- missing_variables
             (f <- lift (a1_get_f_dx self) ;;
              xs <- lift (lookup_key x_var (a1_resolutions self)) ;;
              lift (f xs)) ;;
  (* visualization *)
  let label := "d" +:+ x_var +:+ "dt" in
  xs <- lift (lookup_key x_var (a1_resolutions self)) ;;
  plt "plot" [arr1 xs; arr1 y_val]
    [("color", PStr "lightcoral"); ("alpha", PFloat 0.7); ("linewidth", PInt 4);
     ("label", PStr label)] ;;
  plt "axhline" [PInt 0] [] ;;
  plt "xlabel" [PStr x_var] [] ;;
  plt "ylabel" [PStr label] [] ;;
  range <- lift (lookup_key x_var (a1_target_vars self)) ;;
  scale <- lift (axis_scale (a1_options self)) ;;
  set_lim env "xlim" range scale ;;
  plt "legend" [] [] ;;
  when show (plt "show" [] []).

Definition PhasePlane2DAnalyzer_plot_vector_field (env : Env) (self : Analyzer2D)
  (line_widths : pyobj) (show : bool) : M (list (list float) * list (list float)) :=
  xs <- lift (lookup_key (a2_x_var self) (a2_resolutions self)) ;;
  ys <- lift (lookup_key (a2_y_var self) (a2_resolutions self)) ;;
  let X := fst (np_meshgrid xs ys) in
  let Y := snd (np_meshgrid xs ys) in
  (* dx *)
  dx <- missing_variables (f <- lift (a2_get_f_dx self) ;; lift (f X Y)) ;;
  (* dy *)
  dy <- missing_variables (f <- lift (a2_get_f_dy self) ;; lift (f X Y)) ;;
  (* vector field *)
  (if any_isnan dx || any_isnan dy then
     plt "streamplot" [arr2 X; arr2 Y; arr2 dx; arr2 dy] []
   else
     lw <- lift (line_width line_widths dx dy) ;;
     plt "streamplot" [arr2 X; arr2 Y; arr2 dx; arr2 dy]
       [("linewidth", arr2 lw); ("arrowsize", PFloat 1.2); ("density", PInt 1);
        ("color", PStr "thistle")]) ;;
  plt "xlabel" [PStr (a2_x_var self)] [] ;;
  plt "ylabel" [PStr (a2_y_var self)] [] ;;
  when show (plt "show" [] []) ;;
  ret (dx, dy).

(** ** PhasePlane2DAnalyzer.plot_nullcline *)

(** [setting.get(key, default)] *)
Definition py_get (setting : pyobj) (key : string) (default : pyobj) : result pyobj :=
  match setting with
  | PDict d => Ok (dict_get_default d key default)
  | _ => Raise (AttributeError "object has no attribute 'get'")
  end.

Definition is_str (o : pyobj) (s : string) : bool :=
  match o with PStr s' => String.eqb s' s | _ => false end.

Definition y_style : list (string * pyobj) :=
  [("color", PStr "cornflowerblue"); ("alpha", PFloat 0.7)].
Definition x_style : list (string * pyobj) :=
  [("color", PStr "lightcoral"); ("alpha", PFloat 0.7)].

(** One of the two blocks of lines 480-547.  The blocks differ in the
    collaborators they ask ([y_by_x], [x_by_y], [optimizer]) and, where the
    sweep is plotted, in the style option tested, the colours and the
    label; the two symbolic branches are the same in both.  The result is
    [(x_values, y_values)] of the block's equation. *)
Definition nullcline_block (env : Env) (self : Analyzer2D) (xs ys : list float)
  (y_by_x x_by_y : result Solved) (optimizer : result (result (list float * list float)))
  (plot_style x_plot_style : pyobj) (sweep_style : list (string * pyobj)) (sweep_var : string)
  : M (list float * list float) :=
  let y_label := ("label", PStr (a2_y_var self +:+ " nullcline")) in
  let sweep_label := ("label", PStr (sweep_var +:+ " nullcline")) in
  y_by_x <- lift y_by_x ;;
  if String.eqb (status y_by_x) "sympy_success" then
    y_values <- missing_variables (lift (solved_f y_by_x xs)) ;;
    plt "plot" [arr1 xs; arr1 y_values] (y_style ++ [y_label]) ;;
    ret (xs, y_values)
  else
    x_by_y <- lift x_by_y ;;
    if String.eqb (status x_by_y) "sympy_success" then
      x_values <- missing_variables (lift (solved_f x_by_y ys)) ;;
      plt "plot" [arr1 x_values; arr1 ys] (y_style ++ [y_label]) ;;
      ret (x_values, ys)
    else
      (* optimization results *)
      optimizer <- lift optimizer ;;
      values <- lift optimizer ;;
      (if is_str plot_style "scatter" then
         plt "plot" [arr1 (fst values); arr1 (snd values); PStr "."] (sweep_style ++ [sweep_label])
       else if is_str plot_style "line" then
         plt "plot" [arr1 (fst values); arr1 (snd values)] (sweep_style ++ [sweep_label])
       else raise (ValueError ("Unknown plot style: " +:+ py_format env x_plot_style))) ;;
      ret values.

Definition PhasePlane2DAnalyzer_plot_nullcline (env : Env) (self : Analyzer2D)
  (numerical_setting : pyobj) (show : bool)
  : M (gmap string (list float * list float)) :=
  let numerical_setting := default_dict numerical_setting in
  let x_var := a2_x_var self in
  let y_var := a2_y_var self in
  x_setting <- lift (py_get numerical_setting (func_name (a2_x_eq_group self)) (PDict [])) ;;
  y_setting <- lift (py_get numerical_setting (func_name (a2_y_eq_group self)) (PDict [])) ;;
  x_coords <- lift (py_get x_setting "coords" (PStr (x_var +:+ "-" +:+ y_var))) ;;
  y_coords <- lift (py_get y_setting "coords" (PStr (x_var +:+ "-" +:+ y_var))) ;;
  x_plot_style <- lift (py_get x_setting "plot" (PStr "scatter")) ;;
  y_plot_style <- lift (py_get y_setting "plot" (PStr "scatter")) ;;
  xs <- lift (lookup_key x_var (a2_resolutions self)) ;;
  ys <- lift (lookup_key y_var (a2_resolutions self)) ;;
  (* Nullcline of the y variable *)
  in_y_eq <- nullcline_block env self xs ys
               (a2_get_y_by_x_in_y_eq self) (a2_get_x_by_y_in_y_eq self)
               (a2_get_f_optimize_y_nullcline self y_coords)
               x_plot_style x_plot_style y_style y_var ;;
  (* Nullcline of the x variable *)
  in_x_eq <- nullcline_block env self xs ys
               (a2_get_y_by_x_in_x_eq self) (a2_get_x_by_y_in_x_eq self)
               (a2_get_f_optimize_x_nullcline self x_coords)
               y_plot_style x_plot_style x_style x_var ;;
  (* finally *)
  plt "xlabel" [PStr x_var] [] ;;
  plt "ylabel" [PStr y_var] [] ;;
  scale <- lift (axis_scale (a2_options self)) ;;
  x_range <- lift (lookup_key x_var (a2_target_vars self)) ;;
  set_lim env "xlim" x_range scale ;;
  y_range <- lift (lookup_key y_var (a2_target_vars self)) ;;
  set_lim env "ylim" y_range scale ;;
  plt "legend" [] [] ;;
  when show (plt "show" [] []) ;;
  ret (<[func_name (a2_y_eq_group self) := in_y_eq]>
         (<[func_name (a2_x_eq_group self) := in_x_eq]> ∅)).

(** ** PhasePlane1DAnalyzer.plot_fixed_point *)

(** [l[-1]] *)
Definition last_expr (l : list Expr) : result Expr :=
  match last l with
  | Some e => Ok e
  | None => Raise (IndexError "list index out of range")
  end.

(** The generated functions are a chain of assignments followed by a
    [return]; calling one evaluates the chain in the namespace it was
    defined in. *)
Fixpoint run_assignments (env : Env) (ns : gmap string pyobj) (body : list Expr)
  : result (gmap string pyobj) :=
  match body with
  | [] => Ok ns
  | e :: rest => v ← py_eval env ns (code e); run_assignments env (<[var_name e := v]> ns) rest
  end.

(** [return e1, ..., en]: nothing returns [None], one expression returns
    its value, several return a tuple. *)
Definition return_value (env : Env) (ns : gmap string pyobj) (exprs : list string)
  : result pyobj :=
  match exprs with
  | [] => Ok PNone
  | [e] => py_eval env ns e
  | _ => vs ← mapM (py_eval env ns) exprs; Ok (PSeq vs)
  end.

(** [solve_x()], as lines 280-284 assemble it *)
Definition solve_x (env : Env) (x_group : EqGroup) (results : list string)
  (globals : gmap string pyobj) : result pyobj :=
  ns ← run_assignments env globals (removelast (sub_exprs x_group));
  return_value env ns (map (sympy2str env) results).

(** Lines 273-289, the body of the [try]. *)
Definition symbolic_x_values (env : Env) (self : Analyzer1D) (x_eq : string)
  (x_group : EqGroup) (scope : nat) : M pyobj :=
  (* solve *)
  timeout <- lift (lookup_key "sympy_solver_timeout" (a1_options self)) ;;
  results <- lift (sympy_solve env timeout x_eq (a1_x_var self)) ;;
  (* function *)
  dict_store scope "solve_x" (PFun "solve_x") ;;
  globals <- read_dict scope ;;
  x_values <- lift (solve_x env x_group results globals) ;;
  ret (PSeq [x_values]).

(** Lines 296-303. *)
Definition numeric_x_values (env : Env) (self : Analyzer1D) (x_group : EqGroup) (scope : nat)
  : M pyobj :=
  returned <- lift (last_expr (old_exprs x_group)) ;;
  globals <- read_dict scope ;;
  optimizer <- lift (jit_compile env globals [a1_x_var self] (removelast (old_exprs x_group))
                       (code returned)) ;;
  x_values <- lift (find_root_of_1d env optimizer (a1_xs self)) ;;
  ret (arr1 x_values).

(** [{a: [] for a in classes}] *)
Definition empty_container (classes : list string) : list (string * list pyobj) :=
  foldl (fun d a => od_set a [] d) [] classes.

(** The loop of lines 314-319 over [range(len(x_values))]. *)
Fixpoint classify (env : Env) (x_var : string) (f_dfdx : pyobj -> result pyobj)
  (x_values : pyobj) (indices : list nat) (container : list (string * list pyobj))
  : M (list (string * list pyobj)) :=
  match indices with
  | [] => ret container
  | i :: rest =>
      x <- lift (py_index x_values i) ;;
      dfdx <- lift (f_dfdx x) ;;
      fp_type <- lift (stability_analysis env dfdx) ;;
      emit (Print ("Fixed point #" +:+ pretty (i + 1) +:+ " at " +:+ x_var +:+ "="
                   +:+ py_format env x +:+ " is a " +:+ fp_type +:+ ".")) ;;
      points <- lift (lookup_key fp_type container) ;;
      classify env x_var f_dfdx x_values rest (od_set fp_type (points ++ [x]) container)
  end.

(** The loop of lines 323-326. *)
Definition plot_points (env : Env) (container : list (string * list pyobj)) : M unit :=
  for_each container
    (fun item =>
       if negb (Nat.eqb (length (snd item)) 0) then
         plot_style <- lift (lookup_key (fst item) (plot_scheme env)) ;;
         plt "plot" [PSeq (snd item); PSeq (replicate (length (snd item)) (PInt 0)); PStr "."]
           ([("markersize", PInt 20)] ++ plot_style ++ [("label", PStr (fst item))])
       else ret tt).

(** Lines 305-332: differential, stability analysis, visualization. *)
Definition classify_and_plot (env : Env) (self : Analyzer1D) (show : bool) (x_values : pyobj)
  : M pyobj :=
  f_dfdx <- lift (a1_get_f_dfdx self) ;;
  n <- lift (py_len x_values) ;;
  container <- classify env (a1_x_var self) f_dfdx x_values (seq 0 n)
                 (empty_container (get_1d_classification env)) ;;
  plot_points env container ;;
  plt "legend" [] [] ;;
  when show (plt "show" [] []) ;;
  ret x_values.

(** Lines 271-303: [Some x_values] when the symbolic solver answered,
    [None] when [sympy_failed] is still (or again) true. *)
Definition try_symbolic (env : Env) (self : Analyzer1D) (x_eq : string) (x_group : EqGroup)
  (scope : nat) : M (option pyobj) :=
  escape <- lift (lookup_key "escape_sympy_solver" (a1_options self)) ;;
  if negb (truthy escape) then
    try_except
      (x_values <- symbolic_x_values env self x_eq x_group scope ;; ret (Some x_values))
      (fun e => match e with
                | NotImplementedError _ | KeyboardInterrupt => Some (ret None)
                | _ => None
                end)
  else ret None.

(** Lines 265-269, the function scope: a copy of [self.pars_update],
    updated in place; the analyzer's own dictionaries are only read. *)
Definition function_scope (env : Env) (self : Analyzer1D) : M nat :=
  scope <- deepcopy (a1_pars_update self) ;;
  fixed_vars <- read_dict (a1_fixed_vars self) ;;
  dict_update scope fixed_vars ;;
  dict_update scope (get_mapping_scope env) ;;
  dict_update scope (func_scope (a1_x_eq_group self)) ;;
  ret scope.

(** Lines 262-303: the roots, before they are classified. *)
Definition find_x_values (env : Env) (self : Analyzer1D) : M pyobj :=
  returned <- lift (last_expr (sub_exprs (a1_x_eq_group self))) ;;
  x_eq <- lift (str2sympy env (code returned)) ;;
  x_group <- lift (lookup_key (a1_x_var self) (a1_target_eqs self)) ;;
  scope <- function_scope env self ;;
  symbolic <- try_symbolic env self x_eq x_group scope ;;
  match symbolic with
  | Some x_values => ret x_values
  | None => numeric_x_values env self x_group scope
  end.

Definition PhasePlane1DAnalyzer_plot_fixed_point (env : Env) (self : Analyzer1D) (show : bool)
  : M pyobj :=
  x_values <- find_x_values env self ;;
  classify_and_plot env self show x_values.

(** ** Initial conditions, as the caller means them *)




(** Every monitored variable is there, with at least [n] columns. *)
Definition monitors_all (target_vars : list string) (n : nat) (mon : Monitor) : bool :=
  forallb (fun var =>
             match od_get var (mon_vars mon) with
             | Some a => forallb (fun row => Nat.leb n (length row)) a
             | None => false
             end) target_vars.

(** ** Well-formed constructor arguments

    [fixed_vars], [pars_update] and [options] are dictionaries or [None],
    and every parameter that is updated is one the model declares. *)
Definition well_formed_args (step_scopes : list string)
  (fixed_vars pars_update options : pyobj) : Prop :=
  is_dict (default_dict fixed_vars) = true
  /\ (exists pu, default_dict pars_update = PDict pu
                 /\ Forall (fun kv => In (fst kv) step_scopes) pu)
  /\ is_dict (default_dict options) = true.

(** * Concrete systems *)

Definition st0 : state := {| heap := []; log := [] |}.

Definition default_options : list (string * pyobj) :=
  match read_options (PDict []) with Ok o => o | Raise _ => [] end.

(** The signature under which the 1D branch's call binds: the five
    keywords it passes, the last three optional. *)
Definition base_signature : Signature :=
  {| sig_params := [("model", false); ("vars_dynamical", false); ("vars_fixed", true);
                    ("pars_update", true); ("options", true)];
     sig_var_keyword := false |}.

(** Modelled from the spec: [utils.rescale], widening an interval by
    [scale] times its length on both sides. *)
Definition rescale0 (range : pyobj) (scale : float) : result pyobj :=
  '(lo, hi) ← unpack_pair range;
  Ok (PSeq [PFloat (lo - scale * (hi - lo)); PFloat (hi + scale * (hi - lo))])%float.

(** Modelled from the spec: [utils.stability_analysis] on a scalar
    derivative (section 4.2, step 6, with the class names of section 4.3);
    an array of derivatives is not a derivative. *)
Definition stability_analysis0 (derivative : pyobj) : result string :=
  match derivative with
  | PSeq _ => Raise (ValueError "Unknown derivatives")
  | _ =>
      d ← num_value derivative;
      Ok (if (d <? 0)%float then "stable"
          else if (0 <? d)%float then "unstable"
          else if (d =? 0)%float then "degenerate"
          else "undetermined")
  end.

Definition plot_scheme0 : list (string * list (string * pyobj)) :=
  [("stable", [("color", PStr "tab:red")]);
   ("unstable", [("color", PStr "tab:olive")]);
   ("degenerate", [("color", PStr "tab:gray")]);
   ("undetermined", [("color", PStr "black")])].

Definition cubic_code : string := "x * (x - 1) * (x + 1)".
Definition rootless_code : string := "x * x + abs(x) + 2".

Definition cubic (x : float) : float := (x * (x - 1) * (x + 1))%float.
Definition rootless (x : float) : float := (x * x + abs x + 2)%float.

(** The interpreter on the expressions of the two example systems. *)
Definition py_eval0 (ns : gmap string pyobj) (c : string) : result pyobj :=
  if String.eqb c "-1" then Ok (PInt (-1))
  else if String.eqb c "0" then Ok (PInt 0)
  else if String.eqb c "1" then Ok (PInt 1)
  else
    match ns !! "x" with
    | None => Raise (TypeError "name 'x' is not defined")
    | Some v =>
        x ← num_value v;
        if String.eqb c cubic_code then Ok (PFloat (cubic x))
        else if String.eqb c rootless_code then Ok (PFloat (rootless x))
        else Raise (ValueError "expression outside the examples")
    end.

(** A function compiled from a chain of assignments and a returned
    expression, called on one float. *)
Definition jit_compile0 (scope : gmap string pyobj) (args : list string) (body : list Expr)
  (returned : string) : result (list float -> result float) :=
  match args with
  | [x_var] =>
      Ok (fun xs =>
            match xs with
            | [x] =>
                ns ← (fix run ns body :=
                        match body with
                        | [] => Ok ns
                        | e :: rest => v ← py_eval0 ns (code e); run (<[var_name e := v]> ns) rest
                        end) (<[x_var := PFloat x]> scope) body;
                v ← py_eval0 ns returned;
                num_value v
            | _ => Raise (TypeError "optimizer_x() takes 1 positional argument")
            end)
  | _ => Raise (ValueError "one argument expected")
  end.

(** Modelled from the spec: the numeric fallback seeded by the resolution
    grid keeps the candidates whose residual is below [fl_tol] (1e-6). *)
Definition find_root_of_1d0 (f : list float -> result float) (xs : list float)
  : result (list float) :=
  ys ← mapM (fun x => f [x]) xs;
  Ok (map fst (List.filter (fun xy => (abs (snd xy) <? 1e-6)%float) (zip xs ys))).

(** sympy on the two examples: the cubic has three roots, the other
    equation is of a form it gives up on. *)
Definition sympy_solve0 (timeout : pyobj) (x_eq x_var : string) : result (list string) :=
  if String.eqb x_eq cubic_code then Ok ["-1"; "0"; "1"]
  else Raise (NotImplementedError "No algorithms are implemented to solve equation").

Definition py_format0 (o : pyobj) : string :=
  match o with
  | PInt z => pretty z
  | PStr s => s
  | _ => "<value>"
  end.

Definition monitor0 (states : list (string * list float)) : Monitor :=
  {| mon_ts := [0; 0.1]%float;
     mon_vars := map (fun kv => (fst kv, [snd kv; snd kv])) states |}.

(** Modelled from the spec: symmetric finite difference with step
    [disturb] (1e-4), on a number or elementwise on an array. *)
Definition dfdx0 (f : float -> float) (x : pyobj) : result pyobj :=
  let d1 (v : float) : float := ((f (v + 1e-4) - f (v - 1e-4)) / (2 * 1e-4))%float in
  match x with
  | PSeq l => vs ← mapM num_value l; Ok (arr1 (map d1 vs))
  | _ => v ← num_value x; Ok (PFloat (d1 v))
  end.

Definition eq_group0 (c : string) : EqGroup :=
  {| func_name := "int_x";
     sub_exprs := [{| var_name := "_dx"; code := c |}];
     old_exprs := [{| var_name := "_dx"; code := c |}];
     func_scope := ∅ |}.

Definition grid0 : list float := [-2; -1.5; -1; -0.5; 0; 0.5; 1; 1.5]%float.

(** A 1D analyzer of [dx/dt = f(x)] over [-2, 2], its two dictionaries at
    locations 0 and 1. *)
Definition analyzer1d (c : string) (f : float -> float) (options : list (string * pyobj))
  : Analyzer1D :=
  {| a1_model := PNeuType "model" [];
     a1_x_var := "x";
     a1_dvar_names := ["x"];
     a1_target_vars := [("x", PSeq [PFloat (-2); PFloat 2])];
     a1_fixed_vars := 0;
     a1_pars_update := 1;
     a1_options := options;
     a1_resolutions := [("x", grid0)];
     a1_xs := grid0;
     a1_x_eq_group := eq_group0 c;
     a1_target_eqs := [("x", eq_group0 c)];
     a1_get_f_dx := Ok (fun xs => Ok (map f xs));
     a1_get_f_dfdx := Ok (dfdx0 f) |}.

Definition st1 : state := {| heap := [∅; ∅]; log := [] |}.

(** The collaborators of the examples, around a classifier and a root finder. *)
Definition env_with (classifier : pyobj -> result string)
  (finder : (list float -> result float) -> list float -> result (list float)) : Env :=
  {| base1d_signature := base_signature;
     base1d_init := fun _ =>
       fun s => (Ok (analyzer1d cubic_code cubic default_options),
                 {| heap := heap s ++ [∅; ∅]; log := log s |});
     base2d_signature := base_signature;
     base2d_init := fun _ => raise (ValueError "no 2D system among the examples");
     core_NeuGroup := fun _ _ _ _ => Ok tt;
     core_TrajectoryRunner := fun _ _ => Ok tt;
     core_Network := Ok tt;
     group_ST_set := fun _ _ => Ok tt;
     group_run := fun states _ _ => Ok (monitor0 states);
     rescale := rescale0;
     stability_analysis := classifier;
     get_1d_classification := ["stable"; "unstable"; "degenerate"; "undetermined"];
     plot_scheme := plot_scheme0;
     jit_compile := jit_compile0;
     find_root_of_1d := finder;
     str2sympy := fun c => Ok c;
     sympy_solve := sympy_solve0;
     sympy2str := fun e => e;
     get_mapping_scope := ∅;
     py_eval := py_eval0;
     py_format := py_format0 |}.

Definition env0 : Env := env_with stability_analysis0 find_root_of_1d0.

Definition cubic_system : Analyzer1D := analyzer1d cubic_code cubic default_options.

(** The same system with [escape_sympy_solver] set. *)
Definition cubic_system_numeric : Analyzer1D :=
  analyzer1d cubic_code cubic (od_set "escape_sympy_solver" (PBool true) default_options).


(** The three roots of the cubic as the symbolic branch leaves them. *)
Definition cubic_row : pyobj := PSeq [PSeq [PInt (-1); PInt 0; PInt 1]].



Definition unsolved : result Solved :=
  Ok {| status := "sympy_failed"; solved_f := fun _ => Raise (KeyError "f") |}.

Definition solved_by (f : float -> float) : result Solved :=
  Ok {| status := "sympy_success"; solved_f := fun xs => Ok (map f xs) |}.

(** A 2D analyzer over the grid [-1, 0, 1] x [0, 1], given its two
    evaluators and what the base class finds for the four nullcline
    relations and the two sweeps. *)
Definition analyzer2d
  (f_dx f_dy : result (list (list float) -> list (list float) -> result (list (list float))))
  (y_by_x_in_y x_by_y_in_y y_by_x_in_x x_by_y_in_x : result Solved)
  (sweep_y sweep_x : result (list float * list float)) : Analyzer2D :=
  {| a2_model := PNeuType "model" [];
     a2_x_var := "x";
     a2_y_var := "y";
     a2_dvar_names := ["x"; "y"];
     a2_target_vars := [("x", PSeq [PFloat (-1); PFloat 1]); ("y", PSeq [PFloat 0; PFloat 1])];
     a2_fixed_vars := PDict [];
     a2_pars_update := PDict [];
     a2_options := default_options;
     a2_resolutions := [("x", [-1; 0; 1]%float); ("y", [0; 1]%float)];
     a2_x_eq_group := {| func_name := "int_x"; sub_exprs := []; old_exprs := [];
                         func_scope := ∅ |};
     a2_y_eq_group := {| func_name := "int_y"; sub_exprs := []; old_exprs := [];
                         func_scope := ∅ |};
     a2_get_f_dx := f_dx;
     a2_get_f_dy := f_dy;
     a2_get_y_by_x_in_y_eq := y_by_x_in_y;
     a2_get_x_by_y_in_y_eq := x_by_y_in_y;
     a2_get_y_by_x_in_x_eq := y_by_x_in_x;
     a2_get_x_by_y_in_x_eq := x_by_y_in_x;
     a2_get_f_optimize_y_nullcline := fun _ => Ok sweep_y;
     a2_get_f_optimize_x_nullcline := fun _ => Ok sweep_x |}.

Definition pointwise (f : float -> float -> float)
  : result (list (list float) -> list (list float) -> result (list (list float))) :=
  Ok (map2_matrix f).


(** A system whose evaluators need a variable that was not supplied. *)
Definition missing_argument (var : string) : exc :=
  TypeError ("f_dx() missing 1 required positional argument: '" +:+ var +:+ "'").

Definition system_missing (var : string) : Analyzer2D :=
  analyzer2d (Ok (fun _ _ => Raise (missing_argument var)))
    (pointwise (fun _ y => - y)%float)
    unsolved unsolved unsolved unsolved (Ok ([], [])) (Ok ([], [])).

Definition system1d_missing (var : string) : Analyzer1D :=
  {| a1_model := PNeuType "model" [];
     a1_x_var := "x";
     a1_dvar_names := ["x"];
     a1_target_vars := [("x", PSeq [PFloat (-2); PFloat 2])];
     a1_fixed_vars := 0;
     a1_pars_update := 1;
     a1_options := default_options;
     a1_resolutions := [("x", grid0)];
     a1_xs := grid0;
     a1_x_eq_group := eq_group0 cubic_code;
     a1_target_eqs := [("x", eq_group0 cubic_code)];
     a1_get_f_dx := Ok (fun _ => Raise (missing_argument var));
     a1_get_f_dfdx := Ok (dfdx0 cubic) |}.

Definition default_line_widths : pyobj := PSeq [PFloat 0.5; PFloat 5.5].


(** ** Evaluators that cannot be called

    [self.get_f_dx()(...)] raises [TypeError]: asking for the evaluator
    does, or calling it does. *)
Definition call_fails {A B} (getter : result (A -> result B)) (arg : result A) (msg : string)
  : Prop :=
  getter = Raise (TypeError msg)
  \/ exists f a, getter = Ok f /\ arg = Ok a /\ f a = Raise (TypeError msg).

Definition call2_fails {A B} (getter : result (A -> A -> result B)) (X Y : A) (msg : string)
  : Prop :=
  getter = Raise (TypeError msg)
  \/ exists f, getter = Ok f /\ f X Y = Raise (TypeError msg).

Definition call2_returns {A B} (getter : result (A -> A -> result B)) (X Y : A) (b : B)
  : Prop :=
  exists f, getter = Ok f /\ f X Y = Ok b.

(** ** Nullclines, as the specification describes them

    Section 4.4: for each equation, try [y] as a function of [x] over the
    [x] grid, then [x] as a function of [y] over the [y] grid, then the
    numeric sweep; a curve is its coordinate sequences and the method
    that produced them. *)
Inductive Method : Type :=
| SymbolicInX
| SymbolicInY
| NumericSweep.

Definition nullcline_curve (xs ys : list float) (y_by_x x_by_y : result Solved)
  (sweep : result (result (list float * list float)))
  : result (Method * (list float * list float)) :=
  by_x ← y_by_x;
  if String.eqb (status by_x) "sympy_success" then
    y_values ← solved_f by_x xs; Ok (SymbolicInX, (xs, y_values))
  else
    by_y ← x_by_y;
    if String.eqb (status by_y) "sympy_success" then
      x_values ← solved_f by_y ys; Ok (SymbolicInY, (x_values, ys))
    else
      optimizer ← sweep; values ← optimizer; Ok (NumericSweep, values).

(** The curves of the [x] and of the [y] equation of a 2D analyzer. *)
Definition x_nullcline (self : Analyzer2D) (xs ys : list float) (coords : pyobj)
  : result (Method * (list float * list float)) :=
  nullcline_curve xs ys (a2_get_y_by_x_in_x_eq self) (a2_get_x_by_y_in_x_eq self)
    (a2_get_f_optimize_x_nullcline self coords).

Definition y_nullcline (self : Analyzer2D) (xs ys : list float) (coords : pyobj)
  : result (Method * (list float * list float)) :=
  nullcline_curve xs ys (a2_get_y_by_x_in_y_eq self) (a2_get_x_by_y_in_y_eq self)
    (a2_get_f_optimize_y_nullcline self coords).

(** [x + '-' + y], the default sweep of both equations *)
Definition default_coords (self : Analyzer2D) : pyobj :=
  PStr (a2_x_var self +:+ "-" +:+ a2_y_var self).

(** Both axis limits can be set: the options hold a numeric [lim_scale],
    each variable has a range, and [utils.rescale] answers with a sequence. *)
Definition axes_ok (env : Env) (self : Analyzer2D) : Prop :=
  exists scale x_range y_range x_lims y_lims x_args y_args,
    axis_scale (a2_options self) = Ok scale
    /\ lookup_key (a2_x_var self) (a2_target_vars self) = Ok x_range
    /\ rescale env x_range scale = Ok x_lims /\ py_iter x_lims = Ok x_args
    /\ lookup_key (a2_y_var self) (a2_target_vars self) = Ok y_range
    /\ rescale env y_range scale = Ok y_lims /\ py_iter y_lims = Ok y_args.

(** [y = x^2] is the nullcline of both equations: once found
    symbolically, once by the sweep. *)
Definition parabola (x : float) : float := (x * x)%float.

Definition symbolic_system : Analyzer2D :=
  analyzer2d (pointwise (fun x y => y - x * x)%float) (pointwise (fun x y => x * x - y)%float)
    (solved_by parabola) unsolved (solved_by parabola) unsolved
    (Ok ([], [])) (Ok ([], [])).

Definition sweep_system : Analyzer2D :=
  analyzer2d (pointwise (fun x y => y - x * x)%float) (pointwise (fun x y => x * x - y)%float)
    unsolved unsolved unsolved unsolved
    (Ok ([-1; 0; 1], map parabola [-1; 0; 1]))%float
    (Ok ([-1; 0; 1], map parabola [-1; 0; 1]))%float.

(** ** The function scope of a fixed-point query *)

(** What lines 265-269 leave in the copy, given the contents of
    [self.pars_update] and [self.fixed_vars]: later updates win. *)
Definition scope_value (env : Env) (self : Analyzer1D) (pars fixed : gmap string pyobj)
  : gmap string pyobj :=
  func_scope (a1_x_eq_group self) ∪ (get_mapping_scope env ∪ (fixed ∪ pars)).

(** The state with one more dictionary allocated. *)
Definition with_scope (st : state) (d : gmap string pyobj) : state :=
  {| heap := heap st ++ [d]; log := log st |}.


(** ** A fixed-point query without its state

    What [plot_fixed_point] returns, as a function of the contents of the
    analyzer's two dictionaries: the same steps, with the function scope a
    value and nothing printed or plotted. *)




(** The loop of lines 314-319 over the elements of the array. *)
Fixpoint classify_list (env : Env) (f_dfdx : pyobj -> result pyobj) (xs : list pyobj)
  (container : list (string * list pyobj)) : result (list (string * list pyobj)) :=
  match xs with
  | [] => Ok container
  | x :: rest =>
      dfdx ← f_dfdx x;
      fp_type ← stability_analysis env dfdx;
      points ← lookup_key fp_type container;
      classify_list env f_dfdx rest (od_set fp_type (points ++ [x]) container)
  end.







(** ** Two calls and the optimizer's search order *)

(** The environment with another root finder. *)
Definition with_finder (env : Env)
  (finder : (list float -> result float) -> list float -> result (list float)) : Env :=
  {| base1d_signature := base1d_signature env;
     base1d_init := base1d_init env;
     base2d_signature := base2d_signature env;
     base2d_init := base2d_init env;
     core_NeuGroup := core_NeuGroup env;
     core_TrajectoryRunner := core_TrajectoryRunner env;
     core_Network := core_Network env;
     group_ST_set := group_ST_set env;
     group_run := group_run env;
     rescale := rescale env;
     stability_analysis := stability_analysis env;
     get_1d_classification := get_1d_classification env;
     plot_scheme := plot_scheme env;
     jit_compile := jit_compile env;
     find_root_of_1d := finder;
     str2sympy := str2sympy env;
     sympy_solve := sympy_solve env;
     sympy2str := sympy2str env;
     get_mapping_scope := get_mapping_scope env;
     py_eval := py_eval env;
     py_format := py_format env |}.




(** The example's root finder, searching the grid from the other end. *)
Definition find_root_of_1d_reversed (f : list float -> result float) (xs : list float)
  : result (list float) :=
  l ← find_root_of_1d0 f xs; Ok (rev l).

(** * The rest of the module *)

(** ** PhasePlane1DAnalyzer.plot_nullcline *)

Definition msg_no_nullcline : string := "1D phase plane do not support plot_nullcline.".

Definition PhasePlane1DAnalyzer_plot_nullcline (self : Analyzer1D) (resolution : pyobj)
  (show : bool) : M unit :=
  raise (NotImplementedError msg_no_nullcline).

(** ** PhasePlane2DAnalyzer.plot_fixed_point *)

(** What the method asks of [base.Base2DNeuronAnalyzer] and of [utils]
    beyond the fields of [Analyzer2D] and [Env]: the solver of the fixed
    points, the Jacobian and the names of the classes. *)
Record FixedPoint2D : Type := {
  get_f_fixed_point : result (result (pyobj * pyobj));
  get_f_jacobian : result (pyobj -> pyobj -> result pyobj);
  get_2d_classification : list string
}.

(** [{a: {'x': [], 'y': []} for a in classes}] *)
Definition empty_container_2d (classes : list string)
  : list (string * (list pyobj * list pyobj)) :=
  foldl (fun d a => od_set a ([], []) d) [] classes.

(** The loop of lines 422-428 over [range(len(x_values))]. *)
Fixpoint classify_2d (env : Env) (x_var y_var : string)
  (f_jacobian : pyobj -> pyobj -> result pyobj) (x_values y_values : pyobj)
  (indices : list nat) (container : list (string * (list pyobj * list pyobj)))
  : M (list (string * (list pyobj * list pyobj))) :=
  match indices with
  | [] => ret container
  | i :: rest =>
      x <- lift (py_index x_values i) ;;
      y <- lift (py_index y_values i) ;;
      jacobian <- lift (f_jacobian x y) ;;
      fp_type <- lift (stability_analysis env jacobian) ;;
      emit (Print ("Fixed point #" +:+ pretty (i + 1) +:+ " at " +:+ x_var +:+ "="
                   +:+ py_format env x +:+ ", " +:+ y_var +:+ "=" +:+ py_format env y
                   +:+ " is a " +:+ fp_type +:+ ".")) ;;
      points <- lift (lookup_key fp_type container) ;;
      classify_2d env x_var y_var f_jacobian x_values y_values rest
        (od_set fp_type (fst points ++ [x], snd points ++ [y]) container)
  end.

(** The loop of lines 432-435. *)
Definition plot_points_2d (env : Env) (container : list (string * (list pyobj * list pyobj)))
  : M unit :=
  for_each container
    (fun item =>
       if negb (Nat.eqb (length (fst (snd item))) 0) then
         plot_style <- lift (lookup_key (fst item) (plot_scheme env)) ;;
         plt "plot" [PSeq (fst (snd item)); PSeq (snd (snd item)); PStr "."]
           ([("markersize", PInt 20)] ++ plot_style ++ [("label", PStr (fst item))])
       else ret tt).

Definition PhasePlane2DAnalyzer_plot_fixed_point (env : Env) (base : FixedPoint2D)
  (self : Analyzer2D) (show : bool) : M (pyobj * pyobj) :=
  (* function for fixed point solving *)
  f_fixed_point <- lift (get_f_fixed_point base) ;;
  values <- lift f_fixed_point ;;
  let x_values := fst values in
  let y_values := snd values in
  (* function for jacobian matrix *)
  f_jacobian <- lift (get_f_jacobian base) ;;
  (* stability analysis *)
  n <- lift (py_len x_values) ;;
  container <- classify_2d env (a2_x_var self) (a2_y_var self) f_jacobian x_values y_values
                 (seq 0 n) (empty_container_2d (get_2d_classification base)) ;;
  (* visualization *)
  plot_points_2d env container ;;
  plt "legend" [] [] ;;
  when show (plt "show" [] []) ;;
  ret (x_values, y_values).

(** ** PhasePlane2DAnalyzer.plot_trajectory *)

Definition msg_axes (axes : string) : string :=
  "Unknown axes " +:+ quoted axes +:+ ", only support " +:+ quoted "v-v" +:+ " and "
  +:+ quoted "t-v" +:+ ".".

(** [legend + suffix] *)
Definition py_add_str (legend : pyobj) (suffix : string) : result pyobj :=
  match legend with
  | PStr s => Ok (PStr (s +:+ suffix))
  | _ => Raise (TypeError "unsupported operand type(s) for +")
  end.

(** Lines 597-600: one curve per trajectory in the plane of the two
    variables.  A trajectory is a [tools.DictPlus]: [trajectory.legend] and
    [getattr(trajectory, var)] read its items. *)
Definition plot_in_plane (x_var y_var : string) (trajectory : list (string * pyobj)) : M unit :=
  x <- lift (lookup_key x_var trajectory) ;;
  y <- lift (lookup_key y_var trajectory) ;;
  legend <- lift (lookup_key "legend" trajectory) ;;
  plt "plot" [x; y] [("label", legend)].

(** Lines 609-611 and 612-614: one variable against time. *)
Definition plot_in_time (var : string) (trajectory : list (string * pyobj)) : M unit :=
  ts <- lift (lookup_key "ts" trajectory) ;;
  v <- lift (lookup_key var trajectory) ;;
  legend <- lift (lookup_key "legend" trajectory) ;;
  label <- lift (py_add_str legend (", " +:+ var)) ;;
  plt "plot" [ts; v] [("label", label)].

Definition PhasePlane2DAnalyzer_plot_trajectory (env : Env) (self : Analyzer2D)
  (initials duration inputs axes : pyobj) (show : bool) : M unit :=
  let x_var := a2_x_var self in
  let y_var := a2_y_var self in
  trajectories <- get_trajectories env (a2_model self) (map fst (a2_target_vars self))
                    initials duration (a2_fixed_vars self) inputs (a2_pars_update self) ;;
  (if is_str axes "v-v" then
     for_each trajectories (plot_in_plane x_var y_var) ;;
     plt "xlabel" [PStr x_var] [] ;;
     plt "ylabel" [PStr y_var] [] ;;
     scale <- lift (axis_scale (a2_options self)) ;;
     x_range <- lift (lookup_key x_var (a2_target_vars self)) ;;
     set_lim env "xlim" x_range scale ;;
     y_range <- lift (lookup_key y_var (a2_target_vars self)) ;;
     set_lim env "ylim" y_range scale ;;
     plt "legend" [] []
   else if is_str axes "t-v" then
     for_each trajectories
       (fun trajectory => plot_in_time x_var trajectory ;; plot_in_time y_var trajectory) ;;
     plt "legend" [] [("title", PStr "Initial values")]
   else raise (ModelUseError (msg_axes (py_format env axes)))) ;;
  when show (plt "show" [] []).

(** ** PhasePlaneAnalyzer.plot_vector_field and plot_nullcline *)

(** The parameters the analyzers' methods declare after [self]. *)
Definition plot_vector_field_1d_signature : Signature :=
  {| sig_params := [("show", true)]; sig_var_keyword := false |}.
Definition plot_vector_field_2d_signature : Signature :=
  {| sig_params := [("line_widths", true); ("show", true)]; sig_var_keyword := false |}.
Definition plot_nullcline_1d_signature : Signature :=
  {| sig_params := [("resolution", true); ("show", true)]; sig_var_keyword := false |}.
Definition plot_nullcline_2d_signature : Signature :=
  {| sig_params := [("numerical_setting", true); ("show", true)]; sig_var_keyword := false |}.

(** [self.analyzer.plot_vector_field(line_widths=line_widths, show=show)]:
    the same keywords, whichever analyzer was installed. *)
Definition PhasePlaneAnalyzer_plot_vector_field (env : Env) (self : PhasePlaneAnalyzer)
  (line_widths : pyobj) (show : bool) : M unit :=
  let kwargs := [("line_widths", line_widths); ("show", PBool show)] in
  match ppa_analyzer self with
  | An1D a =>
      lift (bind_keywords "plot_vector_field" plot_vector_field_1d_signature kwargs) ;;
      PhasePlane1DAnalyzer_plot_vector_field env a show
  | An2D a =>
      lift (bind_keywords "plot_vector_field" plot_vector_field_2d_signature kwargs) ;;
      PhasePlane2DAnalyzer_plot_vector_field env a line_widths show ;;
      ret tt
  end.

(** [self.analyzer.plot_nullcline(show=show)]; what the analyzer returns is dropped. *)
Definition PhasePlaneAnalyzer_plot_nullcline (env : Env) (self : PhasePlaneAnalyzer)
  (show : bool) : M unit :=
  let kwargs := [("show", PBool show)] in
  match ppa_analyzer self with
  | An1D a =>
      lift (bind_keywords "plot_nullcline" plot_nullcline_1d_signature kwargs) ;;
      PhasePlane1DAnalyzer_plot_nullcline a (PFloat 0.1) show
  | An2D a =>
      lift (bind_keywords "plot_nullcline" plot_nullcline_2d_signature kwargs) ;;
      PhasePlane2DAnalyzer_plot_nullcline env a PNone show ;;
      ret tt
  end.

(** * Vocabulary of the further properties *)

(** [isinstance(model, NeuType)] *)
Definition is_NeuType (o : pyobj) : bool :=
  match o with PNeuType _ _ => true | _ => false end.

(** [except TypeError] *)
Definition is_TypeError (e : exc) : bool :=
  match e with TypeError _ => true | _ => false end.

(** The options the constructor stores, in the order of lines 129-137. *)
Definition option_names : list string :=
  ["resolution"; "lim_scale"; "sympy_solver_timeout"; "escape_sympy_solver"; "shgo_args";
   "show_shgo"; "disturb"; "fl_tol"; "xl_tol"].

(** The state after one more event. *)
Definition logged (st : state) (events : list event) : state :=
  {| heap := heap st; log := log st ++ events |}.


(** The text the loop of lines 689-691 appends to ['traj, '] for one
    initial condition: [$var_0$=value, ] for every variable. *)
Fixpoint legend_items (env : Env) (initial : pyobj) (vars : list (nat * string))
  : result string :=
  match vars with
  | [] => Ok EmptyString
  | (j, var) :: rest =>
      v0 ← py_index initial j;
      items ← legend_items env initial rest;
      Ok ("$" +:+ var +:+ "_0$=" +:+ py_format env v0 +:+ ", " +:+ items)
  end.

(** The class of a root: [utils.stability_analysis(f_dfdx(x))]. *)
Definition class_of (env : Env) (f_dfdx : pyobj -> result pyobj) (x : pyobj) : result string :=
  dfdx ← f_dfdx x; stability_analysis env dfdx.

Definition in_class (env : Env) (f_dfdx : pyobj -> result pyobj) (k : string) (x : pyobj)
  : bool :=
  match class_of env f_dfdx x with
  | Ok fp_type => String.eqb fp_type k
  | Raise _ => false
  end.

(** The environment with another symbolic solver. *)
Definition with_solver (env : Env) (solver : pyobj -> string -> string -> result (list string))
  : Env :=
  {| base1d_signature := base1d_signature env;
     base1d_init := base1d_init env;
     base2d_signature := base2d_signature env;
     base2d_init := base2d_init env;
     core_NeuGroup := core_NeuGroup env;
     core_TrajectoryRunner := core_TrajectoryRunner env;
     core_Network := core_Network env;
     group_ST_set := group_ST_set env;
     group_run := group_run env;
     rescale := rescale env;
     stability_analysis := stability_analysis env;
     get_1d_classification := get_1d_classification env;
     plot_scheme := plot_scheme env;
     jit_compile := jit_compile env;
     find_root_of_1d := find_root_of_1d env;
     str2sympy := str2sympy env;
     sympy_solve := solver;
     sympy2str := sympy2str env;
     get_mapping_scope := get_mapping_scope env;
     py_eval := py_eval env;
     py_format := py_format env |}.

(** An equation whose nullcline comes from the numeric sweep: neither
    symbolic relation was found. *)
Definition uses_sweep (y_by_x x_by_y : result Solved) : bool :=
  match y_by_x, x_by_y with
  | Ok by_x, Ok by_y =>
      negb (String.eqb (status by_x) "sympy_success")
      && negb (String.eqb (status by_y) "sympy_success")
  | _, _ => false
  end.

(** A [numerical_setting] of the documented form: a dictionary (or
    [None]) whose entries for the two equations, where present, are
    dictionaries; [x_setting] and [y_setting] are what lines 470-471 read. *)
Definition setting_of (self : Analyzer2D) (numerical_setting : pyobj)
  (x_setting y_setting : list (string * pyobj)) : Prop :=
  py_get (default_dict numerical_setting) (func_name (a2_x_eq_group self)) (PDict [])
  = Ok (PDict x_setting)
  /\ py_get (default_dict numerical_setting) (func_name (a2_y_eq_group self)) (PDict [])
     = Ok (PDict y_setting).

(** A plot style that is neither ['scatter'] nor ['line']. *)
Definition unknown_style (style : pyobj) : bool :=
  negb (is_str style "scatter") && negb (is_str style "line").

(** The number of curves drawn: recorded calls of [plt.plot]. *)
Definition is_plot (e : event) : bool :=
  match e with
  | Call fn _ _ => String.eqb fn "plt.plot"
  | Print _ => false
  end.

Definition plot_calls (events : list event) : nat := length (List.filter is_plot events).

(** A trajectory as [plot_trajectory] needs it: time axis, legend text and
    the given variables are there. *)
Definition has_curves (vars : list string) (trajectory : list (string * pyobj)) : Prop :=
  (exists ts, od_get "ts" trajectory = Some ts)
  /\ (exists legend, od_get "legend" trajectory = Some (PStr legend))
  /\ Forall (fun var => exists v, od_get var trajectory = Some v) vars.

(** What lines 684-694 put into the trajectory of initial condition [i]:
    the legend (the text of the loop without its last two characters),
    column [i] of every monitored variable, and the time axis. *)
Definition trajectory_of (env : Env) (mon : Monitor) (vars : list string) (i : nat)
  (initial : pyobj) (trajectory : list (string * pyobj)) : Prop :=
  (exists items legend,
      legend_items env initial (enumerate vars) = Ok items
      /\ legend +:+ ", " = "traj, " +:+ items
      /\ od_get "legend" trajectory = Some (PStr legend))
  /\ (forall var, In var vars -> var <> "legend" ->
        exists a col,
          od_get var (mon_vars mon) = Some a /\ column a i = Ok col
          /\ od_get var trajectory = Some (arr1 col))
  /\ (~ In "ts" vars -> od_get "ts" trajectory = Some (arr1 (mon_ts mon))).

(** * Further concrete systems *)

(** The cubic system with an evaluator of [dx] that cannot be obtained. *)
Definition failing_system_1d (e : exc) : Analyzer1D :=
  {| a1_model := PNeuType "model" [];
     a1_x_var := "x";
     a1_dvar_names := ["x"];
     a1_target_vars := [("x", PSeq [PFloat (-2); PFloat 2])];
     a1_fixed_vars := 0;
     a1_pars_update := 1;
     a1_options := default_options;
     a1_resolutions := [("x", grid0)];
     a1_xs := grid0;
     a1_x_eq_group := eq_group0 cubic_code;
     a1_target_eqs := [("x", eq_group0 cubic_code)];
     a1_get_f_dx := Raise e;
     a1_get_f_dfdx := Ok (dfdx0 cubic) |}.

(** A 2D system whose evaluator of [dx] raises when it is called. *)
Definition failing_system_2d (e : exc) : Analyzer2D :=
  analyzer2d (Ok (fun _ _ => Raise e)) (pointwise (fun _ y => - y)%float)
    unsolved unsolved unsolved unsolved (Ok ([], [])) (Ok ([], [])).




(** [y = x^2] found symbolically for the [y] equation, by the sweep for
    the [x] equation. *)
Definition mixed_system : Analyzer2D :=
  analyzer2d (pointwise (fun x y => y - x * x)%float) (pointwise (fun x y => x * x - y)%float)
    (solved_by parabola) unsolved unsolved unsolved
    (Ok ([], [])) (Ok ([-1; 0; 1], map parabola [-1; 0; 1]))%float.

(** A symbolic relation that cannot be evaluated for want of a variable. *)
Definition solved_missing (var : string) : result Solved :=
  Ok {| status := "sympy_success"; solved_f := fun _ => Raise (missing_argument var) |}.

Definition nullcline_missing (var : string) : Analyzer2D :=
  analyzer2d (pointwise (fun x y => y - x * x)%float) (pointwise (fun x y => x * x - y)%float)
    (solved_missing var) unsolved (solved_by parabola) unsolved (Ok ([], [])) (Ok ([], [])).

Definition nullcline_missing_in_y (var : string) : Analyzer2D :=
  analyzer2d (pointwise (fun x y => y - x * x)%float) (pointwise (fun x y => x * x - y)%float)
    unsolved (solved_missing var) (solved_by parabola) unsolved (Ok ([], [])) (Ok ([], [])).

(** The methods of a 2D system with the fixed points [(x, y)] of the
    two arrays, every one of them a saddle. *)
Definition fixed_points_2d (x_values y_values : list float) : FixedPoint2D :=
  {| get_f_fixed_point := Ok (Ok (arr1 x_values, arr1 y_values));
     get_f_jacobian := Ok (fun _ _ => Ok (PFloat 1));
     get_2d_classification := ["unstable"; "stable"] |}.

(** * Properties *)

(** ** Small facts about the monad *)

Lemma bind_ok {A B} (m : M A) (k : A -> M B) s a s' :
  m s = (Ok a, s') -> bind m k s = k a s'.
Proof. intros H; unfold bind; now rewrite H. Qed.

Lemma lift_ok {A B} (r : result A) (k : A -> M B) s a :
  r = Ok a -> bind (lift r) k s = k a s.
Proof. intros ->; reflexivity. Qed.

Lemma bind_inv {A B} (m : M A) (k : A -> M B) s b s' :
  bind m k s = (Ok b, s') ->
  exists a s1, m s = (Ok a, s1) /\ k a s1 = (Ok b, s').
Proof.
  unfold bind. destruct (m s) as [[a|e] s1]; [eauto|discriminate].
Qed.

Lemma lift_inv {A} (r : result A) s a s' :
  lift r s = (Ok a, s') -> r = Ok a /\ s' = s.
Proof. unfold lift. intros [= -> ->]. split; reflexivity. Qed.

Lemma missing_variables_lift_inv {A} (r : result A) s a s' :
  missing_variables (lift r) s = (Ok a, s') -> r = Ok a /\ s' = s.
Proof.
  unfold missing_variables, try_except, lift, raise.
  destruct r as [a0|[]]; intros [= <- <-]; split; reflexivity.
Qed.

(** ** The constructor *)

Lemma existsb_eqb_In (k : string) (l : list string) :
  In k l -> existsb (String.eqb k) l = true.
Proof.
  intros H; apply existsb_exists; exists k; split; [assumption|apply String.eqb_refl].
Qed.

Lemma first_invalid_par_none step_scopes (pu : list (string * pyobj)) :
  Forall (fun kv => In (fst kv) step_scopes) pu ->
  first_invalid_par step_scopes pu = None.
Proof.
  unfold first_invalid_par; induction 1 as [|kv pu Hkv _ IH]; [reflexivity|].
  cbn [map List.filter]. rewrite (existsb_eqb_In _ _ Hkv). exact IH.
Qed.

Lemma read_options_dict options :
  is_dict (default_dict options) = true ->
  exists opts, read_options (default_dict options) = Ok opts.
Proof.
  destruct options; cbn; try discriminate; intros _; eexists; reflexivity.
Qed.

(** C7.  A [target_vars] dictionary with three or more dynamical variables
    makes the constructor raise and leaves the state as it was: neither
    analyzer class is instantiated, so no grid is built and nothing is
    recorded.  With well-formed remaining arguments the error is the
    [ModelUseError] that says only 1D and 2D analysis is supported. *)
Theorem init_rejects_three_or_more_variables :
  forall env name step_scopes tv fixed_vars pars_update options st,
    3 <= length tv ->
    (exists e,
        PhasePlaneAnalyzer_init env (PNeuType name step_scopes) (PDict tv)
          fixed_vars pars_update options st = (Raise e, st))
    /\ (well_formed_args step_scopes fixed_vars pars_update options ->
        PhasePlaneAnalyzer_init env (PNeuType name step_scopes) (PDict tv)
          fixed_vars pars_update options st = (Raise (ModelUseError msg_dimension), st)).
Proof.
  intros env name step_scopes tv fixed_vars pars_update options st Hlen.
  assert (Hdim : forall n, 3 <= n ->
            match n with 1 | 2 => false | _ => true end = true).
  { intros [|[|[|n]]] Hn; try lia; reflexivity. }
  destruct tv as [|v1 [|v2 [|v3 tv]]]; cbn [length] in Hlen; try lia.
  split.
  - unfold PhasePlaneAnalyzer_init.
    destruct (negb (is_dict (default_dict fixed_vars))); [eexists; reflexivity|].
    destruct (default_dict pars_update); try (eexists; reflexivity).
    destruct (first_invalid_par step_scopes d); [eexists; reflexivity|].
    unfold bind, lift.
    destruct (read_options (default_dict options)) as [opts|e]; eexists; reflexivity.
  - intros (Hfixed & (pu & Hpu & Hkeys) & Hopts).
    unfold PhasePlaneAnalyzer_init. rewrite Hfixed, Hpu. cbn [negb].
    rewrite (first_invalid_par_none _ _ Hkeys).
    destruct (read_options_dict _ Hopts) as [opts Hread].
    unfold bind, lift. rewrite Hread. reflexivity.
Qed.

Lemma init_rejects_three_or_more_variables_witness :
  PhasePlaneAnalyzer_init env0 (PNeuType "HH" ["gNa"])
    (PDict [("V", PSeq [PInt (-80); PInt 40]); ("m", PSeq [PInt 0; PInt 1]);
            ("n", PSeq [PInt 0; PInt 1])])
    PNone (PDict [("gNa", PFloat 120)]) PNone st0
  = (Raise (ModelUseError msg_dimension), st0).
Proof.
  apply (init_rejects_three_or_more_variables env0 "HH" ["gNa"]
           [("V", PSeq [PInt (-80); PInt 40]); ("m", PSeq [PInt 0; PInt 1]);
            ("n", PSeq [PInt 0; PInt 1])]
           PNone (PDict [("gNa", PFloat 120)]) PNone st0).
  - cbn; lia.
  - split; [reflexivity|]. split; [|reflexivity].
    exists [("gNa", PFloat 120)]. split; [reflexivity|].
    constructor; [left; reflexivity|constructor].
Defined.

Lemma bind_keywords_undeclared fname sg kwargs k :
  sig_var_keyword sg = false ->
  In k (map fst kwargs) ->
  declares sg k = false ->
  exists msg, bind_keywords fname sg kwargs = Raise (TypeError msg).
Proof.
  intros Hkw Hin Hk. unfold bind_keywords. rewrite Hkw.
  destruct (List.filter (fun kv => negb (declares sg (fst kv))) kwargs)
    as [|[k' v'] rest] eqn:Hf.
  - exfalso. apply in_map_iff in Hin as ((k0 & v0) & Hk0 & Hin). cbn in Hk0; subst k0.
    assert (Hmem : In (k, v0) (List.filter (fun kv => negb (declares sg (fst kv))) kwargs)).
    { apply filter_In; split; [assumption|]. cbn. now rewrite Hk. }
    rewrite Hf in Hmem. destruct Hmem.
  - eexists; reflexivity.
Qed.

(** C1.  With two dynamical variables the constructor hands [target_vars]
    to the 2D analyzer under the keyword [targevars_dynamicalt_vars], where
    the 1D branch writes [vars_dynamical].  Whenever the 2D base class's
    constructor neither declares a parameter of that name nor collects
    arbitrary keywords, binding the call raises [TypeError]: no 2D analyzer
    is installed, however well-formed the arguments are. *)
Theorem init_two_variables_misspelt_keyword :
  forall env name step_scopes tv fixed_vars pars_update options st,
    length tv = 2 ->
    well_formed_args step_scopes fixed_vars pars_update options ->
    sig_var_keyword (base2d_signature env) = false ->
    declares (base2d_signature env) "targevars_dynamicalt_vars" = false ->
    exists msg,
      fst (PhasePlaneAnalyzer_init env (PNeuType name step_scopes) (PDict tv)
             fixed_vars pars_update options st) = Raise (TypeError msg).
Proof.
  intros env name step_scopes tv fixed_vars pars_update options st Hlen
    (Hfixed & (pu & Hpu & Hkeys) & Hopts) Hkw Hdecl.
  destruct (read_options_dict _ Hopts) as [opts Hread].
  unfold PhasePlaneAnalyzer_init. rewrite Hfixed, Hpu. cbn [negb].
  rewrite (first_invalid_par_none _ _ Hkeys), Hlen.
  unfold bind at 1. unfold lift at 1. rewrite Hread.
  unfold PhasePlane2DAnalyzer_init.
  match goal with
  | |- context [bind_keywords ?f ?sg ?kw] =>
      destruct (bind_keywords_undeclared f sg kw "targevars_dynamicalt_vars" Hkw)
        as [msg Hmsg]; [cbn; tauto|exact Hdecl|]; exists msg
  end.
  unfold bind, lift, emit. cbn [fst snd]. rewrite Hmsg. reflexivity.
Qed.

Lemma init_two_variables_misspelt_keyword_witness :
  exists msg,
    fst (PhasePlaneAnalyzer_init env0 (PNeuType "FitzHughNagumo" ["a"; "b"; "tau"])
           (PDict [("V", PSeq [PInt (-3); PInt 3]); ("w", PSeq [PInt (-1); PInt 3])])
           (PDict [("Iext", PFloat 0.8)]) PNone PNone st0) = Raise (TypeError msg).
Proof.
  apply (init_two_variables_misspelt_keyword env0 "FitzHughNagumo" ["a"; "b"; "tau"]
           [("V", PSeq [PInt (-3); PInt 3]); ("w", PSeq [PInt (-1); PInt 3])]
           (PDict [("Iext", PFloat 0.8)]) PNone PNone st0).
  - reflexivity.
  - split; [reflexivity|]. split; [|reflexivity].
    exists []. split; [reflexivity|constructor].
  - reflexivity.
  - reflexivity.
Defined.

(** ** get_trajectories *)








Lemma mapM_result_cons {A B} (f : A -> result B) a l ys :
  mapM f (a :: l) = Ok ys ->
  exists y ys', f a = Ok y /\ mapM f l = Ok ys' /\ ys = y :: ys'.
Proof.
  cbn. destruct (f a) as [y|e]; cbn; [|discriminate].
  destruct (mapM f l) as [ys'|e]; cbn; [|discriminate].
  intros [= <-]. eauto.
Qed.

(** Storing one initial condition into a one-column array of zeros leaves
    its values, one per row. *)
Lemma store_initial_single vals :
  forall ys pre suf,
    mapM as_float vals = Ok ys ->
    length suf = length vals ->
    Forall (fun row => length row = 1) suf ->
    store_initial (pre ++ suf) 0 (zip (seq (length pre) (length vals)) vals)
    = Ok (pre ++ map (fun x => [x]) ys).
Proof.
  induction vals as [|v vals IH]; intros ys pre suf Hys Hlen Hsuf.
  - cbn in Hys. injection Hys as <-. destruct suf; [reflexivity|discriminate].
  - apply mapM_result_cons in Hys as (y & ys' & Hy & Hys' & ->).
    destruct suf as [|row suf]; [discriminate|].
    injection Hlen as Hlen. apply Forall_cons in Hsuf as [Hrow Hsuf].
    destruct row as [|x [|x' row]]; try discriminate.
    cbn [length seq zip_with store_initial]. unfold np_set2.
    rewrite (list_lookup_middle pre suf [x] (length pre) eq_refl).
    destruct (decide (0 < length [x])) as [_|Hn]; [|cbn in Hn; lia].
    rewrite Hy. cbn [mbind result_bind].
    replace (<[length pre := <[0 := y]> [x]]> (pre ++ [x] :: suf))
      with ((pre ++ [[y]]) ++ suf).
    + replace (S (length pre)) with (length (pre ++ [[y]]))
        by (rewrite length_app; cbn; lia).
      rewrite (IH ys' (pre ++ [[y]]) suf Hys' Hlen Hsuf).
      now rewrite <- app_assoc.
    + rewrite <- app_assoc, insert_app_r_alt by lia.
      now rewrite Nat.sub_diag.
Qed.

Lemma column_some a i :
  forallb (fun row => Nat.leb (S i) (length row)) a = true ->
  exists col, column a i = Ok col.
Proof.
  induction a as [|row a IH]; intros Ha; [eexists; reflexivity|].
  cbn [forallb] in Ha. apply andb_prop in Ha as [Hrow Ha].
  destruct (IH Ha) as [col Hcol]. cbn [column].
  destruct (row !! i) as [x|] eqn:Hx.
  - rewrite Hcol. eexists; reflexivity.
  - apply lookup_ge_None in Hx. apply Nat.leb_le in Hrow. lia.
Qed.

Lemma monitor_vars_some env mon i l vars :
  forall k legend trajectory,
    k + length vars <= length l ->
    monitors_all vars (S i) mon = true ->
    exists out,
      monitor_vars env mon i (PSeq l) (zip (seq k (length vars)) vars) legend trajectory
      = Ok out.
Proof.
  induction vars as [|var vars IH]; intros k legend trajectory Hk Hmon.
  - eexists; reflexivity.
  - unfold monitors_all in Hmon. cbn [forallb] in Hmon.
    apply andb_prop in Hmon as [Hvar Hmon]. cbn [length] in Hk.
    cbn [length seq zip_with monitor_vars py_index].
    destruct (l !! k) as [v0|] eqn:Hv0; [|apply lookup_ge_None in Hv0; lia].
    cbn [mbind result_bind].
    destruct (od_get var (mon_vars mon)) as [a|]; [|discriminate].
    destruct (column_some a i Hvar) as [col ->]. cbn [mbind result_bind].
    apply IH; [lia|exact Hmon].
Qed.

Lemma extcall_ok {A B} fn args kwargs (answer : result A) (k : A -> M B) s a :
  answer = Ok a ->
  bind (extcall fn args kwargs answer) k s
  = k a {| heap := heap s; log := log s ++ [Call fn args kwargs] |}.
Proof. intros ->. reflexivity. Qed.

Lemma set_states_ok env (states : list (string * list float)) :
  (forall key row, group_ST_set env key row = Ok tt) ->
  forall s,
    exists s',
      for_each states
        (fun item => extcall "group.ST.__setitem__" [PStr (fst item); arr1 (snd item)] []
                       (group_ST_set env (fst item) (snd item))) s
      = (Ok tt, s').
Proof.
  intros Hset. induction states as [|item states IH]; intros s.
  - eexists; reflexivity.
  - cbn [for_each]. rewrite (extcall_ok _ _ _ _ _ _ _ (Hset _ _)). apply IH.
Qed.

Lemma fill_single_initial l xs nvars :
  mapM as_float l = Ok xs ->
  length l = nvars ->
  fill_initial_states nvars (np_zeros nvars 1) (enumerate [PSeq l])
  = Ok (map (fun x => [x]) xs).
Proof.
  intros Hxs Hlen. cbn [enumerate length seq zip_with fill_initial_states py_len].
  cbn [mbind result_bind]. rewrite Hlen, Nat.eqb_refl. cbn [negb py_iter mbind result_bind].
  unfold enumerate.
  pose proof (store_initial_single l xs [] (np_zeros nvars 1) Hxs) as Hstore.
  cbn [app] in Hstore. change (length (@nil (list float))) with 0 in Hstore.
  rewrite Hstore.
  - reflexivity.
  - unfold np_zeros. rewrite length_replicate. now symmetry.
  - apply Forall_replicate. reflexivity.
Qed.

(** C10.  When the first element of [initials] is an [int] or a [float],
    [get_trajectories] treats the whole flat sequence as one initial
    condition: it behaves exactly as on the one-element batch holding that
    sequence, and when the sequence has one number per target variable and
    the neuron group runs, exactly one trajectory comes back. *)
Theorem get_trajectories_flat_initials_are_one_tuple :
  forall env model target_vars v rest duration fixed_vars inputs pars_update,
    is_int_or_float v = true ->
    (forall st,
        get_trajectories env model target_vars (PSeq (v :: rest))
          duration fixed_vars inputs pars_update st
        = get_trajectories env model target_vars (PSeq [PSeq (v :: rest)])
            duration fixed_vars inputs pars_update st)
    /\ (forall st xs mon,
           mapM as_float (v :: rest) = Ok xs ->
           length (v :: rest) = length target_vars ->
           core_NeuGroup env model 1 target_vars pars_update = Ok tt ->
           (forall key row, group_ST_set env key row = Ok tt) ->
           core_TrajectoryRunner env target_vars fixed_vars = Ok tt ->
           group_run env (zip target_vars (map (fun x => [x]) xs)) duration inputs = Ok mon ->
           monitors_all target_vars 1 mon = true ->
           exists trajectory st',
             get_trajectories env model target_vars (PSeq (v :: rest))
               duration fixed_vars inputs pars_update st
             = (Ok [trajectory], st')).
Proof.
  intros env model target_vars v rest duration fixed_vars inputs pars_update Hv.
  assert (Hflat : format_initials (PSeq (v :: rest)) = Ok (PSeq [PSeq (v :: rest)])).
  { unfold format_initials. cbn. now rewrite Hv. }
  split.
  - intros st. unfold get_trajectories, bind, lift. rewrite Hflat. reflexivity.
  - intros st xs mon Hxs Hlen Hgroup Hset Hrunner Hrun Hmon.
    unfold get_trajectories.
    rewrite (lift_ok _ _ _ _ Hflat).
    rewrite (lift_ok (np_rows (PSeq [PSeq (v :: rest)])) _ _ [PSeq (v :: rest)] eq_refl).
    change (length [PSeq (v :: rest)]) with 1.
    rewrite (lift_ok _ _ _ _ (fill_single_initial _ _ _ Hxs Hlen)).
    rewrite (extcall_ok _ _ _ _ _ _ _ Hgroup).
    match goal with
    | |- context [for_each ?states ?body ;; ?k] =>
        destruct (set_states_ok env states Hset
                    {| heap := heap st;
                       log := log st
                              ++ [Call "NeuGroup" [model]
                                    [("geometry", PInt (Z.of_nat 1));
                                     ("monitors", names target_vars);
                                     ("pars_update", pars_update)]] |}) as [s1 Hs1]
    end.
    rewrite (bind_ok _ _ _ _ _ Hs1).
    rewrite (extcall_ok _ _ _ _ _ _ _ Hrunner).
    rewrite (extcall_ok _ _ _ _ _ _ _ Hrun).
    unfold lift. change (enumerate [PSeq (v :: rest)]) with [(0, PSeq (v :: rest))].
    cbn [collect_trajectories].
    destruct (monitor_vars_some env mon 0 (v :: rest) target_vars 0 "traj, "
                (od_set "ts" (arr1 (mon_ts mon)) []) ltac:(lia) Hmon)
      as [[legend trajectory] Hout].
    unfold enumerate. rewrite Hout. cbn [mbind result_bind].
    eexists; eexists; reflexivity.
Qed.

Lemma get_trajectories_flat_initials_are_one_tuple_witness :
  exists trajectory st',
    get_trajectories env0 (PNeuType "FitzHughNagumo" []) ["V"; "w"]
      (PSeq [PFloat 0; PInt 1]) (PFloat 100) PNone (PSeq []) PNone st0
    = (Ok [trajectory], st').
Proof.
  eapply (proj2 (get_trajectories_flat_initials_are_one_tuple env0
                   (PNeuType "FitzHughNagumo" []) ["V"; "w"] (PFloat 0) [PInt 1]
                   (PFloat 100) PNone (PSeq []) PNone eq_refl));
    reflexivity.
Defined.

(** ** plot_vector_field *)




(** C6, as the code has it.  When an evaluator cannot be called (asking
    for it or calling it raises [TypeError]), [plot_vector_field] of the 1D
    and of the 2D analyzer raises [ModelUseError] with one fixed message,
    whatever the [TypeError] said, and nothing has been plotted. *)
Theorem plot_vector_field_reports_missing_variables :
  forall env msg,
    (forall (self : Analyzer1D) show st,
        call_fails (a1_get_f_dx self)
          (lookup_key (a1_x_var self) (a1_resolutions self)) msg ->
        PhasePlane1DAnalyzer_plot_vector_field env self show st
        = (Raise (ModelUseError msg_missing), st))
    /\ (forall (self : Analyzer2D) line_widths show st xs ys,
           lookup_key (a2_x_var self) (a2_resolutions self) = Ok xs ->
           lookup_key (a2_y_var self) (a2_resolutions self) = Ok ys ->
           call2_fails (a2_get_f_dx self) (fst (np_meshgrid xs ys)) (snd (np_meshgrid xs ys)) msg
           \/ ((exists dx, call2_returns (a2_get_f_dx self)
                             (fst (np_meshgrid xs ys)) (snd (np_meshgrid xs ys)) dx)
               /\ call2_fails (a2_get_f_dy self)
                    (fst (np_meshgrid xs ys)) (snd (np_meshgrid xs ys)) msg) ->
           PhasePlane2DAnalyzer_plot_vector_field env self line_widths show st
           = (Raise (ModelUseError msg_missing), st)).
Proof.
  intros env msg. split.
  - intros self show st Hfail.
    unfold PhasePlane1DAnalyzer_plot_vector_field, missing_variables, try_except,
      bind, lift, raise.
    destruct Hfail as [-> | (f & xs & -> & -> & ->)]; reflexivity.
  - intros self line_widths show st xs ys Hxs Hys Hfail.
    unfold PhasePlane2DAnalyzer_plot_vector_field, missing_variables, try_except,
      bind, lift, raise.
    rewrite Hxs, Hys.
    destruct Hfail as [[-> | (f & -> & ->)] | [(dx & f & -> & ->) [-> | (g & -> & ->)]]];
      reflexivity.
Qed.

Lemma plot_vector_field_reports_missing_variables_witness :
  PhasePlane1DAnalyzer_plot_vector_field env0 (system1d_missing "w") false st1
  = (Raise (ModelUseError msg_missing), st1)
  /\ PhasePlane2DAnalyzer_plot_vector_field env0 (system_missing "w")
       default_line_widths false st0
     = (Raise (ModelUseError msg_missing), st0).
Proof.
  split.
  - apply (proj1 (plot_vector_field_reports_missing_variables env0
                    "f_dx() missing 1 required positional argument: 'w'")).
    right. eexists; eexists. repeat split; reflexivity.
  - apply (proj2 (plot_vector_field_reports_missing_variables env0
                    "f_dx() missing 1 required positional argument: 'w'")
             (system_missing "w") default_line_widths false st0
             [-1; 0; 1]%float [0; 1]%float eq_refl eq_refl).
    left. right. eexists. split; reflexivity.
Defined.

(** C6, as the spec has it, fails: the error does not name the variable.
    Systems missing [w] and missing [Iext] raise the same error, and its
    message mentions neither. *)
Lemma plot_vector_field_error_names_no_variable :
  fst (PhasePlane2DAnalyzer_plot_vector_field env0 (system_missing "w")
         default_line_widths false st0)
  = fst (PhasePlane2DAnalyzer_plot_vector_field env0 (system_missing "Iext")
           default_line_widths false st0)
  /\ fst (PhasePlane1DAnalyzer_plot_vector_field env0 (system1d_missing "w") false st1)
     = fst (PhasePlane1DAnalyzer_plot_vector_field env0 (system1d_missing "Iext") false st1)
  /\ fst (PhasePlane2DAnalyzer_plot_vector_field env0 (system_missing "Iext")
            default_line_widths false st0)
     = Raise (ModelUseError msg_missing)
  /\ contains "'w'" msg_missing = false
  /\ contains "Iext" msg_missing = false.
Proof. repeat split; reflexivity. Qed.

(** ** plot_nullcline *)

Lemma nullcline_block_curve env self xs ys y_by_x x_by_y optimizer
      plot_style x_plot_style sweep_style sweep_var st values st' :
  nullcline_block env self xs ys y_by_x x_by_y optimizer
    plot_style x_plot_style sweep_style sweep_var st = (Ok values, st') ->
  exists method, nullcline_curve xs ys y_by_x x_by_y optimizer = Ok (method, values).
Proof.
  unfold nullcline_block, nullcline_curve. intros H.
  apply bind_inv in H as (by_x & s1 & Hbx & H). apply lift_inv in Hbx as [-> ->].
  cbn [mbind result_bind].
  destruct (String.eqb (status by_x) "sympy_success").
  - apply bind_inv in H as (y_values & s1 & Hy & H).
    apply missing_variables_lift_inv in Hy as [-> ->].
    apply bind_inv in H as (u & s2 & _ & H). injection H as <- _.
    exists SymbolicInX. reflexivity.
  - apply bind_inv in H as (by_y & s1 & Hby & H). apply lift_inv in Hby as [-> ->].
    cbn [mbind result_bind].
    destruct (String.eqb (status by_y) "sympy_success").
    + apply bind_inv in H as (x_values & s1 & Hx & H).
      apply missing_variables_lift_inv in Hx as [-> ->].
      apply bind_inv in H as (u & s2 & _ & H). injection H as <- _.
      exists SymbolicInY. reflexivity.
    + apply bind_inv in H as (opt & s1 & Hopt & H). apply lift_inv in Hopt as [-> ->].
      apply bind_inv in H as (vals & s1 & Hvals & H). apply lift_inv in Hvals as [-> ->].
      apply bind_inv in H as (u & s2 & _ & H). injection H as <- _.
      exists NumericSweep. reflexivity.
Qed.

Lemma nullcline_block_returns env self xs ys y_by_x x_by_y optimizer
      x_plot_style sweep_style sweep_var st method values :
  nullcline_curve xs ys y_by_x x_by_y optimizer = Ok (method, values) ->
  exists st',
    nullcline_block env self xs ys y_by_x x_by_y optimizer
      (PStr "scatter") x_plot_style sweep_style sweep_var st = (Ok values, st')
    /\ heap st' = heap st.
Proof.
  unfold nullcline_block, nullcline_curve, missing_variables, try_except,
    bind, lift, plt, emit, ret.
  destruct y_by_x as [by_x|e]; cbn [mbind result_bind]; [|discriminate].
  destruct (String.eqb (status by_x) "sympy_success").
  - destruct (solved_f by_x xs) as [y_values|e]; cbn [mbind result_bind]; [|discriminate].
    intros [= <- <-]. eexists; split; reflexivity.
  - destruct x_by_y as [by_y|e]; cbn [mbind result_bind]; [|discriminate].
    destruct (String.eqb (status by_y) "sympy_success").
    + destruct (solved_f by_y ys) as [x_values|e]; cbn [mbind result_bind]; [|discriminate].
      intros [= <- <-]. eexists; split; reflexivity.
    + destruct optimizer as [[vals|e]|e]; cbn [mbind result_bind]; try discriminate.
      intros [= <- <-]. eexists; split; reflexivity.
Qed.

(** C5, as the code has it.  What the 2D [plot_nullcline] returns maps
    each equation's function name to the pair of coordinate sequences of
    its nullcline, found as section 4.4 describes; the method that found
    them is not part of the value.  Called without [numerical_setting] on
    an analyzer whose grids and axis limits are in place, it returns that
    value whenever both curves can be found. *)
Theorem plot_nullcline_returns_coordinates :
  forall env self,
    (forall numerical_setting show st d st',
        PhasePlane2DAnalyzer_plot_nullcline env self numerical_setting show st = (Ok d, st') ->
        exists xs ys x_coords y_coords x_method y_method in_x_eq in_y_eq,
          lookup_key (a2_x_var self) (a2_resolutions self) = Ok xs
          /\ lookup_key (a2_y_var self) (a2_resolutions self) = Ok ys
          /\ x_nullcline self xs ys x_coords = Ok (x_method, in_x_eq)
          /\ y_nullcline self xs ys y_coords = Ok (y_method, in_y_eq)
          /\ d = <[func_name (a2_y_eq_group self) := in_y_eq]>
                   (<[func_name (a2_x_eq_group self) := in_x_eq]> ∅))
    /\ (forall show st xs ys x_method y_method in_x_eq in_y_eq,
           lookup_key (a2_x_var self) (a2_resolutions self) = Ok xs ->
           lookup_key (a2_y_var self) (a2_resolutions self) = Ok ys ->
           x_nullcline self xs ys (default_coords self) = Ok (x_method, in_x_eq) ->
           y_nullcline self xs ys (default_coords self) = Ok (y_method, in_y_eq) ->
           axes_ok env self ->
           exists st',
             PhasePlane2DAnalyzer_plot_nullcline env self PNone show st
             = (Ok (<[func_name (a2_y_eq_group self) := in_y_eq]>
                      (<[func_name (a2_x_eq_group self) := in_x_eq]> ∅)), st')).
Proof.
  intros env self. split.
  - intros numerical_setting show st d st' H.
    unfold PhasePlane2DAnalyzer_plot_nullcline in H.
    apply bind_inv in H as (x_setting & s1 & H1 & H). apply lift_inv in H1 as [_ ->].
    apply bind_inv in H as (y_setting & s1 & H1 & H). apply lift_inv in H1 as [_ ->].
    apply bind_inv in H as (x_coords & s1 & H1 & H). apply lift_inv in H1 as [_ ->].
    apply bind_inv in H as (y_coords & s1 & H1 & H). apply lift_inv in H1 as [_ ->].
    apply bind_inv in H as (x_plot & s1 & H1 & H). apply lift_inv in H1 as [_ ->].
    apply bind_inv in H as (y_plot & s1 & H1 & H). apply lift_inv in H1 as [_ ->].
    apply bind_inv in H as (xs & s1 & Hxs & H). apply lift_inv in Hxs as [Hxs ->].
    apply bind_inv in H as (ys & s1 & Hys & H). apply lift_inv in Hys as [Hys ->].
    apply bind_inv in H as (in_y_eq & s1 & Hy & H).
    apply bind_inv in H as (in_x_eq & s2 & Hx & H).
    apply nullcline_block_curve in Hy as [y_method Hy].
    apply nullcline_block_curve in Hx as [x_method Hx].
    repeat (apply bind_inv in H as (? & ? & _ & H)).
    injection H as <- _.
    exists xs, ys, x_coords, y_coords, x_method, y_method, in_x_eq, in_y_eq.
    repeat split; assumption.
  - intros show st xs ys x_method y_method in_x_eq in_y_eq Hxs Hys Hx Hy
      (scale & x_range & y_range & x_lims & y_lims & x_args & y_args
       & Hscale & Hxr & Hxl & Hxa & Hyr & Hyl & Hya).
    unfold PhasePlane2DAnalyzer_plot_nullcline. cbn [default_dict py_get dict_get_default od_get].
    unfold x_nullcline, y_nullcline, default_coords in Hx, Hy.
    repeat (rewrite lift_ok with (a := _) by reflexivity).
    rewrite (lift_ok _ _ _ _ Hxs), (lift_ok _ _ _ _ Hys).
    destruct (nullcline_block_returns env self xs ys _ _ _ (PStr "scatter") y_style
                (a2_y_var self) st _ _ Hy) as (s1 & Hby & _).
    rewrite (bind_ok _ _ _ _ _ Hby).
    destruct (nullcline_block_returns env self xs ys _ _ _ (PStr "scatter") x_style
                (a2_x_var self) s1 _ _ Hx) as (s2 & Hbx & _).
    rewrite (bind_ok _ _ _ _ _ Hbx).
    unfold set_lim, plt, when, bind, lift, emit, ret.
    rewrite Hscale, Hxr, Hxl, Hxa, Hyr, Hyl, Hya.
    destruct show; eexists; reflexivity.
Qed.

Lemma plot_nullcline_returns_coordinates_witness :
  exists st',
    PhasePlane2DAnalyzer_plot_nullcline env0 symbolic_system PNone false st0
    = (Ok (<["int_y" := ([-1; 0; 1], [1; 0; 1])%float]>
             (<["int_x" := ([-1; 0; 1], [1; 0; 1])%float]> ∅)), st').
Proof.
  apply (proj2 (plot_nullcline_returns_coordinates env0 symbolic_system) false st0
           [-1; 0; 1]%float [0; 1]%float SymbolicInX SymbolicInX
           ([-1; 0; 1], [1; 0; 1])%float ([-1; 0; 1], [1; 0; 1])%float
           eq_refl eq_refl eq_refl eq_refl).
  do 7 eexists. repeat split; reflexivity.
Defined.

(** C5, as the spec has it, fails: the returned value does not tell the
    method.  A system whose nullclines are found symbolically and one
    whose nullclines come from the sweep return the same value. *)
Lemma plot_nullcline_value_hides_the_method :
  fst (PhasePlane2DAnalyzer_plot_nullcline env0 symbolic_system PNone false st0)
  = fst (PhasePlane2DAnalyzer_plot_nullcline env0 sweep_system PNone false st0)
  /\ is_ok (fst (PhasePlane2DAnalyzer_plot_nullcline env0 symbolic_system PNone false st0))
     = true
  /\ fst <$> y_nullcline symbolic_system [-1; 0; 1]%float [0; 1]%float
               (default_coords symbolic_system) = Ok SymbolicInX
  /\ fst <$> y_nullcline sweep_system [-1; 0; 1]%float [0; 1]%float
               (default_coords sweep_system) = Ok NumericSweep.
Proof. repeat split; vm_compute; reflexivity. Qed.

(** ** plot_fixed_point *)

(** The classification loop hands back the array it was given. *)
Lemma classify_and_plot_returns_its_input env self show x_values st v st' :
  classify_and_plot env self show x_values st = (Ok v, st') -> v = x_values.
Proof.
  unfold classify_and_plot. intros H.
  repeat (apply bind_inv in H as (? & ? & _ & H)).
  now injection H as <- _.
Qed.

(** C2.  For [dx/dt = x (x - 1) (x + 1)] the symbolic branch of
    [plot_fixed_point] wraps the tuple of the three roots in a list before
    making the array, so the roots arrive at the classification loop as
    one row: an array of length 1.  Whatever the classifier and the root
    finder are, the call either raises or returns that one row; with the
    sign-of-derivative classifier it raises, since the derivative of a row
    is a row.  The numeric branch, on the same system, returns the three
    roots as a flat array. *)
Theorem plot_fixed_point_symbolic_roots_form_one_row :
  (forall classifier finder,
      fst (find_x_values (env_with classifier finder) cubic_system st1) = Ok cubic_row
      /\ ((exists e,
              fst (PhasePlane1DAnalyzer_plot_fixed_point (env_with classifier finder)
                     cubic_system false st1) = Raise e)
          \/ fst (PhasePlane1DAnalyzer_plot_fixed_point (env_with classifier finder)
                    cubic_system false st1) = Ok cubic_row))
  /\ py_len cubic_row = Ok 1
  /\ fst (PhasePlane1DAnalyzer_plot_fixed_point env0 cubic_system false st1)
     = Raise (ValueError "Unknown derivatives")
  /\ fst (PhasePlane1DAnalyzer_plot_fixed_point env0 cubic_system_numeric false st1)
     = Ok (arr1 [-1; 0; 1]%float).
Proof.
  split; [|repeat split; vm_compute; reflexivity].
  intros classifier finder.
  assert (Hfind : exists st',
             find_x_values (env_with classifier finder) cubic_system st1
             = (Ok cubic_row, st')).
  { eexists. vm_compute. reflexivity. }
  destruct Hfind as [st' Hfind]. split; [now rewrite Hfind|].
  unfold PhasePlane1DAnalyzer_plot_fixed_point.
  rewrite (bind_ok _ _ _ _ _ Hfind).
  destruct (classify_and_plot (env_with classifier finder) cubic_system false cubic_row st')
    as [[v|e] st''] eqn:Hcap.
  - right. apply classify_and_plot_returns_its_input in Hcap. now subst v.
  - left. exists e. reflexivity.
Qed.

Lemma lookup_last {A} (h : list A) (d : A) : (h ++ [d]) !! length h = Some d.
Proof. now apply list_lookup_middle. Qed.

Lemma insert_last {A} (h : list A) (d d' : A) : <[length h := d']> (h ++ [d]) = h ++ [d'].
Proof. rewrite insert_app_r_alt by lia. now rewrite Nat.sub_diag. Qed.

Lemma dict_update_last h d other lg :
  dict_update (length h) other {| heap := h ++ [d]; log := lg |}
  = (Ok tt, {| heap := h ++ [other ∪ d]; log := lg |}).
Proof.
  unfold dict_update. cbn [heap log]. now rewrite lookup_last, insert_last.
Qed.

Lemma function_scope_run env self st pars fixed :
  heap st !! a1_pars_update self = Some pars ->
  heap st !! a1_fixed_vars self = Some fixed ->
  function_scope env self st
  = (Ok (length (heap st)), with_scope st (scope_value env self pars fixed)).
Proof.
  intros Hpars Hfixed.
  unfold function_scope, with_scope, scope_value.
  unfold bind at 1. unfold deepcopy. rewrite Hpars.
  unfold bind at 1. unfold read_dict. cbn [heap log].
  rewrite (lookup_app_l_Some _ _ _ _ Hfixed).
  unfold bind at 1. rewrite dict_update_last.
  unfold bind at 1. rewrite dict_update_last.
  unfold bind at 1. rewrite dict_update_last.
  reflexivity.
Qed.

Lemma od_set_Forall {A} (P : string * A -> Prop) k v (d : list (string * A)) :
  P (k, v) -> Forall P d -> Forall P (od_set k v d).
Proof.
  intros Hkv. induction 1 as [|[k' v'] d Hh Ht IH]; cbn.
  - repeat constructor; assumption.
  - destruct (String.eqb k k'); constructor; assumption.
Qed.





(** ** Insertion-ordered dictionaries *)


Lemma od_set_keys {A} (k : string) (v v0 : A) (c : list (string * A)) :
  lookup_key k c = Ok v0 -> map fst (od_set k v c) = map fst c.
Proof.
  unfold lookup_key. induction c as [|[k' v'] c IH]; [discriminate|].
  cbn. destruct (String.eqb k k') eqn:Hk.
  - intros _. apply String.eqb_eq in Hk. now subst.
  - intros H. cbn. f_equal. exact (IH H).
Qed.



(** ** The classification loop *)








(** ** The query and its stateless description *)

Lemma classify_run env x_var f_dfdx rest :
  forall pre container s,
    exists s',
      classify env x_var f_dfdx (PSeq (pre ++ rest))
        (seq (length pre) (length rest)) container s
      = (classify_list env f_dfdx rest container, s')
      /\ heap s' = heap s.
Proof.
  induction rest as [|x rest IH]; intros pre container s.
  - exists s. split; reflexivity.
  - cbn [length seq classify classify_list].
    unfold bind at 1. unfold lift at 1. cbn [py_index].
    rewrite (list_lookup_middle pre rest x (length pre) eq_refl).
    unfold bind at 1. unfold lift at 1.
    destruct (f_dfdx x) as [dfdx|e]; cbn [mbind result_bind];
      [|exists s; split; reflexivity].
    unfold bind at 1. unfold lift at 1.
    destruct (stability_analysis env dfdx) as [t|e]; cbn [mbind result_bind];
      [|exists s; split; reflexivity].
    unfold bind at 1. unfold emit at 1.
    unfold bind at 1. unfold lift at 1.
    destruct (lookup_key t container) as [points|e]; cbn [mbind result_bind];
      [|eexists; split; reflexivity].
    replace (pre ++ x :: rest) with ((pre ++ [x]) ++ rest) by now rewrite <- app_assoc.
    replace (S (length pre)) with (length (pre ++ [x])) by (rewrite length_app; cbn; lia).
    match goal with
    | |- context [classify _ _ _ _ _ ?c ?s1] =>
        destruct (IH (pre ++ [x]) c s1) as (s' & -> & Hs')
    end.
    exists s'. split; [reflexivity|exact Hs'].
Qed.








(** ** Two successive queries *)












(** The two calls of the witness, evaluated: the same three roots, found
    from opposite ends of the grid. *)
Example plot_fixed_point_twice_evaluated :
  fst (PhasePlane1DAnalyzer_plot_fixed_point env0 cubic_system_numeric false st1)
  = Ok (arr1 [-1; 0; 1]%float)
  /\ fst (PhasePlane1DAnalyzer_plot_fixed_point
            (with_finder env0 find_root_of_1d_reversed) cubic_system_numeric false
            (snd (PhasePlane1DAnalyzer_plot_fixed_point env0 cubic_system_numeric
                    false st1)))
     = Ok (arr1 [1; 0; -1]%float).
Proof. split; vm_compute; reflexivity. Qed.

(** * Further properties *)

(** ** The constructor, argument by argument *)

(** X1.  [PhasePlaneAnalyzer.__init__] checks its arguments in the order
    [model], [target_vars], [fixed_vars], [pars_update]; the first one
    that fails decides the [ModelUseError], whatever the later arguments
    are, and nothing has been built when it is raised. *)
Theorem init_checks_arguments_in_order :
  forall env st,
    (forall model target_vars fixed_vars pars_update options,
        is_NeuType model = false ->
        PhasePlaneAnalyzer_init env model target_vars fixed_vars pars_update options st
        = (Raise (ModelUseError msg_model), st))
    /\ (forall name step_scopes target_vars fixed_vars pars_update options,
           is_dict target_vars = false ->
           PhasePlaneAnalyzer_init env (PNeuType name step_scopes) target_vars
             fixed_vars pars_update options st
           = (Raise (ModelUseError msg_target_vars), st))
    /\ (forall name step_scopes tv fixed_vars pars_update options,
           is_dict (default_dict fixed_vars) = false ->
           PhasePlaneAnalyzer_init env (PNeuType name step_scopes) (PDict tv)
             fixed_vars pars_update options st
           = (Raise (ModelUseError msg_fixed_vars), st))
    /\ (forall name step_scopes tv fixed_vars pars_update options,
           is_dict (default_dict fixed_vars) = true ->
           is_dict (default_dict pars_update) = false ->
           PhasePlaneAnalyzer_init env (PNeuType name step_scopes) (PDict tv)
             fixed_vars pars_update options st
           = (Raise (ModelUseError msg_pars_update), st)).
Proof.
  intros env st. repeat split.
  - intros model target_vars fixed_vars pars_update options Hmodel.
    destruct model; try reflexivity; discriminate.
  - intros name step_scopes target_vars fixed_vars pars_update options Htv.
    destruct target_vars; try reflexivity; discriminate.
  - intros name step_scopes tv fixed_vars pars_update options Hfixed.
    unfold PhasePlaneAnalyzer_init. rewrite Hfixed. reflexivity.
  - intros name step_scopes tv fixed_vars pars_update options Hfixed Hpars.
    unfold PhasePlaneAnalyzer_init. rewrite Hfixed. cbn [negb].
    destruct (default_dict pars_update); try reflexivity; discriminate.
Qed.

Lemma init_checks_arguments_in_order_witness :
  PhasePlaneAnalyzer_init env0 (PStr "HH") PNone (PInt 1) (PInt 2) (PInt 3) st0
  = (Raise (ModelUseError msg_model), st0)
  /\ PhasePlaneAnalyzer_init env0 (PNeuType "HH" []) (PSeq [PStr "V"]) (PInt 1) (PInt 2)
       (PInt 3) st0
     = (Raise (ModelUseError msg_target_vars), st0)
  /\ PhasePlaneAnalyzer_init env0 (PNeuType "HH" []) (PDict []) (PSeq []) (PInt 2)
       (PInt 3) st0
     = (Raise (ModelUseError msg_fixed_vars), st0)
  /\ PhasePlaneAnalyzer_init env0 (PNeuType "HH" []) (PDict []) PNone (PSeq [])
       (PInt 3) st0
     = (Raise (ModelUseError msg_pars_update), st0).
Proof.
  pose proof (init_checks_arguments_in_order env0 st0) as (H1 & H2 & H3 & H4).
  split; [|split; [|split]].
  - apply H1. reflexivity.
  - apply H2. reflexivity.
  - apply H3. reflexivity.
  - apply H4; reflexivity.
Defined.

Lemma existsb_eqb_not_In (k : string) (l : list string) :
  ~ In k l -> existsb (String.eqb k) l = false.
Proof.
  intros H. destruct (existsb (String.eqb k) l) eqn:E; [|reflexivity].
  apply existsb_exists in E as (k' & Hin & Heq). apply String.eqb_eq in Heq. now subst.
Qed.

Lemma first_invalid_par_first step_scopes (pre post : list (string * pyobj)) key v :
  Forall (fun kv => In (fst kv) step_scopes) pre ->
  ~ In key step_scopes ->
  first_invalid_par step_scopes (pre ++ (key, v) :: post) = Some key.
Proof.
  intros Hpre Hkey. unfold first_invalid_par.
  induction Hpre as [|kv pre Hkv _ IH].
  - cbn [app map List.filter fst]. rewrite (existsb_eqb_not_In _ _ Hkey). reflexivity.
  - cbn [app map List.filter]. rewrite (existsb_eqb_In _ _ Hkv). exact IH.
Qed.

(** X2.  A key of [pars_update] that is not among [model.step_scopes]
    makes the constructor raise [ModelUseError]; the message names the
    first such key, in the order of the dictionary, and the model.  The
    check comes before [options] is read and before the variables are
    counted, so it holds whatever those are. *)
Theorem init_reports_first_invalid_parameter :
  forall env name step_scopes tv fixed_vars options pre key v post st,
    is_dict (default_dict fixed_vars) = true ->
    Forall (fun kv => In (fst kv) step_scopes) pre ->
    ~ In key step_scopes ->
    PhasePlaneAnalyzer_init env (PNeuType name step_scopes) (PDict tv) fixed_vars
      (PDict (pre ++ (key, v) :: post)) options st
    = (Raise (ModelUseError (msg_invalid_par key name)), st).
Proof.
  intros env name step_scopes tv fixed_vars options pre key v post st Hfixed Hpre Hkey.
  unfold PhasePlaneAnalyzer_init. rewrite Hfixed. cbn [negb default_dict].
  rewrite (first_invalid_par_first _ _ _ _ _ Hpre Hkey). reflexivity.
Qed.

Lemma init_reports_first_invalid_parameter_witness :
  PhasePlaneAnalyzer_init env0 (PNeuType "HH" ["gNa"; "gK"])
    (PDict [("V", PSeq [PInt (-80); PInt 40])]) PNone
    (PDict [("gNa", PFloat 120); ("gCa", PFloat 1); ("gL", PFloat 0.3)]) (PInt 0) st0
  = (Raise (ModelUseError (msg_invalid_par "gCa" "HH")), st0).
Proof.
  apply (init_reports_first_invalid_parameter env0 "HH" ["gNa"; "gK"]
           [("V", PSeq [PInt (-80); PInt 40])] PNone (PInt 0)
           [("gNa", PFloat 120)] "gCa" (PFloat 1) [("gL", PFloat 0.3)] st0).
  - reflexivity.
  - constructor; [left; reflexivity|constructor].
  - cbn. intros [H|[H|[]]]; discriminate.
Defined.

(** X3.  An empty [target_vars] dictionary is rejected like one with three
    or more variables: with well-formed remaining arguments the
    constructor raises the [ModelUseError] about 1D/2D analysis and builds
    nothing. *)
Theorem init_rejects_empty_target_vars :
  forall env name step_scopes fixed_vars pars_update options st,
    well_formed_args step_scopes fixed_vars pars_update options ->
    PhasePlaneAnalyzer_init env (PNeuType name step_scopes) (PDict [])
      fixed_vars pars_update options st
    = (Raise (ModelUseError msg_dimension), st).
Proof.
  intros env name step_scopes fixed_vars pars_update options st
    (Hfixed & (pu & Hpu & Hkeys) & Hopts).
  unfold PhasePlaneAnalyzer_init. rewrite Hfixed, Hpu. cbn [negb].
  rewrite (first_invalid_par_none _ _ Hkeys).
  destruct (read_options_dict _ Hopts) as [opts Hread].
  unfold bind, lift. rewrite Hread. reflexivity.
Qed.

Lemma init_rejects_empty_target_vars_witness :
  PhasePlaneAnalyzer_init env0 (PNeuType "HH" ["gNa"]) (PDict [])
    PNone (PDict [("gNa", PFloat 120)]) PNone st0
  = (Raise (ModelUseError msg_dimension), st0).
Proof.
  apply (init_rejects_empty_target_vars env0 "HH" ["gNa"] PNone
           (PDict [("gNa", PFloat 120)]) PNone st0).
  split; [reflexivity|]. split; [|reflexivity].
  exists [("gNa", PFloat 120)]. split; [reflexivity|].
  constructor; [left; reflexivity|constructor].
Defined.

Lemma read_options_inv options opts :
  read_options options = Ok opts ->
  exists d,
    options = PDict d
    /\ map fst opts = option_names
    /\ forall k, In k option_names ->
         od_get k opts
         = Some (match od_get k d with
                 | Some v => v
                 | None => dict_get_default default_options k PNone
                 end).
Proof.
  destruct options; try discriminate. cbn [read_options]. intros [= <-].
  exists d. split; [reflexivity|]. split; [reflexivity|].
  intros k Hk. cbn in Hk.
  repeat (destruct Hk as [<-|Hk]; [unfold dict_get_default; cbn; destruct (od_get _ d); reflexivity|]).
  destruct Hk.
Qed.

Lemma init_options env model target_vars fixed_vars pars_update options st self st' :
  PhasePlaneAnalyzer_init env model target_vars fixed_vars pars_update options st
  = (Ok self, st') ->
  read_options (default_dict options) = Ok (ppa_options self).
Proof.
  unfold PhasePlaneAnalyzer_init.
  destruct model; try discriminate.
  destruct target_vars as [| | | | | |tv| | |]; try discriminate.
  destruct (negb (is_dict (default_dict fixed_vars))); [discriminate|].
  destruct (default_dict pars_update); try discriminate.
  destruct (first_invalid_par step_scopes d); [discriminate|].
  intros H. apply bind_inv in H as (opts & s1 & Hopts & H).
  apply lift_inv in Hopts as [Hopts ->]. rewrite Hopts.
  destruct (length tv) as [|[|[|n]]]; try discriminate.
  - apply bind_inv in H as (a & s2 & _ & H). injection H as <- _. reflexivity.
  - apply bind_inv in H as (a & s2 & _ & H). injection H as <- _. reflexivity.
Qed.

(** X4.  The options of a constructed analyzer are exactly the nine the
    constructor knows: each holds the caller's value when [options] gives
    one, as given, and the default otherwise; any other key of [options]
    is dropped. *)
Theorem init_keeps_known_options :
  forall env model target_vars fixed_vars pars_update options st self st',
    PhasePlaneAnalyzer_init env model target_vars fixed_vars pars_update options st
    = (Ok self, st') ->
    exists d,
      default_dict options = PDict d
      /\ map fst (ppa_options self) = option_names
      /\ forall k, In k option_names ->
           od_get k (ppa_options self)
           = Some (match od_get k d with
                   | Some v => v
                   | None => dict_get_default default_options k PNone
                   end).
Proof.
  intros env model target_vars fixed_vars pars_update options st self st' H.
  apply init_options in H. apply read_options_inv in H. exact H.
Qed.

Lemma init_keeps_known_options_witness :
  exists self st',
    PhasePlaneAnalyzer_init env0 (PNeuType "model" []) (PDict [("x", PSeq [PInt (-2); PInt 2])])
      PNone PNone (PDict [("lim_scale", PFloat 1.2); ("colour", PStr "red")]) st0
    = (Ok self, st')
    /\ exists d,
         default_dict (PDict [("lim_scale", PFloat 1.2); ("colour", PStr "red")]) = PDict d
         /\ map fst (ppa_options self) = option_names
         /\ forall k, In k option_names ->
              od_get k (ppa_options self)
              = Some (match od_get k d with
                      | Some v => v
                      | None => dict_get_default default_options k PNone
                      end).
Proof.
  destruct (PhasePlaneAnalyzer_init env0 (PNeuType "model" [])
              (PDict [("x", PSeq [PInt (-2); PInt 2])]) PNone PNone
              (PDict [("lim_scale", PFloat 1.2); ("colour", PStr "red")]) st0)
    as [[self|e] st'] eqn:E.
  - exists self, st'. split; [reflexivity|].
    exact (init_keeps_known_options _ _ _ _ _ _ _ _ _ E).
  - exfalso. vm_compute in E. discriminate.
Defined.

(** ** get_trajectories on a batch *)

Lemma logged_logged s a b : logged (logged s a) b = logged s (a ++ b).
Proof. unfold logged. cbn. now rewrite app_assoc. Qed.


Lemma extcall_inv {A} fn args kwargs (answer : result A) s a s' :
  extcall fn args kwargs answer s = (Ok a, s') ->
  answer = Ok a /\ s' = logged s [Call fn args kwargs].
Proof.
  unfold extcall, bind, emit, lift. cbn. intros [= -> <-]. split; reflexivity.
Qed.

(** X5.  [get_trajectories] looks at [initials[0]] first: an empty
    [initials] raises [IndexError] and a bare number raises [TypeError],
    before any neuron group is built. *)
Theorem get_trajectories_needs_a_first_initial :
  forall env model target_vars duration fixed_vars inputs pars_update st,
    (exists msg,
        get_trajectories env model target_vars (PSeq []) duration fixed_vars inputs
          pars_update st
        = (Raise (IndexError msg), st))
    /\ forall number,
         is_int_or_float number = true ->
         exists msg,
           get_trajectories env model target_vars number duration fixed_vars inputs
             pars_update st
           = (Raise (TypeError msg), st).
Proof.
  intros env model target_vars duration fixed_vars inputs pars_update st.
  split; [eexists; reflexivity|].
  intros number Hn. destruct number; try discriminate; eexists; reflexivity.
Qed.

Lemma get_trajectories_needs_a_first_initial_witness :
  (exists msg,
      get_trajectories env0 (PNeuType "model" []) ["x"] (PSeq []) (PFloat 100) PNone
        (PSeq []) PNone st0
      = (Raise (IndexError msg), st0))
  /\ exists msg,
       get_trajectories env0 (PNeuType "model" []) ["x"] (PFloat 0.5) (PFloat 100) PNone
         (PSeq []) PNone st0
       = (Raise (TypeError msg), st0).
Proof.
  pose proof (get_trajectories_needs_a_first_initial env0 (PNeuType "model" []) ["x"]
                (PFloat 100) PNone (PSeq []) PNone st0) as [Hempty Hnumber].
  split; [exact Hempty|]. apply Hnumber. reflexivity.
Defined.










(** ** Strings *)

Lemma string_app_cons (x : ascii) (a b : string) :
  String x a +:+ b = String x (a +:+ b).
Proof. reflexivity. Qed.

Lemma string_app_assoc (a b c : string) : (a +:+ b) +:+ c = a +:+ (b +:+ c).
Proof.
  induction a as [|x a IH]; [reflexivity|]. rewrite !string_app_cons. now rewrite IH.
Qed.

Lemma string_length_app (a b : string) :
  String.length (a +:+ b) = String.length a + String.length b.
Proof.
  induction a as [|x a IH]; [reflexivity|]. rewrite string_app_cons. cbn. now rewrite IH.
Qed.

Lemma substring_prefix (a b : string) : substring 0 (String.length a) (a +:+ b) = a.
Proof.
  induction a as [|x a IH]; [destruct b; reflexivity|].
  rewrite string_app_cons. cbn. now rewrite IH.
Qed.

Lemma drop_last2_comma (s : string) : drop_last2 (s +:+ ", ") = s.
Proof.
  unfold drop_last2. rewrite string_length_app. cbn [String.length].
  replace (String.length s + 2 - 2) with (String.length s) by lia.
  apply substring_prefix.
Qed.

Lemma rev_app_app (s acc : string) : String.rev_app s acc = String.rev_app s "" +:+ acc.
Proof.
  revert acc. induction s as [|x s IH]; intros acc; [reflexivity|].
  cbn [String.rev_app]. rewrite (IH (String x acc)), (IH (String x "")).
  now rewrite string_app_assoc.
Qed.

Lemma lstrip_keeps_last (s : string) (c : ascii) :
  is_space c = false -> lstrip (s +:+ String c "") <> "".
Proof.
  intros Hc. induction s as [|x s IH].
  - change ("" +:+ String c "") with (String c ""). cbn. rewrite Hc. discriminate.
  - rewrite string_app_cons. cbn [lstrip].
    destruct (is_space x); [exact IH|discriminate].
Qed.

Lemma string_app_nonempty (a b : string) : b <> "" -> a +:+ b <> "".
Proof. destruct a; [trivial|discriminate]. Qed.

(** A text that starts with a letter is not blank. *)
Lemma py_strip_nonblank (c : ascii) (s : string) :
  is_space c = false -> truthy (PStr (py_strip (String c s))) = true.
Proof.
  intros Hc. unfold py_strip. cbn [lstrip truthy]. rewrite Hc.
  unfold String.rev at 2. cbn [String.rev_app]. rewrite rev_app_app.
  pose proof (lstrip_keeps_last (String.rev_app s "") c Hc) as Hne.
  destruct (lstrip (String.rev_app s "" +:+ String c "")) as [|y rest]; [contradiction|].
  unfold String.rev. cbn [String.rev_app]. rewrite rev_app_app.
  destruct (String.rev_app rest "" +:+ String y "") eqn:E; [|reflexivity].
  exfalso. revert E. apply string_app_nonempty. discriminate.
Qed.

(** ** Insertion-ordered dictionaries *)

Lemma od_get_set_eq {A} (k : string) (v : A) d : od_get k (od_set k v d) = Some v.
Proof.
  induction d as [|[k' v'] d IH]; cbn.
  - now rewrite String.eqb_refl.
  - destruct (String.eqb k k') eqn:E; cbn; rewrite ?String.eqb_refl, ?E; auto.
Qed.

Lemma od_get_set_ne {A} (k k' : string) (v : A) d :
  k <> k' -> od_get k (od_set k' v d) = od_get k d.
Proof.
  intros Hne. apply String.eqb_neq in Hne.
  induction d as [|[k0 v0] d IH]; cbn.
  - now rewrite Hne.
  - destruct (String.eqb k' k0) eqn:E; cbn.
    + apply String.eqb_eq in E. subst k0. now rewrite Hne.
    + destruct (String.eqb k k0); auto.
Qed.

(** ** What a trajectory holds *)

Lemma legend_items_end env initial vars :
  forall items text,
    legend_items env initial vars = Ok items ->
    exists body, (text +:+ ", ") +:+ items = body +:+ ", ".
Proof.
  induction vars as [|[j var] vars IH]; intros items text H.
  - cbn in H. injection H as <-. exists text. now rewrite string_app_assoc.
  - cbn [legend_items] in H.
    destruct (py_index initial j) as [v0|e]; cbn [mbind result_bind] in H; [|discriminate].
    destruct (legend_items env initial vars) as [items'|e] eqn:Hrest;
      cbn [mbind result_bind] in H; [|discriminate].
    injection H as <-.
    destruct (IH items' ((text +:+ ", ") +:+ "$" +:+ var +:+ "_0$=" +:+ py_format env v0)
                eq_refl) as [body Hbody].
    exists body. rewrite <- Hbody. now rewrite !string_app_assoc.
Qed.

Lemma monitor_vars_spec env mon i initial vars :
  forall legend trajectory legend' trajectory',
    monitor_vars env mon i initial vars legend trajectory = Ok (legend', trajectory') ->
    (exists items, legend_items env initial vars = Ok items /\ legend' = legend +:+ items)
    /\ (forall key, ~ In key (map snd vars) -> od_get key trajectory' = od_get key trajectory)
    /\ (forall var, In var (map snd vars) ->
          exists a col,
            od_get var (mon_vars mon) = Some a /\ column a i = Ok col
            /\ od_get var trajectory' = Some (arr1 col)).
Proof.
  induction vars as [|[j var] vars IH]; intros legend trajectory legend' trajectory' H.
  - cbn in H. injection H as <- <-. split; [|split].
    + exists "". split; [reflexivity|]. clear.
      induction legend as [|x legend IH]; [reflexivity|].
      rewrite string_app_cons. now rewrite <- IH.
    + reflexivity.
    + intros var [].
  - cbn [monitor_vars] in H.
    destruct (py_index initial j) as [v0|e] eqn:Hv0; cbn [mbind result_bind] in H;
      [|discriminate].
    destruct (od_get var (mon_vars mon)) as [a|] eqn:Ha; [|discriminate].
    destruct (column a i) as [col|e] eqn:Hcol; cbn [mbind result_bind] in H; [|discriminate].
    apply IH in H as ((items & Hitems & ->) & Hother & Hvars).
    split; [|split].
    + cbn [legend_items]. rewrite Hv0, Hitems. cbn [mbind result_bind].
      eexists. split; [reflexivity|]. now rewrite !string_app_assoc.
    + intros key Hkey. cbn [map snd In] in Hkey.
      rewrite (Hother key) by tauto. apply od_get_set_ne. intros ->. tauto.
    + intros var' Hvar'. cbn [map snd In] in Hvar'.
      destruct (in_dec string_dec var' (map snd vars)) as [Hin|Hout]; [exact (Hvars _ Hin)|].
      destruct Hvar' as [<-|Hin]; [|contradiction].
      exists a, col. repeat split; try assumption.
      rewrite (Hother _ Hout). apply od_get_set_eq.
Qed.

Lemma snd_enumerate {A} (l : list A) : map snd (enumerate l) = l.
Proof. unfold enumerate. apply snd_zip. rewrite length_seq. lia. Qed.

Lemma collect_trajectories_spec env mon vars rows :
  forall trajectories,
    collect_trajectories env mon vars rows = Ok trajectories ->
    Forall2 (fun row trajectory => trajectory_of env mon vars (fst row) (snd row) trajectory)
      rows trajectories.
Proof.
  induction rows as [|[i initial] rows IH]; intros trajectories H.
  - cbn in H. injection H as <-. constructor.
  - cbn [collect_trajectories] in H.
    destruct (monitor_vars env mon i initial (enumerate vars) "traj, "
                (od_set "ts" (arr1 (mon_ts mon)) [])) as [[legend trajectory]|e] eqn:Hmon;
      cbn [mbind result_bind] in H; [|discriminate].
    destruct (collect_trajectories env mon vars rows) as [tl|e] eqn:Htl;
      cbn [mbind result_bind] in H; [|discriminate].
    injection H as <-.
    apply monitor_vars_spec in Hmon as ((items & Hitems & ->) & Hother & Hvars).
    rewrite snd_enumerate in Hother, Hvars.
    destruct (legend_items_end env initial (enumerate vars) items "traj" Hitems)
      as [body Hbody].
    change ("traj" +:+ ", ") with "traj, " in Hbody.
    assert (Hblank : truthy (PStr (py_strip ("traj, " +:+ items))) = true)
      by exact (py_strip_nonblank "t" ("raj, " +:+ items) eq_refl).
    cbn [truthy] in Hblank. rewrite Hblank, Hbody, drop_last2_comma.
    constructor; [|exact (IH _ eq_refl)].
    cbn [fst snd]. split; [|split].
    + exists items, body. split; [exact Hitems|]. split; [now symmetry|].
      apply od_get_set_eq.
    + intros var Hin Hne. destruct (Hvars var Hin) as (a & col & Ha & Hcol & Hget).
      exists a, col. repeat split; try assumption.
      rewrite od_get_set_ne by exact Hne. exact Hget.
    + intros Hts. rewrite od_get_set_ne by discriminate.
      rewrite (Hother _ Hts). reflexivity.
Qed.

Lemma get_trajectories_inv env model target_vars initials duration fixed_vars inputs
      pars_update st trajectories st' :
  get_trajectories env model target_vars initials duration fixed_vars inputs pars_update st
  = (Ok trajectories, st') ->
  exists rows initial_states mon,
    (formatted ← format_initials initials; np_rows formatted) = Ok rows
    /\ group_run env (zip target_vars initial_states) duration inputs = Ok mon
    /\ collect_trajectories env mon target_vars (enumerate rows) = Ok trajectories.
Proof.
  intros H. unfold get_trajectories in H.
  apply bind_inv in H as (formatted & s1 & Hf & H). apply lift_inv in Hf as [Hf ->].
  apply bind_inv in H as (rows & s1 & Hrows & H). apply lift_inv in Hrows as [Hrows ->].
  apply bind_inv in H as (initial_states & s1 & _ & H).
  apply bind_inv in H as (u1 & s2 & _ & H).
  apply bind_inv in H as (u2 & s3 & _ & H).
  apply bind_inv in H as (u3 & s4 & _ & H).
  apply bind_inv in H as (mon & s5 & Hrun & H). apply extcall_inv in Hrun as [Hrun _].
  apply lift_inv in H as [H _].
  exists rows, initial_states, mon. split; [|split].
  - rewrite Hf. exact Hrows.
  - exact Hrun.
  - exact H.
Qed.








(** ** plot_trajectory *)

Lemma trajectory_has_curves env mon vars i initial trajectory :
  trajectory_of env mon vars i initial trajectory -> has_curves vars trajectory.
Proof.
  intros ((items & legend & _ & _ & Hlegend) & Hvars & Hts). split; [|split].
  - destruct (in_dec string_dec "ts" vars) as [Hin|Hout].
    + destruct (Hvars "ts" Hin ltac:(discriminate)) as (a & col & _ & _ & Hget). eauto.
    + rewrite (Hts Hout). eauto.
  - eauto.
  - apply List.Forall_forall. intros var Hin.
    destruct (string_dec var "legend") as [->|Hne]; [eauto|].
    destruct (Hvars var Hin Hne) as (a & col & _ & _ & Hget). eauto.
Qed.

Lemma get_trajectories_has_curves env model target_vars initials duration fixed_vars inputs
      pars_update st trajectories st' :
  get_trajectories env model target_vars initials duration fixed_vars inputs pars_update st
  = (Ok trajectories, st') ->
  Forall (has_curves target_vars) trajectories.
Proof.
  intros H. apply get_trajectories_inv in H as (rows & initial_states & mon & _ & _ & H).
  apply collect_trajectories_spec in H.
  induction H as [|row trajectory rows' trajectories' Hrow _ IH]; constructor;
    [exact (trajectory_has_curves _ _ _ _ _ _ Hrow)|exact IH].
Qed.

Lemma lookup_key_In {A} (k : string) (d : list (string * A)) v :
  lookup_key k d = Ok v -> In k (map fst d).
Proof.
  unfold lookup_key. induction d as [|[k' v'] d IH]; cbn; [discriminate|].
  destruct (String.eqb k k') eqn:E.
  - apply String.eqb_eq in E. auto.
  - intros H. right. exact (IH H).
Qed.

Lemma lookup_key_get {A} (k : string) (d : list (string * A)) v :
  od_get k d = Some v -> lookup_key k d = Ok v.
Proof. unfold lookup_key. now intros ->. Qed.

Lemma plot_calls_app a b : plot_calls (a ++ b) = plot_calls a + plot_calls b.
Proof. unfold plot_calls. now rewrite List.filter_app, length_app. Qed.

Lemma has_curves_In vars trajectory var :
  has_curves vars trajectory -> In var vars -> exists v, od_get var trajectory = Some v.
Proof.
  intros (_ & _ & Hvars) Hin. rewrite List.Forall_forall in Hvars. exact (Hvars var Hin).
Qed.

Lemma plot_in_plane_run vars x_var y_var trajectory s :
  has_curves vars trajectory -> In x_var vars -> In y_var vars ->
  exists events,
    plot_in_plane x_var y_var trajectory s = (Ok tt, logged s events)
    /\ plot_calls events = 1.
Proof.
  intros Hc Hx Hy.
  destruct (has_curves_In _ _ _ Hc Hx) as [x Hgx].
  destruct (has_curves_In _ _ _ Hc Hy) as [y Hgy].
  destruct Hc as (_ & (legend & Hlegend) & _).
  unfold plot_in_plane.
  rewrite (lift_ok _ _ _ _ (lookup_key_get _ _ _ Hgx)).
  rewrite (lift_ok _ _ _ _ (lookup_key_get _ _ _ Hgy)).
  rewrite (lift_ok _ _ _ _ (lookup_key_get _ _ _ Hlegend)).
  eexists. split; reflexivity.
Qed.

Lemma plot_in_time_run vars var trajectory s :
  has_curves vars trajectory -> In var vars ->
  exists events,
    plot_in_time var trajectory s = (Ok tt, logged s events)
    /\ plot_calls events = 1.
Proof.
  intros Hc Hin.
  destruct (has_curves_In _ _ _ Hc Hin) as [v Hv].
  destruct Hc as ((ts & Hts) & (legend & Hlegend) & _).
  unfold plot_in_time.
  rewrite (lift_ok _ _ _ _ (lookup_key_get _ _ _ Hts)).
  rewrite (lift_ok _ _ _ _ (lookup_key_get _ _ _ Hv)).
  rewrite (lift_ok _ _ _ _ (lookup_key_get _ _ _ Hlegend)).
  eexists. split; reflexivity.
Qed.

Lemma for_each_curves {A} (body : A -> M unit) (per : nat) (l : list A) :
  Forall (fun a => forall s, exists events,
                     body a s = (Ok tt, logged s events) /\ plot_calls events = per) l ->
  forall s,
    exists events,
      for_each l body s = (Ok tt, logged s events)
      /\ plot_calls events = per * length l.
Proof.
  induction 1 as [|a l Ha _ IH]; intros s.
  - exists []. split; [|cbn; lia]. unfold logged. cbn. rewrite app_nil_r. now destruct s.
  - destruct (Ha s) as (ev1 & Hrun1 & Hn1).
    destruct (IH (logged s ev1)) as (ev2 & Hrun2 & Hn2).
    exists (ev1 ++ ev2). cbn [for_each]. rewrite (bind_ok _ _ _ _ _ Hrun1), Hrun2.
    rewrite logged_logged, plot_calls_app, Hn1, Hn2. split; [reflexivity|]. cbn [length]. lia.
Qed.

(** X9.  [plot_trajectory] of the 2D analyzer draws every trajectory of the
    run: one curve each in the plane of the two variables (axes ['v-v']),
    two curves each against time (axes ['t-v']).  The run is the one of
    [get_trajectories] on the keys of [target_vars]; nothing else is
    simulated. *)
Theorem plot_trajectory_draws_every_trajectory :
  forall env self initials duration inputs show st trajectories s1,
    get_trajectories env (a2_model self) (map fst (a2_target_vars self)) initials duration
      (a2_fixed_vars self) inputs (a2_pars_update self) st
    = (Ok trajectories, s1) ->
    axes_ok env self ->
    (exists events,
        PhasePlane2DAnalyzer_plot_trajectory env self initials duration inputs (PStr "v-v")
          show st
        = (Ok tt, logged s1 events)
        /\ plot_calls events = length trajectories)
    /\ (exists events,
           PhasePlane2DAnalyzer_plot_trajectory env self initials duration inputs
             (PStr "t-v") show st
           = (Ok tt, logged s1 events)
           /\ plot_calls events = 2 * length trajectories).
Proof.
  intros env self initials duration inputs show st trajectories s1 Hrun
    (scale & x_range & y_range & x_lims & y_lims & x_args & y_args
     & Hscale & Hxr & Hxl & Hxa & Hyr & Hyl & Hya).
  pose proof (get_trajectories_has_curves _ _ _ _ _ _ _ _ _ _ _ Hrun) as Hcurves.
  pose proof (lookup_key_In _ _ _ Hxr) as Hx.
  pose proof (lookup_key_In _ _ _ Hyr) as Hy.
  split.
  - destruct (for_each_curves (plot_in_plane (a2_x_var self) (a2_y_var self)) 1 trajectories)
      with (s := s1) as (events & Hplots & Hn).
    { eapply Forall_impl; [exact Hcurves|]. intros trajectory Hc s.
      exact (plot_in_plane_run _ _ _ _ s Hc Hx Hy). }
    unfold PhasePlane2DAnalyzer_plot_trajectory.
    rewrite (bind_ok _ _ _ _ _ Hrun). cbn [is_str]. rewrite String.eqb_refl.
    unfold bind at 1. unfold bind at 1. rewrite Hplots.
    unfold set_lim, plt, when, bind, lift, emit, ret.
    rewrite Hscale, Hxr, Hxl, Hxa, Hyr, Hyl, Hya.
    destruct show; eexists; (split; [unfold logged; cbn [heap log]; rewrite <- !app_assoc;
                                      reflexivity|]);
      rewrite plot_calls_app, Hn;
      match goal with |- _ + plot_calls ?l = _ => change (plot_calls l) with 0 end; lia.
  - destruct (for_each_curves
                (fun trajectory => plot_in_time (a2_x_var self) trajectory ;;
                                   plot_in_time (a2_y_var self) trajectory) 2 trajectories)
      with (s := s1) as (events & Hplots & Hn).
    { eapply Forall_impl; [exact Hcurves|]. intros trajectory Hc s.
      destruct (plot_in_time_run _ _ _ s Hc Hx) as (ev1 & Hrun1 & Hn1).
      destruct (plot_in_time_run _ _ _ (logged s ev1) Hc Hy) as (ev2 & Hrun2 & Hn2).
      exists (ev1 ++ ev2). rewrite (bind_ok _ _ _ _ _ Hrun1), Hrun2.
      rewrite logged_logged, plot_calls_app, Hn1, Hn2. split; reflexivity. }
    unfold PhasePlane2DAnalyzer_plot_trajectory.
    rewrite (bind_ok _ _ _ _ _ Hrun). cbn [is_str].
    change (String.eqb "t-v" "v-v") with false. rewrite String.eqb_refl.
    unfold bind at 1. unfold bind at 1. rewrite Hplots.
    unfold plt, when, bind, emit, ret.
    destruct show; eexists; (split; [unfold logged; cbn [heap log]; rewrite <- !app_assoc;
                                      reflexivity|]);
      rewrite plot_calls_app, Hn;
      match goal with |- _ + plot_calls ?l = _ => change (plot_calls l) with 0 end; lia.
Qed.

Lemma plot_trajectory_draws_every_trajectory_witness :
  exists trajectories s1,
    get_trajectories env0 (a2_model symbolic_system) ["x"; "y"]
      (PSeq [PSeq [PInt 0; PInt 1]; PSeq [PInt 2; PInt 3]]) (PFloat 100)
      (a2_fixed_vars symbolic_system) (PSeq []) (a2_pars_update symbolic_system) st0
    = (Ok trajectories, s1)
    /\ length trajectories = 2
    /\ (exists events,
           PhasePlane2DAnalyzer_plot_trajectory env0 symbolic_system
             (PSeq [PSeq [PInt 0; PInt 1]; PSeq [PInt 2; PInt 3]]) (PFloat 100) (PSeq [])
             (PStr "v-v") false st0
           = (Ok tt, logged s1 events)
           /\ plot_calls events = length trajectories)
    /\ (exists events,
           PhasePlane2DAnalyzer_plot_trajectory env0 symbolic_system
             (PSeq [PSeq [PInt 0; PInt 1]; PSeq [PInt 2; PInt 3]]) (PFloat 100) (PSeq [])
             (PStr "t-v") false st0
           = (Ok tt, logged s1 events)
           /\ plot_calls events = 2 * length trajectories).
Proof.
  destruct (get_trajectories env0 (a2_model symbolic_system) ["x"; "y"]
              (PSeq [PSeq [PInt 0; PInt 1]; PSeq [PInt 2; PInt 3]]) (PFloat 100)
              (a2_fixed_vars symbolic_system) (PSeq []) (a2_pars_update symbolic_system) st0)
    as [[trajectories|e] s1] eqn:E.
  - exists trajectories, s1. split; [reflexivity|]. split.
    + vm_compute in E. injection E as <- _. reflexivity.
    + apply (plot_trajectory_draws_every_trajectory env0 symbolic_system _ _ _ false st0
               trajectories s1 E).
      do 7 eexists. repeat split; reflexivity.
  - exfalso. vm_compute in E. discriminate.
Defined.

(** X10.  [plot_trajectory] looks at [axes] only after the trajectories
    have been simulated: a value other than ['v-v'] and ['t-v'] raises the
    [ModelUseError] that names it once the run is over and recorded, and
    an error of the run itself comes first. *)
Theorem plot_trajectory_checks_axes_after_the_run :
  forall env self initials duration inputs axes show st,
    is_str axes "v-v" = false ->
    is_str axes "t-v" = false ->
    (forall trajectories s1,
        get_trajectories env (a2_model self) (map fst (a2_target_vars self)) initials
          duration (a2_fixed_vars self) inputs (a2_pars_update self) st
        = (Ok trajectories, s1) ->
        PhasePlane2DAnalyzer_plot_trajectory env self initials duration inputs axes show st
        = (Raise (ModelUseError (msg_axes (py_format env axes))), s1))
    /\ (forall e s1,
           get_trajectories env (a2_model self) (map fst (a2_target_vars self)) initials
             duration (a2_fixed_vars self) inputs (a2_pars_update self) st
           = (Raise e, s1) ->
           PhasePlane2DAnalyzer_plot_trajectory env self initials duration inputs axes show st
           = (Raise e, s1)).
Proof.
  intros env self initials duration inputs axes show st Hvv Htv. split.
  - intros trajectories s1 Hrun. unfold PhasePlane2DAnalyzer_plot_trajectory.
    rewrite (bind_ok _ _ _ _ _ Hrun), Hvv, Htv. reflexivity.
  - intros e s1 Hrun. unfold PhasePlane2DAnalyzer_plot_trajectory.
    unfold bind at 1. rewrite Hrun. reflexivity.
Qed.

Lemma plot_trajectory_checks_axes_after_the_run_witness :
  (exists s1,
      PhasePlane2DAnalyzer_plot_trajectory env0 symbolic_system
        (PSeq [PSeq [PInt 0; PInt 1]]) (PFloat 100) (PSeq []) (PStr "x-y") false st0
      = (Raise (ModelUseError (msg_axes "x-y")), s1)
      /\ length (log s1) = 5)
  /\ PhasePlane2DAnalyzer_plot_trajectory env0 symbolic_system
       (PSeq [PSeq [PInt 0; PInt 1; PInt 2]]) (PFloat 100) (PSeq []) (PStr "x-y") false st0
     = (Raise (ModelUseError msg_initials), st0).
Proof.
  split.
  - destruct (get_trajectories env0 (a2_model symbolic_system)
                (map fst (a2_target_vars symbolic_system)) (PSeq [PSeq [PInt 0; PInt 1]])
                (PFloat 100) (a2_fixed_vars symbolic_system) (PSeq [])
                (a2_pars_update symbolic_system) st0) as [[trajectories|e] s1] eqn:E.
    + exists s1. split.
      * exact (proj1 (plot_trajectory_checks_axes_after_the_run env0 symbolic_system
                        (PSeq [PSeq [PInt 0; PInt 1]]) (PFloat 100) (PSeq []) (PStr "x-y")
                        false st0 eq_refl eq_refl) trajectories s1 E).
      * vm_compute in E. injection E as _ <-. reflexivity.
    + exfalso. vm_compute in E. discriminate.
  - apply (proj2 (plot_trajectory_checks_axes_after_the_run env0 symbolic_system
                    (PSeq [PSeq [PInt 0; PInt 1; PInt 2]]) (PFloat 100) (PSeq [])
                    (PStr "x-y") false st0 eq_refl eq_refl)).
    reflexivity.
Defined.

(** ** plot_vector_field, further *)

(** X11.  [plot_vector_field] translates [TypeError] only: any other
    exception raised while the evaluator of [dx] (or, in 2D, of [dy]) is
    obtained or called leaves the method as it is, and nothing has been
    plotted. *)
Theorem plot_vector_field_passes_other_errors :
  forall env e,
    is_TypeError e = false ->
    (forall (self : Analyzer1D) show st,
        a1_get_f_dx self = Raise e
        \/ (exists f xs,
               a1_get_f_dx self = Ok f
               /\ lookup_key (a1_x_var self) (a1_resolutions self) = Ok xs
               /\ f xs = Raise e) ->
        PhasePlane1DAnalyzer_plot_vector_field env self show st = (Raise e, st))
    /\ (forall (self : Analyzer2D) line_widths show st xs ys,
           let X := fst (np_meshgrid xs ys) in
           let Y := snd (np_meshgrid xs ys) in
           lookup_key (a2_x_var self) (a2_resolutions self) = Ok xs ->
           lookup_key (a2_y_var self) (a2_resolutions self) = Ok ys ->
           (a2_get_f_dx self = Raise e
            \/ (exists f, a2_get_f_dx self = Ok f /\ f X Y = Raise e))
           \/ ((exists dx, call2_returns (a2_get_f_dx self) X Y dx)
               /\ (a2_get_f_dy self = Raise e
                   \/ (exists g, a2_get_f_dy self = Ok g /\ g X Y = Raise e))) ->
           PhasePlane2DAnalyzer_plot_vector_field env self line_widths show st
           = (Raise e, st)).
Proof.
  intros env e He. split.
  - intros self show st Hfail.
    unfold PhasePlane1DAnalyzer_plot_vector_field, missing_variables, try_except,
      bind, lift, raise.
    destruct Hfail as [-> | (f & xs & -> & -> & ->)]; destruct e; try discriminate;
      reflexivity.
  - intros self line_widths show st xs ys X Y Hxs Hys Hfail.
    unfold PhasePlane2DAnalyzer_plot_vector_field, missing_variables, try_except,
      bind, lift, raise.
    rewrite Hxs, Hys. fold X Y.
    destruct Hfail as [[-> | (f & -> & ->)] | [(dx & f & -> & ->) [-> | (g & -> & ->)]]];
      destruct e; try discriminate; reflexivity.
Qed.

Lemma plot_vector_field_passes_other_errors_witness :
  PhasePlane1DAnalyzer_plot_vector_field env0
    (failing_system_1d (ValueError "math domain error")) false st1
  = (Raise (ValueError "math domain error"), st1)
  /\ PhasePlane2DAnalyzer_plot_vector_field env0
       (failing_system_2d (ValueError "math domain error")) default_line_widths false st0
     = (Raise (ValueError "math domain error"), st0).
Proof.
  pose proof (plot_vector_field_passes_other_errors env0
                (ValueError "math domain error") eq_refl) as [H1 H2].
  split.
  - apply H1. left. reflexivity.
  - apply (H2 (failing_system_2d (ValueError "math domain error")) default_line_widths
              false st0 [-1; 0; 1]%float [0; 1]%float eq_refl eq_refl).
    left. right. eexists. split; reflexivity.
Defined.





(** ** The facade on a one-variable analyzer *)

Lemma init_one_variable env model tv fixed_vars pars_update options st self st' :
  length tv = 1 ->
  PhasePlaneAnalyzer_init env model (PDict tv) fixed_vars pars_update options st
  = (Ok self, st') ->
  exists a, ppa_analyzer self = An1D a.
Proof.
  intros Hlen. unfold PhasePlaneAnalyzer_init.
  destruct model; try discriminate.
  destruct (negb (is_dict (default_dict fixed_vars))); [discriminate|].
  destruct (default_dict pars_update); try discriminate.
  destruct (first_invalid_par step_scopes d); [discriminate|].
  intros H. apply bind_inv in H as (opts & s1 & _ & H). rewrite Hlen in H.
  apply bind_inv in H as (a & s2 & _ & H). injection H as <- _. eauto.
Qed.

(** X13.  Through [PhasePlaneAnalyzer], [plot_vector_field] cannot be used
    on a one-variable system: the facade passes [line_widths=...] to the
    1D analyzer's method, which declares [show] only, so binding the call
    raises [TypeError] before anything is evaluated or plotted, whatever
    the arguments. *)
Theorem facade_plot_vector_field_fails_for_one_variable :
  forall env model tv fixed_vars pars_update options st self st',
    length tv = 1 ->
    PhasePlaneAnalyzer_init env model (PDict tv) fixed_vars pars_update options st
    = (Ok self, st') ->
    forall line_widths show s,
    exists msg,
      PhasePlaneAnalyzer_plot_vector_field env self line_widths show s
      = (Raise (TypeError msg), s).
Proof.
  intros env model tv fixed_vars pars_update options st self st' Hlen Hinit
    line_widths show s.
  destruct (init_one_variable _ _ _ _ _ _ _ _ _ Hlen Hinit) as [a Ha].
  unfold PhasePlaneAnalyzer_plot_vector_field. rewrite Ha.
  destruct (bind_keywords_undeclared "plot_vector_field" plot_vector_field_1d_signature
              [("line_widths", line_widths); ("show", PBool show)] "line_widths"
              eq_refl ltac:(cbn; tauto) eq_refl) as [msg Hmsg].
  exists msg. unfold bind, lift. rewrite Hmsg. reflexivity.
Qed.

Lemma facade_plot_vector_field_fails_for_one_variable_witness :
  exists self st',
    PhasePlaneAnalyzer_init env0 (PNeuType "model" [])
      (PDict [("x", PSeq [PInt (-2); PInt 2])]) PNone PNone PNone st0
    = (Ok self, st')
    /\ exists msg,
         PhasePlaneAnalyzer_plot_vector_field env0 self default_line_widths false st'
         = (Raise (TypeError msg), st').
Proof.
  destruct (PhasePlaneAnalyzer_init env0 (PNeuType "model" [])
              (PDict [("x", PSeq [PInt (-2); PInt 2])]) PNone PNone PNone st0)
    as [[self|e] st'] eqn:E.
  - exists self, st'. split; [reflexivity|].
    exact (facade_plot_vector_field_fails_for_one_variable env0 (PNeuType "model" [])
             [("x", PSeq [PInt (-2); PInt 2])] PNone PNone PNone st0 self st' eq_refl E
             default_line_widths false st').
  - exfalso. vm_compute in E. discriminate.
Defined.

(** X14.  Through [PhasePlaneAnalyzer], [plot_nullcline] on a one-variable
    system raises [NotImplementedError] (nullclines need two variables)
    and plots nothing. *)
Theorem facade_plot_nullcline_needs_two_variables :
  forall env model tv fixed_vars pars_update options st self st',
    length tv = 1 ->
    PhasePlaneAnalyzer_init env model (PDict tv) fixed_vars pars_update options st
    = (Ok self, st') ->
    forall show s,
      PhasePlaneAnalyzer_plot_nullcline env self show s
      = (Raise (NotImplementedError msg_no_nullcline), s).
Proof.
  intros env model tv fixed_vars pars_update options st self st' Hlen Hinit show s.
  destruct (init_one_variable _ _ _ _ _ _ _ _ _ Hlen Hinit) as [a Ha].
  unfold PhasePlaneAnalyzer_plot_nullcline. rewrite Ha. reflexivity.
Qed.

Lemma facade_plot_nullcline_needs_two_variables_witness :
  exists self st',
    PhasePlaneAnalyzer_init env0 (PNeuType "model" [])
      (PDict [("x", PSeq [PInt (-2); PInt 2])]) PNone PNone PNone st0
    = (Ok self, st')
    /\ PhasePlaneAnalyzer_plot_nullcline env0 self true st'
       = (Raise (NotImplementedError msg_no_nullcline), st').
Proof.
  destruct (PhasePlaneAnalyzer_init env0 (PNeuType "model" [])
              (PDict [("x", PSeq [PInt (-2); PInt 2])]) PNone PNone PNone st0)
    as [[self|e] st'] eqn:E.
  - exists self, st'. split; [reflexivity|].
    exact (facade_plot_nullcline_needs_two_variables env0 (PNeuType "model" [])
             [("x", PSeq [PInt (-2); PInt 2])] PNone PNone PNone st0 self st' eq_refl E
             true st').
  - exfalso. vm_compute in E. discriminate.
Defined.

(** ** plot_nullcline, further *)

Lemma lift_Ok {A B} (a : A) (k : A -> M B) s : bind (lift (Ok a)) k s = k a s.
Proof. reflexivity. Qed.

Lemma bind_congr {A B} (m m' : M A) (k1 k2 : A -> M B) s :
  m s = m' s -> (forall a s', k1 a s' = k2 a s') -> bind m k1 s = bind m' k2 s.
Proof.
  intros Hm H. unfold bind. rewrite Hm. destruct (m' s) as [[a|e] s']; [apply H|reflexivity].
Qed.

Lemma bind_ext {A B} (m : M A) (k1 k2 : A -> M B) s :
  (forall a s', k1 a s' = k2 a s') -> bind m k1 s = bind m k2 s.
Proof. intros H. unfold bind. destruct (m s) as [[a|e] s']; [apply H|reflexivity]. Qed.

(** Where no sweep is needed, a block looks neither at the plot styles nor
    at the optimizer. *)
Lemma nullcline_block_no_sweep env self xs ys y_by_x x_by_y
      optimizer optimizer' plot_style plot_style' x_plot_style x_plot_style'
      sweep_style sweep_style' sweep_var sweep_var' s :
  uses_sweep y_by_x x_by_y = false ->
  nullcline_block env self xs ys y_by_x x_by_y optimizer plot_style x_plot_style
    sweep_style sweep_var s
  = nullcline_block env self xs ys y_by_x x_by_y optimizer' plot_style' x_plot_style'
      sweep_style' sweep_var' s.
Proof.
  unfold uses_sweep, nullcline_block, bind, lift.
  destruct y_by_x as [by_x|e]; [|reflexivity].
  destruct (String.eqb (status by_x) "sympy_success"); [reflexivity|].
  destruct x_by_y as [by_y|e]; [|reflexivity].
  destruct (String.eqb (status by_y) "sympy_success"); [reflexivity|discriminate].
Qed.

Lemma nullcline_block_symbolic env self xs ys y_by_x x_by_y optimizer0 method values :
  uses_sweep y_by_x x_by_y = false ->
  nullcline_curve xs ys y_by_x x_by_y optimizer0 = Ok (method, values) ->
  forall optimizer plot_style x_plot_style sweep_style sweep_var s,
  exists s',
    nullcline_block env self xs ys y_by_x x_by_y optimizer plot_style x_plot_style
      sweep_style sweep_var s = (Ok values, s').
Proof.
  intros Hsweep Hcurve optimizer plot_style x_plot_style sweep_style sweep_var s.
  rewrite (nullcline_block_no_sweep env self xs ys y_by_x x_by_y optimizer optimizer0
             plot_style (PStr "scatter") x_plot_style x_plot_style
             sweep_style sweep_style sweep_var sweep_var s Hsweep).
  destruct (nullcline_block_returns env self xs ys y_by_x x_by_y optimizer0 x_plot_style
              sweep_style sweep_var s method values Hcurve) as (s' & Hrun & _).
  eauto.
Qed.

Lemma uses_sweep_inv y_by_x x_by_y :
  uses_sweep y_by_x x_by_y = true ->
  exists by_x by_y,
    y_by_x = Ok by_x /\ x_by_y = Ok by_y
    /\ String.eqb (status by_x) "sympy_success" = false
    /\ String.eqb (status by_y) "sympy_success" = false.
Proof.
  unfold uses_sweep. destruct y_by_x as [by_x|]; [|discriminate].
  destruct x_by_y as [by_y|]; [|discriminate].
  intros H. apply andb_prop in H as [H1 H2].
  apply negb_true_iff in H1, H2. eauto 6.
Qed.

Lemma unknown_style_inv style :
  unknown_style style = true -> is_str style "scatter" = false /\ is_str style "line" = false.
Proof.
  unfold unknown_style. intros H. apply andb_prop in H as [H1 H2].
  apply negb_true_iff in H1, H2. auto.
Qed.

(** The sweep of an equation under a plot style that is not known. *)
Lemma nullcline_block_unknown_style env self xs ys y_by_x x_by_y optimizer values
      plot_style x_plot_style sweep_style sweep_var s :
  uses_sweep y_by_x x_by_y = true ->
  optimizer = Ok (Ok values) ->
  unknown_style plot_style = true ->
  nullcline_block env self xs ys y_by_x x_by_y optimizer plot_style x_plot_style
    sweep_style sweep_var s
  = (Raise (ValueError ("Unknown plot style: " +:+ py_format env x_plot_style)), s).
Proof.
  intros Hsweep -> Hstyle.
  apply uses_sweep_inv in Hsweep as (by_x & by_y & -> & -> & Hx & Hy).
  apply unknown_style_inv in Hstyle as [Hscatter Hline].
  unfold nullcline_block, bind, lift, raise. rewrite Hx, Hy, Hscatter, Hline. reflexivity.
Qed.

(** X15.  In [plot_nullcline] the two ['plot'] options are crossed: how the
    sweep of the [y] equation is drawn is decided by the option given for
    the [x] equation's function, and the sweep of the [x] equation by the
    option given for the [y] equation's function.  An unknown style
    raises [ValueError]; in both places the message shows the style given
    for the [x] equation's function. *)
Theorem plot_nullcline_style_options_are_crossed :
  forall env self numerical_setting x_setting y_setting show st xs ys,
    let x_plot_style := dict_get_default x_setting "plot" (PStr "scatter") in
    let y_plot_style := dict_get_default y_setting "plot" (PStr "scatter") in
    setting_of self numerical_setting x_setting y_setting ->
    lookup_key (a2_x_var self) (a2_resolutions self) = Ok xs ->
    lookup_key (a2_y_var self) (a2_resolutions self) = Ok ys ->
    (uses_sweep (a2_get_y_by_x_in_y_eq self) (a2_get_x_by_y_in_y_eq self) = true ->
     (forall coords, exists values,
         a2_get_f_optimize_y_nullcline self coords = Ok (Ok values)) ->
     unknown_style x_plot_style = true ->
     PhasePlane2DAnalyzer_plot_nullcline env self numerical_setting show st
     = (Raise (ValueError ("Unknown plot style: " +:+ py_format env x_plot_style)), st))
    /\ (uses_sweep (a2_get_y_by_x_in_y_eq self) (a2_get_x_by_y_in_y_eq self) = false ->
        (exists method values,
            y_nullcline self xs ys (default_coords self) = Ok (method, values)) ->
        uses_sweep (a2_get_y_by_x_in_x_eq self) (a2_get_x_by_y_in_x_eq self) = true ->
        (forall coords, exists values,
            a2_get_f_optimize_x_nullcline self coords = Ok (Ok values)) ->
        unknown_style y_plot_style = true ->
        fst (PhasePlane2DAnalyzer_plot_nullcline env self numerical_setting show st)
        = Raise (ValueError ("Unknown plot style: " +:+ py_format env x_plot_style))).
Proof.
  intros env self numerical_setting x_setting y_setting show st xs ys
    x_plot_style y_plot_style [Hx Hy] Hxs Hys.
  split.
  - intros Hsweep Hopt Hstyle.
    unfold PhasePlane2DAnalyzer_plot_nullcline.
    rewrite (lift_ok _ _ _ _ Hx), (lift_ok _ _ _ _ Hy). cbn [py_get].
    repeat (rewrite lift_ok with (a := _) by reflexivity).
    rewrite (lift_ok _ _ _ _ Hxs), (lift_ok _ _ _ _ Hys).
    match goal with
    | |- context [a2_get_f_optimize_y_nullcline self ?c] =>
        destruct (Hopt c) as [values Hvalues]
    end.
    unfold bind at 1.
    rewrite (nullcline_block_unknown_style env self xs ys _ _ _ values _ _ _ _ st
               Hsweep Hvalues Hstyle).
    reflexivity.
  - intros Hsymbolic (method & values_y & Hcurve) Hsweep Hopt Hstyle.
    unfold PhasePlane2DAnalyzer_plot_nullcline.
    rewrite (lift_ok _ _ _ _ Hx), (lift_ok _ _ _ _ Hy). cbn [py_get].
    repeat (rewrite lift_ok with (a := _) by reflexivity).
    rewrite (lift_ok _ _ _ _ Hxs), (lift_ok _ _ _ _ Hys).
    match goal with
    | |- context [nullcline_block env self xs ys (a2_get_y_by_x_in_y_eq self) _ ?o ?p ?q ?r ?v] =>
        destruct (nullcline_block_symbolic env self xs ys _ _ _ method values_y
                    Hsymbolic Hcurve o p q r v st) as [s1 Hblock]
    end.
    rewrite (bind_ok _ _ _ _ _ Hblock).
    match goal with
    | |- context [a2_get_f_optimize_x_nullcline self ?c] =>
        destruct (Hopt c) as [values Hvalues]
    end.
    unfold bind at 1.
    rewrite (nullcline_block_unknown_style env self xs ys _ _ _ values _ _ _ _ s1
               Hsweep Hvalues Hstyle).
    reflexivity.
Qed.

Lemma plot_nullcline_style_options_are_crossed_witness :
  PhasePlane2DAnalyzer_plot_nullcline env0 sweep_system
    (PDict [("int_x", PDict [("plot", PStr "dots")])]) false st0
  = (Raise (ValueError "Unknown plot style: dots"), st0)
  /\ fst (PhasePlane2DAnalyzer_plot_nullcline env0 mixed_system
            (PDict [("int_y", PDict [("plot", PStr "dots")])]) false st0)
     = Raise (ValueError "Unknown plot style: scatter").
Proof.
  split.
  - apply (proj1 (plot_nullcline_style_options_are_crossed env0 sweep_system
                    (PDict [("int_x", PDict [("plot", PStr "dots")])])
                    [("plot", PStr "dots")] [] false st0 [-1; 0; 1]%float [0; 1]%float
                    ltac:(split; reflexivity) eq_refl eq_refl)).
    + reflexivity.
    + intros coords. eexists. reflexivity.
    + reflexivity.
  - apply (proj2 (plot_nullcline_style_options_are_crossed env0 mixed_system
                    (PDict [("int_y", PDict [("plot", PStr "dots")])])
                    [] [("plot", PStr "dots")] false st0 [-1; 0; 1]%float [0; 1]%float
                    ltac:(split; reflexivity) eq_refl eq_refl)).
    + reflexivity.
    + eexists; eexists; reflexivity.
    + reflexivity.
    + intros coords. eexists. reflexivity.
    + reflexivity.
Defined.

(** X16.  [numerical_setting] matters to the sweep only: when neither
    equation needs the numeric sweep, [plot_nullcline] does exactly what it
    does without a setting, whatever ['coords'] and ['plot'] say (an
    unknown plot style included). *)
Theorem plot_nullcline_setting_is_for_the_sweep :
  forall env self numerical_setting x_setting y_setting show st,
    setting_of self numerical_setting x_setting y_setting ->
    uses_sweep (a2_get_y_by_x_in_y_eq self) (a2_get_x_by_y_in_y_eq self) = false ->
    uses_sweep (a2_get_y_by_x_in_x_eq self) (a2_get_x_by_y_in_x_eq self) = false ->
    PhasePlane2DAnalyzer_plot_nullcline env self numerical_setting show st
    = PhasePlane2DAnalyzer_plot_nullcline env self PNone show st.
Proof.
  intros env self numerical_setting x_setting y_setting show st [Hx Hy] Hsweep_y Hsweep_x.
  unfold PhasePlane2DAnalyzer_plot_nullcline.
  rewrite (lift_ok _ _ _ _ Hx), (lift_ok _ _ _ _ Hy).
  repeat (progress (cbn [default_dict py_get dict_get_default od_get]; rewrite ?lift_Ok)).
  apply bind_ext. intros xs s1. apply bind_ext. intros ys s2.
  apply bind_congr; [exact (nullcline_block_no_sweep _ _ _ _ _ _ _ _ _ _ _ _ _ _ _ _ _
                              Hsweep_y)|].
  intros in_y_eq s3.
  apply bind_congr; [exact (nullcline_block_no_sweep _ _ _ _ _ _ _ _ _ _ _ _ _ _ _ _ _
                              Hsweep_x)|].
  reflexivity.
Qed.

Lemma plot_nullcline_setting_is_for_the_sweep_witness :
  PhasePlane2DAnalyzer_plot_nullcline env0 symbolic_system
    (PDict [("int_x", PDict [("plot", PStr "dots"); ("coords", PStr "y-x")])]) false st0
  = PhasePlane2DAnalyzer_plot_nullcline env0 symbolic_system PNone false st0.
Proof.
  apply (plot_nullcline_setting_is_for_the_sweep env0 symbolic_system
           (PDict [("int_x", PDict [("plot", PStr "dots"); ("coords", PStr "y-x")])])
           [("plot", PStr "dots"); ("coords", PStr "y-x")] [] false st0).
  - split; reflexivity.
  - reflexivity.
  - reflexivity.
Defined.

(** X17.  A nullcline of the [x] equation that is found symbolically is
    drawn like the nullcline of the [y] equation: with both relations
    [y(x)] found, the first two curves [plot_nullcline] draws carry the
    colour of the [y] nullcline and the label ['<y> nullcline']; no other
    curve follows, whether or not the axes can then be set. *)
Theorem plot_nullcline_draws_symbolic_x_nullcline_as_y :
  forall env self show st xs ys in_y in_x y_values_in_y y_values_in_x,
    let y_label := ("label", PStr (a2_y_var self +:+ " nullcline")) in
    lookup_key (a2_x_var self) (a2_resolutions self) = Ok xs ->
    lookup_key (a2_y_var self) (a2_resolutions self) = Ok ys ->
    a2_get_y_by_x_in_y_eq self = Ok in_y ->
    status in_y = "sympy_success" ->
    solved_f in_y xs = Ok y_values_in_y ->
    a2_get_y_by_x_in_x_eq self = Ok in_x ->
    status in_x = "sympy_success" ->
    solved_f in_x xs = Ok y_values_in_x ->
    exists events,
      snd (PhasePlane2DAnalyzer_plot_nullcline env self PNone show st)
      = logged st ([Call "plt.plot" [arr1 xs; arr1 y_values_in_y] (y_style ++ [y_label]);
                    Call "plt.plot" [arr1 xs; arr1 y_values_in_x] (y_style ++ [y_label])]
                   ++ events)
      /\ plot_calls events = 0.
Proof.
  intros env self show st xs ys in_y in_x y_values_in_y y_values_in_x y_label
    Hxs Hys Hin_y Hsy Hfy Hin_x Hsx Hfx.
  unfold PhasePlane2DAnalyzer_plot_nullcline.
  cbn [default_dict py_get dict_get_default od_get].
  repeat (rewrite lift_ok with (a := _) by reflexivity).
  rewrite (lift_ok _ _ _ _ Hxs), (lift_ok _ _ _ _ Hys).
  unfold nullcline_block, missing_variables, try_except, set_lim, plt, when,
    bind, lift, emit, ret.
  rewrite Hin_y, Hsy, Hfy, Hin_x, Hsx, Hfx. cbn [String.eqb Ascii.eqb Bool.eqb].
  fold y_label.
  repeat match goal with
         | |- context [match ?r with Ok _ => _ | Raise _ => _ end] =>
             lazymatch r with
             | Ok _ => fail
             | Raise _ => fail
             | _ => destruct r
             end
         end;
    try destruct show;
    (eexists; split;
     [unfold logged; cbn [snd heap log]; rewrite <- ?app_assoc; cbn [app]; reflexivity
     |reflexivity]).
Qed.

Lemma plot_nullcline_draws_symbolic_x_nullcline_as_y_witness :
  exists events,
    snd (PhasePlane2DAnalyzer_plot_nullcline env0 symbolic_system PNone false st0)
    = logged st0
        ([Call "plt.plot" [arr1 [-1; 0; 1]%float; arr1 [1; 0; 1]%float]
            (y_style ++ [("label", PStr "y nullcline")]);
          Call "plt.plot" [arr1 [-1; 0; 1]%float; arr1 [1; 0; 1]%float]
            (y_style ++ [("label", PStr "y nullcline")])]
         ++ events)
    /\ plot_calls events = 0.
Proof.
  exact (plot_nullcline_draws_symbolic_x_nullcline_as_y env0 symbolic_system false st0
           [-1; 0; 1]%float [0; 1]%float
           {| status := "sympy_success"; solved_f := fun xs => Ok (map parabola xs) |}
           {| status := "sympy_success"; solved_f := fun xs => Ok (map parabola xs) |}
           [1; 0; 1]%float [1; 0; 1]%float
           eq_refl eq_refl eq_refl eq_refl eq_refl eq_refl eq_refl eq_refl).
Defined.

(** X18.  [plot_nullcline] reports a missing variable like
    [plot_vector_field] does: when a symbolic relation was found but
    evaluating it over the grid raises [TypeError], the method raises the
    [ModelUseError] about missing variables; for the [y] equation this
    happens before anything is plotted. *)
Theorem plot_nullcline_reports_missing_variables :
  forall env self numerical_setting x_setting y_setting show st xs ys msg,
    setting_of self numerical_setting x_setting y_setting ->
    lookup_key (a2_x_var self) (a2_resolutions self) = Ok xs ->
    lookup_key (a2_y_var self) (a2_resolutions self) = Ok ys ->
    (forall by_x,
        a2_get_y_by_x_in_y_eq self = Ok by_x ->
        status by_x = "sympy_success" ->
        solved_f by_x xs = Raise (TypeError msg) ->
        PhasePlane2DAnalyzer_plot_nullcline env self numerical_setting show st
        = (Raise (ModelUseError msg_missing), st))
    /\ (forall by_x by_y,
           a2_get_y_by_x_in_y_eq self = Ok by_x ->
           String.eqb (status by_x) "sympy_success" = false ->
           a2_get_x_by_y_in_y_eq self = Ok by_y ->
           status by_y = "sympy_success" ->
           solved_f by_y ys = Raise (TypeError msg) ->
           PhasePlane2DAnalyzer_plot_nullcline env self numerical_setting show st
           = (Raise (ModelUseError msg_missing), st)).
Proof.
  intros env self numerical_setting x_setting y_setting show st xs ys msg [Hx Hy] Hxs Hys.
  split.
  - intros by_x Hby_x Hstatus Hf.
    unfold PhasePlane2DAnalyzer_plot_nullcline.
    rewrite (lift_ok _ _ _ _ Hx), (lift_ok _ _ _ _ Hy). cbn [py_get]. rewrite !lift_Ok.
    rewrite (lift_ok _ _ _ _ Hxs), (lift_ok _ _ _ _ Hys).
    unfold bind at 1. unfold nullcline_block, missing_variables, try_except, bind, lift, raise.
    rewrite Hby_x, Hstatus, Hf. reflexivity.
  - intros by_x by_y Hby_x Hnot Hby_y Hstatus Hf.
    unfold PhasePlane2DAnalyzer_plot_nullcline.
    rewrite (lift_ok _ _ _ _ Hx), (lift_ok _ _ _ _ Hy). cbn [py_get]. rewrite !lift_Ok.
    rewrite (lift_ok _ _ _ _ Hxs), (lift_ok _ _ _ _ Hys).
    unfold bind at 1. unfold nullcline_block, missing_variables, try_except, bind, lift, raise.
    rewrite Hby_x, Hnot, Hby_y, Hstatus, Hf. reflexivity.
Qed.

Lemma plot_nullcline_reports_missing_variables_witness :
  PhasePlane2DAnalyzer_plot_nullcline env0 (nullcline_missing "Iext") PNone false st0
  = (Raise (ModelUseError msg_missing), st0)
  /\ PhasePlane2DAnalyzer_plot_nullcline env0 (nullcline_missing_in_y "Iext") PNone false st0
     = (Raise (ModelUseError msg_missing), st0).
Proof.
  split.
  - apply (proj1 (plot_nullcline_reports_missing_variables env0 (nullcline_missing "Iext")
                    PNone [] [] false st0 [-1; 0; 1]%float [0; 1]%float
                    "f_dx() missing 1 required positional argument: 'Iext'"
                    ltac:(split; reflexivity) eq_refl eq_refl)
             {| status := "sympy_success";
                solved_f := fun _ => Raise (missing_argument "Iext") |});
      reflexivity.
  - apply (proj2 (plot_nullcline_reports_missing_variables env0
                    (nullcline_missing_in_y "Iext")
                    PNone [] [] false st0 [-1; 0; 1]%float [0; 1]%float
                    "f_dx() missing 1 required positional argument: 'Iext'"
                    ltac:(split; reflexivity) eq_refl eq_refl)
             {| status := "sympy_failed"; solved_f := fun _ => Raise (KeyError "f") |}
             {| status := "sympy_success";
                solved_f := fun _ => Raise (missing_argument "Iext") |});
      reflexivity.
Defined.

(** ** plot_fixed_point of the 1D analyzer, further *)

Lemma classify_with_solver env solver x_var f_dfdx x_values indices :
  forall container s,
    classify (with_solver env solver) x_var f_dfdx x_values indices container s
    = classify env x_var f_dfdx x_values indices container s.
Proof.
  induction indices as [|i rest IH]; intros container s; [reflexivity|].
  cbn [classify].
  apply bind_ext. intros x s1. apply bind_ext. intros dfdx s2.
  apply bind_congr; [reflexivity|]. intros fp_type s3.
  apply bind_congr; [reflexivity|]. intros u s4.
  apply bind_ext. intros points s5. apply IH.
Qed.

Lemma classify_and_plot_with_solver env solver self show x_values s :
  classify_and_plot (with_solver env solver) self show x_values s
  = classify_and_plot env self show x_values s.
Proof.
  unfold classify_and_plot.
  apply bind_ext. intros f_dfdx s1. apply bind_ext. intros n s2.
  apply bind_congr; [apply classify_with_solver|]. intros container s3. reflexivity.
Qed.

(** X19.  With the option [escape_sympy_solver] set, [plot_fixed_point] of
    the 1D analyzer does not depend on [sympy.solve]: whatever the solver
    would answer, the result, what is printed and plotted, and the state
    are the same; the roots come from the numeric root finder. *)
Theorem plot_fixed_point_escape_skips_the_symbolic_solver :
  forall env solver self show st escape,
    lookup_key "escape_sympy_solver" (a1_options self) = Ok escape ->
    truthy escape = true ->
    PhasePlane1DAnalyzer_plot_fixed_point (with_solver env solver) self show st
    = PhasePlane1DAnalyzer_plot_fixed_point env self show st.
Proof.
  intros env solver self show st escape Hescape Htruthy.
  unfold PhasePlane1DAnalyzer_plot_fixed_point.
  apply bind_congr; [|intros x_values s; apply classify_and_plot_with_solver].
  unfold find_x_values.
  apply bind_ext. intros returned s1.
  apply bind_congr; [reflexivity|]. intros x_eq s2.
  apply bind_ext. intros x_group s3.
  apply bind_congr; [reflexivity|]. intros scope s4.
  apply bind_congr; [|intros symbolic s5; destruct symbolic; reflexivity].
  unfold try_symbolic. rewrite !(lift_ok _ _ _ _ Hescape), Htruthy. reflexivity.
Qed.

Lemma plot_fixed_point_escape_skips_the_symbolic_solver_witness :
  PhasePlane1DAnalyzer_plot_fixed_point
    (with_solver env0 (fun _ _ _ => Raise (ValueError "no solver"))) cubic_system_numeric
    false st1
  = PhasePlane1DAnalyzer_plot_fixed_point env0 cubic_system_numeric false st1.
Proof.
  apply (plot_fixed_point_escape_skips_the_symbolic_solver env0
           (fun _ _ _ => Raise (ValueError "no solver")) cubic_system_numeric false st1
           (PBool true)); reflexivity.
Defined.

(** X20.  The namespace in which the root function of [plot_fixed_point]
    is evaluated is a fresh dictionary: a copy of [pars_update] overlaid
    with [fixed_vars], then with the mapping scope, then with the scope of
    the equation's function, so that for a name bound more than once the
    last of these wins.  The analyzer's own dictionaries are not touched. *)
Theorem function_scope_precedence :
  forall env self st pars fixed,
    heap st !! a1_pars_update self = Some pars ->
    heap st !! a1_fixed_vars self = Some fixed ->
    exists scope,
      function_scope env self st
      = (Ok (length (heap st)), {| heap := heap st ++ [scope]; log := log st |})
      /\ forall name,
           scope !! name
           = match func_scope (a1_x_eq_group self) !! name with
             | Some v => Some v
             | None =>
                 match get_mapping_scope env !! name with
                 | Some v => Some v
                 | None =>
                     match fixed !! name with
                     | Some v => Some v
                     | None => pars !! name
                     end
                 end
             end.
Proof.
  intros env self st pars fixed Hpars Hfixed.
  exists (scope_value env self pars fixed). split.
  - exact (function_scope_run env self st pars fixed Hpars Hfixed).
  - intros name. unfold scope_value. rewrite !lookup_union.
    destruct (func_scope (a1_x_eq_group self) !! name),
      (get_mapping_scope env !! name), (fixed !! name), (pars !! name); reflexivity.
Qed.

Lemma function_scope_precedence_witness :
  exists scope,
    function_scope env0 cubic_system
      {| heap := [{["Iext" := PFloat 1]}; {["Iext" := PFloat 0; "a" := PFloat 2]}];
         log := [] |}
    = (Ok 2,
       {| heap := [{["Iext" := PFloat 1]}; {["Iext" := PFloat 0; "a" := PFloat 2]}; scope];
          log := [] |})
    /\ scope !! "Iext" = Some (PFloat 1)
    /\ scope !! "a" = Some (PFloat 2).
Proof.
  destruct (function_scope_precedence env0 cubic_system
              {| heap := [{["Iext" := PFloat 1]}; {["Iext" := PFloat 0; "a" := PFloat 2]}];
                 log := [] |}
              {["Iext" := PFloat 0; "a" := PFloat 2]} {["Iext" := PFloat 1]}
              eq_refl eq_refl) as (scope & Hrun & Hscope).
  exists scope. split; [exact Hrun|].
  split; rewrite Hscope; reflexivity.
Defined.

Lemma od_set_fresh {A} (k : string) (v : A) (d : list (string * A)) :
  ~ In k (map fst d) -> od_set k v d = d ++ [(k, v)].
Proof.
  induction d as [|[k' v'] d IH]; intros Hk; [reflexivity|].
  cbn [od_set app]. cbn [map fst In] in Hk.
  destruct (String.eqb k k') eqn:E.
  - apply String.eqb_eq in E. subst. tauto.
  - rewrite IH by tauto. reflexivity.
Qed.

Lemma foldl_od_set_fresh {A} (v : A) (classes : list string) :
  forall d,
    List.NoDup (map fst d ++ classes) ->
    foldl (fun d a => od_set a v d) d classes = d ++ map (fun k => (k, v)) classes.
Proof.
  induction classes as [|a classes IH]; intros d Hnodup.
  - cbn. now rewrite app_nil_r.
  - cbn [foldl map].
    assert (Ha : ~ In a (map fst d)).
    { apply List.NoDup_remove_2 in Hnodup. intros Hin. apply Hnodup.
      apply in_or_app. now left. }
    rewrite (od_set_fresh _ _ _ Ha), IH.
    + now rewrite <- app_assoc.
    + rewrite map_app, <- app_assoc. exact Hnodup.
Qed.

Lemma empty_container_classes classes :
  List.NoDup classes -> empty_container classes = map (fun k => (k, [])) classes.
Proof.
  intros H. unfold empty_container.
  exact (foldl_od_set_fresh [] classes [] H).
Qed.

Lemma in_class_of env f_dfdx x fp_type k :
  class_of env f_dfdx x = Ok fp_type -> in_class env f_dfdx k x = String.eqb fp_type k.
Proof. unfold in_class. now intros ->. Qed.

(** One more root of class [fp_type] in a container that groups [rest]. *)
Lemma od_set_groups env f_dfdx x fp_type rest (container : list (string * list pyobj)) :
  class_of env f_dfdx x = Ok fp_type ->
  forall points,
    List.NoDup (map fst container) ->
    lookup_key fp_type container = Ok points ->
    map (fun item => (fst item, snd item ++ List.filter (in_class env f_dfdx (fst item)) rest))
      (od_set fp_type (points ++ [x]) container)
    = map (fun item => (fst item,
                        snd item ++ List.filter (in_class env f_dfdx (fst item)) (x :: rest)))
        container.
Proof.
  intros Hclass points. unfold lookup_key.
  induction container as [|[k v] container IH]; intros Hnodup Hpoints; [discriminate|].
  cbn [map fst] in Hnodup. apply List.NoDup_cons_iff in Hnodup as [Hk Hnodup].
  cbn [od_get od_set] in *.
  destruct (String.eqb fp_type k) eqn:E.
  - apply String.eqb_eq in E. subst k. injection Hpoints as <-.
    cbn [map fst snd List.filter]. rewrite (in_class_of _ _ _ _ _ Hclass), String.eqb_refl.
    rewrite <- app_assoc. cbn [app]. f_equal.
    apply map_ext_in. intros [k' v'] Hin. cbn [fst snd List.filter].
    rewrite (in_class_of _ _ _ _ _ Hclass).
    destruct (String.eqb fp_type k') eqn:E'; [|reflexivity].
    apply String.eqb_eq in E'. subst k'. exfalso. apply Hk.
    apply in_map_iff. exists (fp_type, v'). auto.
  - cbn [map fst snd List.filter]. rewrite (in_class_of _ _ _ _ _ Hclass), E.
    f_equal. exact (IH Hnodup Hpoints).
Qed.

Lemma classify_list_groups env f_dfdx xs :
  forall container container',
    List.NoDup (map fst container) ->
    classify_list env f_dfdx xs container = Ok container' ->
    container'
    = map (fun item => (fst item,
                        snd item ++ List.filter (in_class env f_dfdx (fst item)) xs))
        container.
Proof.
  induction xs as [|x rest IH]; intros container container' Hnodup H.
  - cbn in H. injection H as <-. symmetry. rewrite <- (map_id container) at 2.
    apply map_ext. intros [k v]. cbn. now rewrite app_nil_r.
  - cbn [classify_list] in H.
    destruct (f_dfdx x) as [dfdx|e] eqn:Hd; cbn [mbind result_bind] in H; [|discriminate].
    destruct (stability_analysis env dfdx) as [fp_type|e] eqn:Ht;
      cbn [mbind result_bind] in H; [|discriminate].
    destruct (lookup_key fp_type container) as [points|e] eqn:Hp;
      cbn [mbind result_bind] in H; [|discriminate].
    assert (Hclass : class_of env f_dfdx x = Ok fp_type).
    { unfold class_of. rewrite Hd. cbn [mbind result_bind]. exact Ht. }
    apply IH in H.
    + rewrite H. exact (od_set_groups env f_dfdx x fp_type rest container Hclass points
                          Hnodup Hp).
    + rewrite (od_set_keys _ _ _ _ Hp). exact Hnodup.
Qed.

(** X21.  The stability loop of [plot_fixed_point] sorts the roots into the
    classes of [utils.get_1d_classification()]: when it ends, each class,
    in the order of that list, holds exactly the roots whose derivative
    [utils.stability_analysis] puts into it, in the order in which they
    were found; so every root is in one class and none is lost. *)
Theorem fixed_points_are_grouped_by_class :
  forall env x_var f_dfdx xs container s s',
    List.NoDup (get_1d_classification env) ->
    classify env x_var f_dfdx (PSeq xs) (seq 0 (length xs))
      (empty_container (get_1d_classification env)) s
    = (Ok container, s') ->
    container
    = map (fun k => (k, List.filter (in_class env f_dfdx k) xs)) (get_1d_classification env).
Proof.
  intros env x_var f_dfdx xs container s s' Hnodup H.
  destruct (classify_run env x_var f_dfdx xs [] (empty_container (get_1d_classification env)) s)
    as (s'' & Hrun & _).
  cbn [app length] in Hrun. rewrite Hrun in H. injection H as H _.
  rewrite (empty_container_classes _ Hnodup) in H.
  apply classify_list_groups in H.
  - rewrite H, map_map. reflexivity.
  - rewrite map_map. cbn [fst]. rewrite map_id. exact Hnodup.
Qed.

Lemma fixed_points_are_grouped_by_class_witness :
  exists container s',
    classify env0 "x" (dfdx0 cubic) (arr1 [-1; 0; 1]%float) (seq 0 3)
      (empty_container (get_1d_classification env0)) st1
    = (Ok container, s')
    /\ container
       = [("stable", [PFloat 0]); ("unstable", [PFloat (-1); PFloat 1]);
          ("degenerate", []); ("undetermined", [])].
Proof.
  destruct (classify env0 "x" (dfdx0 cubic) (arr1 [-1; 0; 1]%float) (seq 0 3)
              (empty_container (get_1d_classification env0)) st1)
    as [[container|e] s'] eqn:E.
  - exists container, s'. split; [reflexivity|].
    rewrite (fixed_points_are_grouped_by_class env0 "x" (dfdx0 cubic)
               [PFloat (-1); PFloat 0; PFloat 1] container st1 s'); [reflexivity| |exact E].
    repeat constructor; cbn; intuition discriminate.
  - exfalso. vm_compute in E. discriminate.
Defined.

(** ** plot_fixed_point of the 2D analyzer *)

Lemma classify_2d_indices env x_var y_var f_jacobian x_values y_values indices :
  forall container s container' s',
    classify_2d env x_var y_var f_jacobian x_values y_values indices container s
    = (Ok container', s') ->
    Forall (fun i => exists y, py_index y_values i = Ok y) indices.
Proof.
  induction indices as [|i rest IH]; intros container s container' s' H; [constructor|].
  cbn [classify_2d] in H.
  apply bind_inv in H as (x & s1 & _ & H).
  apply bind_inv in H as (y & s2 & Hy & H). apply lift_inv in Hy as [Hy _].
  apply bind_inv in H as (jacobian & s3 & _ & H).
  apply bind_inv in H as (fp_type & s4 & _ & H).
  apply bind_inv in H as (u & s5 & _ & H).
  apply bind_inv in H as (points & s6 & _ & H).
  constructor; [eauto|exact (IH _ _ _ _ H)].
Qed.

(** X22.  Whenever [plot_fixed_point] of the 2D analyzer returns, it
    returns the pair of arrays of the fixed-point solver as it got them;
    the points are paired by index over the length of the [x] array, so
    the [y] array was at least as long (a shorter one makes the call
    raise). *)
Theorem plot_fixed_point_2d_returns_the_solver_values :
  forall env base self show st values st',
    PhasePlane2DAnalyzer_plot_fixed_point env base self show st = (Ok values, st') ->
    get_f_fixed_point base = Ok (Ok values)
    /\ forall xs ys, values = (PSeq xs, PSeq ys) -> length xs <= length ys.
Proof.
  intros env base self show st values st' H.
  unfold PhasePlane2DAnalyzer_plot_fixed_point in H.
  apply bind_inv in H as (f_fixed_point & s1 & Hf & H). apply lift_inv in Hf as [Hf ->].
  apply bind_inv in H as (found & s1 & Hfound & H). apply lift_inv in Hfound as [-> ->].
  apply bind_inv in H as (f_jacobian & s1 & _ & H).
  apply bind_inv in H as (n & s2 & Hn & H). apply lift_inv in Hn as [Hn _].
  apply bind_inv in H as (container & s3 & Hloop & H).
  apply bind_inv in H as (u1 & s4 & _ & H).
  apply bind_inv in H as (u2 & s5 & _ & H).
  apply bind_inv in H as (u3 & s6 & _ & H).
  injection H as Hvalues _. subst values.
  split; [rewrite Hf; now destruct found|].
  intros xs ys Hpair. destruct found as [x_values y_values].
  cbn [fst snd] in *. injection Hpair as -> ->. cbn [py_len] in Hn. injection Hn as <-.
  apply classify_2d_indices in Hloop.
  destruct (le_lt_dec (length xs) (length ys)) as [Hle|Hlt]; [exact Hle|exfalso].
  rewrite List.Forall_forall in Hloop.
  destruct (Hloop (length ys)) as [y Hy]; [apply in_seq; lia|].
  cbn [py_index] in Hy.
  rewrite (proj2 (lookup_ge_None ys (length ys)) (Nat.le_refl _)) in Hy. discriminate.
Qed.

Lemma plot_fixed_point_2d_returns_the_solver_values_witness :
  exists values st',
    PhasePlane2DAnalyzer_plot_fixed_point env0 (fixed_points_2d [0; 1]%float [0; 1; 2]%float)
      symbolic_system false st0
    = (Ok values, st')
    /\ get_f_fixed_point (fixed_points_2d [0; 1]%float [0; 1; 2]%float) = Ok (Ok values)
    /\ (forall xs ys, values = (PSeq xs, PSeq ys) -> length xs <= length ys).
Proof.
  destruct (PhasePlane2DAnalyzer_plot_fixed_point env0 (fixed_points_2d [0; 1]%float [0; 1; 2]%float)
              symbolic_system false st0) as [[values|e] st'] eqn:E.
  - exists values, st'. split; [reflexivity|].
    exact (plot_fixed_point_2d_returns_the_solver_values _ _ _ _ _ _ _ E).
  - exfalso. vm_compute in E. discriminate.
Defined.

Lemma empty_container_2d_empty classes :
  Forall (fun item : string * (list pyobj * list pyobj) => fst (snd item) = [])
    (empty_container_2d classes).
Proof.
  unfold empty_container_2d.
  assert (H : forall d : list (string * (list pyobj * list pyobj)),
             Forall (fun item => fst (snd item) = []) d ->
             Forall (fun item => fst (snd item) = [])
               (foldl (fun d a => od_set a ([], []) d) d classes)).
  { induction classes as [|a classes IH]; intros d Hd; [exact Hd|].
    cbn. apply IH, od_set_Forall; [reflexivity|exact Hd]. }
  apply H. constructor.
Qed.

Lemma plot_points_2d_nothing env container st :
  Forall (fun item : string * (list pyobj * list pyobj) => fst (snd item) = []) container ->
  plot_points_2d env container st = (Ok tt, st).
Proof.
  unfold plot_points_2d. induction 1 as [|[k [xs ys]] container Hxs _ IH]; [reflexivity|].
  cbn in Hxs. subst xs. cbn [for_each]. unfold bind at 1. cbn. exact IH.
Qed.

(** X23.  A 2D system without fixed points: [plot_fixed_point] asks for
    the Jacobian all the same, prints nothing, plots no point, still
    draws the legend, and returns the solver's empty [x] array with
    whatever came as [y]. *)
Theorem plot_fixed_point_2d_without_fixed_points :
  forall env base self show st y_values f_jacobian,
    get_f_fixed_point base = Ok (Ok (PSeq [], y_values)) ->
    get_f_jacobian base = Ok f_jacobian ->
    PhasePlane2DAnalyzer_plot_fixed_point env base self show st
    = (Ok (PSeq [], y_values),
       logged st (Call "plt.legend" [] []
                  :: (if show then [Call "plt.show" [] []] else []))).
Proof.
  intros env base self show st y_values f_jacobian Hfound Hjacobian.
  unfold PhasePlane2DAnalyzer_plot_fixed_point.
  rewrite (lift_ok _ _ _ _ Hfound), lift_Ok, (lift_ok _ _ _ _ Hjacobian).
  cbn [fst snd py_len length]. rewrite lift_Ok. cbn [seq classify_2d].
  change (bind (ret ?c) ?k st) with (k c st). cbn beta.
  rewrite (bind_ok _ _ _ _ _ (plot_points_2d_nothing env _ st (empty_container_2d_empty _))).
  unfold logged, plt, when, bind, emit, ret.
  destruct show; cbn [heap log]; rewrite <- ?app_assoc; reflexivity.
Qed.

Lemma plot_fixed_point_2d_without_fixed_points_witness :
  PhasePlane2DAnalyzer_plot_fixed_point env0 (fixed_points_2d [] []) symbolic_system true st0
  = (Ok (PSeq [], PSeq []),
     logged st0 [Call "plt.legend" [] []; Call "plt.show" [] []]).
Proof.
  exact (plot_fixed_point_2d_without_fixed_points env0 (fixed_points_2d [] [])
           symbolic_system true st0 (PSeq []) (fun _ _ => Ok (PFloat 1)) eq_refl eq_refl).
Defined.

(** ** Construction for one variable *)

(** X24.  Whenever the constructor succeeds on one dynamical variable, the
    analyzer installed is the 1D one the base class built from the
    keywords [model], [vars_dynamical], [vars_fixed], [pars_update] and
    [options], and the last three things done were to build its runner
    group: a [NeuGroup] of one neuron that monitors the analyzer's
    variables, a [TrajectoryRunner] on them, and a [Network] in ['repeat']
    mode. *)
Theorem init_one_variable_builds_the_runner :
  forall env model tv fixed_vars pars_update options st self st',
    let kwargs := [("model", model); ("vars_dynamical", PDict tv);
                   ("vars_fixed", default_dict fixed_vars);
                   ("pars_update", default_dict pars_update);
                   ("options", PDict (ppa_options self))] in
    length tv = 1 ->
    PhasePlaneAnalyzer_init env model (PDict tv) fixed_vars pars_update options st
    = (Ok self, st') ->
    exists a s1,
      ppa_analyzer self = An1D a
      /\ base1d_init env kwargs (logged st [Call "PhasePlane1DAnalyzer" [] kwargs]) = (Ok a, s1)
      /\ st' = logged s1
                 [Call "core.NeuGroup" [a1_model a]
                    [("geometry", PInt 1); ("monitors", names (a1_dvar_names a));
                     ("pars_update", PRef (a1_pars_update a))];
                  Call "core.TrajectoryRunner" []
                    [("target_vars", names (a1_dvar_names a));
                     ("fixed_vars", PRef (a1_fixed_vars a))];
                  Call "core.Network" [] [("mode", PStr "repeat")]].
Proof.
  intros env model tv fixed_vars pars_update options st self st' kwargs Hlen.
  subst kwargs. unfold PhasePlaneAnalyzer_init.
  destruct model; try discriminate.
  destruct (negb (is_dict (default_dict fixed_vars))); [discriminate|].
  destruct (default_dict pars_update) eqn:Hpars; try discriminate.
  destruct (first_invalid_par step_scopes d); [discriminate|].
  intros H. apply bind_inv in H as (opts & s1 & Hopts & H).
  apply lift_inv in Hopts as [_ ->]. rewrite Hlen in H.
  apply bind_inv in H as (a & s2 & Hinit & H). injection H as <- <-.
  cbn [ppa_analyzer ppa_options].
  unfold PhasePlane1DAnalyzer_init in Hinit.
  apply bind_inv in Hinit as (u & s3 & Hemit & Hinit).
  unfold emit in Hemit. injection Hemit as _ <-.
  apply bind_inv in Hinit as (bound & s4 & Hbound & Hinit).
  apply lift_inv in Hbound as [Hbound ->].
  apply bind_inv in Hinit as (a' & s5 & Hbase & Hinit).
  apply bind_inv in Hinit as (u1 & s6 & H1 & Hinit). apply extcall_inv in H1 as [_ ->].
  apply bind_inv in Hinit as (u2 & s7 & H2 & Hinit). apply extcall_inv in H2 as [_ ->].
  apply bind_inv in Hinit as (u3 & s8 & H3 & Hinit). apply extcall_inv in H3 as [_ ->].
  injection Hinit as <- <-.
  assert (Hkw : bound = [("model", PNeuType name step_scopes); ("vars_dynamical", PDict tv);
                         ("vars_fixed", default_dict fixed_vars); ("pars_update", PDict d);
                         ("options", PDict opts)]).
  { unfold bind_keywords in Hbound.
    repeat match type of Hbound with
           | match ?x with _ => _ end = _ => destruct x; try discriminate
           end.
    all: now injection Hbound as <-. }
  subst bound. exists a', s5. split; [reflexivity|]. split; [exact Hbase|].
  rewrite !logged_logged. reflexivity.
Qed.

Lemma init_one_variable_builds_the_runner_witness :
  exists self st' a s1,
    PhasePlaneAnalyzer_init env0 (PNeuType "model" [])
      (PDict [("x", PSeq [PInt (-2); PInt 2])]) PNone PNone PNone st0
    = (Ok self, st')
    /\ ppa_analyzer self = An1D a
    /\ base1d_init env0
         [("model", PNeuType "model" []);
          ("vars_dynamical", PDict [("x", PSeq [PInt (-2); PInt 2])]);
          ("vars_fixed", default_dict PNone); ("pars_update", default_dict PNone);
          ("options", PDict (ppa_options self))]
         (logged st0
            [Call "PhasePlane1DAnalyzer" []
               [("model", PNeuType "model" []);
                ("vars_dynamical", PDict [("x", PSeq [PInt (-2); PInt 2])]);
                ("vars_fixed", default_dict PNone); ("pars_update", default_dict PNone);
                ("options", PDict (ppa_options self))]])
       = (Ok a, s1)
    /\ st' = logged s1
               [Call "core.NeuGroup" [a1_model a]
                  [("geometry", PInt 1); ("monitors", names (a1_dvar_names a));
                   ("pars_update", PRef (a1_pars_update a))];
                Call "core.TrajectoryRunner" []
                  [("target_vars", names (a1_dvar_names a));
                   ("fixed_vars", PRef (a1_fixed_vars a))];
                Call "core.Network" [] [("mode", PStr "repeat")]].
Proof.
  destruct (PhasePlaneAnalyzer_init env0 (PNeuType "model" [])
              (PDict [("x", PSeq [PInt (-2); PInt 2])]) PNone PNone PNone st0)
    as [[self|e] st'] eqn:E.
  - destruct (init_one_variable_builds_the_runner env0 (PNeuType "model" [])
                [("x", PSeq [PInt (-2); PInt 2])] PNone PNone PNone st0 self st' eq_refl E)
      as (a & s1 & Ha & Hbase & Hst).
    exists self, st', a, s1. repeat split; assumption.
  - exfalso. vm_compute in E. discriminate.
Defined.

(** ** plot_vector_field of the 1D analyzer *)

(** X25.  When the derivative can be sampled and the axis can be set, the
    1D [plot_vector_field] draws [dx/dt] against the grid of the
    variable, the zero line, the labels (the ordinate is called
    ['d<x>dt']), the abscissa limits that [utils.rescale] gives for the
    variable's range with scale [(lim_scale - 1) / 2], and the legend, in
    this order; the figure is shown only when [show] is set. *)
Theorem plot_vector_field_1d_draws_the_derivative :
  forall env (self : Analyzer1D) (show : bool) st f xs y_val range lim_scale ls lims args,
    let x_var := a1_x_var self in
    let label := "d" +:+ x_var +:+ "dt" in
    a1_get_f_dx self = Ok f ->
    lookup_key x_var (a1_resolutions self) = Ok xs ->
    f xs = Ok y_val ->
    lookup_key x_var (a1_target_vars self) = Ok range ->
    lookup_key "lim_scale" (a1_options self) = Ok lim_scale ->
    num_value lim_scale = Ok ls ->
    rescale env range ((ls - 1) / 2)%float = Ok lims ->
    py_iter lims = Ok args ->
    PhasePlane1DAnalyzer_plot_vector_field env self show st
    = (Ok tt,
       logged st
         ([Call "plt.plot" [arr1 xs; arr1 y_val]
             [("color", PStr "lightcoral"); ("alpha", PFloat 0.7); ("linewidth", PInt 4);
              ("label", PStr label)];
           Call "plt.axhline" [PInt 0] [];
           Call "plt.xlabel" [PStr x_var] [];
           Call "plt.ylabel" [PStr label] [];
           Call "plt.xlim" args [];
           Call "plt.legend" [] []]
          ++ (if show then [Call "plt.show" [] []] else []))).
Proof.
  intros env self show st f xs y_val range lim_scale ls lims args x_var label
    Hf Hxs Hy Hrange Hlim Hls Hlims Hargs.
  unfold PhasePlane1DAnalyzer_plot_vector_field, missing_variables, try_except, set_lim,
    axis_scale, plt, when, bind, lift, emit, ret.
  fold x_var. rewrite Hf, Hxs, Hy, Hrange, Hlim. cbn [mbind result_bind].
  rewrite Hls. cbn [mbind result_bind]. rewrite Hlims, Hargs.
  unfold logged. destruct show; cbn [heap log]; rewrite <- !app_assoc; reflexivity.
Qed.

Lemma plot_vector_field_1d_draws_the_derivative_witness :
  exists y_val args,
    PhasePlane1DAnalyzer_plot_vector_field env0 cubic_system false st1
    = (Ok tt,
       logged st1
         [Call "plt.plot" [arr1 grid0; arr1 y_val]
            [("color", PStr "lightcoral"); ("alpha", PFloat 0.7); ("linewidth", PInt 4);
             ("label", PStr "dxdt")];
          Call "plt.axhline" [PInt 0] [];
          Call "plt.xlabel" [PStr "x"] [];
          Call "plt.ylabel" [PStr "dxdt"] [];
          Call "plt.xlim" args [];
          Call "plt.legend" [] []]).
Proof.
  eexists; eexists.
  refine (eq_trans
            (plot_vector_field_1d_draws_the_derivative env0 cubic_system false st1
               (fun xs => Ok (map cubic xs)) grid0 (map cubic grid0)
               (PSeq [PFloat (-2); PFloat 2]) (PFloat 1.05) 1.05%float _ _
               eq_refl eq_refl eq_refl eq_refl eq_refl eq_refl eq_refl eq_refl) _).
  rewrite app_nil_r. reflexivity.
Defined.
